(** * Templateer: stub generation and template rendering

    A shallow embedding of the [templateer] package
    ([generator.py], [core.py], [settings.py], [cli.py] and the single-file
    variant [main.py]) together with the properties its specification states.

    Python [str] values are modelled as [string]; the case conversions
    [str.upper] and [str.lower] are the ASCII ones (module stems and class
    names are Python identifiers and file names).  The file system is a finite
    map from paths to nodes, threaded explicitly through every operation that
    touches the disk; a raised exception is a value of type [exn]. *)

From Stdlib Require Import String Ascii List ZArith Lia Bool.
From stdpp Require Import base gmap strings list sorting pretty.
Local Open Scope string_scope.

(** ** Python strings *)

Module PyStr.

Definition in_range (lo hi c : ascii) : bool :=
  (N_of_ascii lo <=? N_of_ascii c)%N && (N_of_ascii c <=? N_of_ascii hi)%N.

Definition is_ascii_lower (c : ascii) : bool := in_range "a" "z" c.
Definition is_ascii_upper (c : ascii) : bool := in_range "A" "Z" c.

(** The case conversions of ASCII.  They are what [str.upper] and
    [str.lower] do on ASCII text ([isascii] below); a letter outside ASCII,
    which [str.upper] may map to another or to several characters, is left
    as it is here. *)
Definition upper_char (c : ascii) : ascii :=
  if is_ascii_lower c then ascii_of_N (N_of_ascii c - 32) else c.

Definition lower_char (c : ascii) : ascii :=
  if is_ascii_upper c then ascii_of_N (N_of_ascii c + 32) else c.

Fixpoint map_chars (f : ascii → ascii) (s : string) : string :=
  match s with
  | "" => ""
  | String c s' => String (f c) (map_chars f s')
  end.

(** [s.upper()] and [s.lower()] *)
Definition upper : string → string := map_chars upper_char.
Definition lower : string → string := map_chars lower_char.

(** [s[:n]] and [s[n:]] for [n >= 0] *)
Fixpoint take (n : nat) (s : string) : string :=
  match n, s with
  | S n', String c s' => String c (take n' s')
  | _, _ => ""
  end.

Fixpoint drop (n : nat) (s : string) : string :=
  match n, s with
  | S n', String _ s' => drop n' s'
  | _, _ => s
  end.

(** [s.startswith(p)] *)
Fixpoint startswith (p s : string) : bool :=
  match p, s with
  | "", _ => true
  | String a p', String b s' => Ascii.eqb a b && startswith p' s'
  | String _ _, "" => false
  end.

(** [s.endswith(p)] *)
Definition endswith (p s : string) : bool :=
  Nat.leb (String.length p) (String.length s) &&
  String.eqb (drop (String.length s - String.length p) s) p.

(** [s.removesuffix(p)] *)
Definition removesuffix (p s : string) : string :=
  if endswith p s && negb (String.eqb p "")
  then take (String.length s - String.length p) s
  else s.

(** [s.split(sep)] for a one-character separator: always at least one
    piece, empty pieces kept. *)
Fixpoint split_go (sep : ascii) (cur : string) (s : string) : list string :=
  match s with
  | "" => [String.rev cur]
  | String c s' =>
      if Ascii.eqb c sep then String.rev cur :: split_go sep "" s'
      else split_go sep (String c cur) s'
  end.

Definition split (sep : ascii) (s : string) : list string := split_go sep "" s.

(** [sep.join(pieces)] *)
Fixpoint join (sep : string) (pieces : list string) : string :=
  match pieces with
  | [] => ""
  | [p] => p
  | p :: rest => p +:+ sep +:+ join sep rest
  end.

(** [c in s] for one character *)
Fixpoint contains_char (c : ascii) (s : string) : bool :=
  match s with
  | "" => false
  | String d s' => Ascii.eqb d c || contains_char c s'
  end.

(** [s.isascii()]: every character is below 128.  On such text the
    characters of a Python [str] are the bytes of the model, and
    [upper_char], [lower_char] are what [str.upper] and [str.lower] do. *)
Fixpoint isascii (s : string) : bool :=
  match s with
  | "" => true
  | String c s' => (N_of_ascii c <? 128)%N && isascii s'
  end.

(** [sorted(xs)] on strings: ascending code point order. *)
Definition sorted (xs : list string) : list string := merge_sort String.le xs.

Definition newline : ascii := "010"%char.
Definition nl : string := String newline "".

End PyStr.

(** ** Exceptions and results *)

Inductive exn : Type :=
| FileNotFoundError
| FileExistsError
| NotADirectoryError
| IsADirectoryError
| TemplateSyntaxError
| UndefinedError
| StopIteration
| ImportError
| AttributeError
| NameError
| TypeError
| ValueError
| ValidationError
| SystemExit
| OutsideFragment.

Global Instance exn_eq_dec : EqDecision exn.
Proof. solve_decision. Defined.

(** [OutsideFragment] is no Python exception: an evaluation ends with it
    when its input leaves the part of a library that is modelled here
    (see [Jinja]); nothing is stated about the program on such inputs. *)

(** [isinstance(e, Exception)]: what an [except Exception] clause catches. *)
Definition is_Exception (e : exn) : bool :=
  match e with
  | SystemExit => false
  | _ => true
  end.

Inductive result (A : Type) : Type :=
| Ok (a : A)
| Exc (e : exn).
Global Arguments Ok {A} a.
Global Arguments Exc {A} e.

Definition result_bind {A B} (r : result A) (k : A → result B) : result B :=
  match r with
  | Ok a => k a
  | Exc e => Exc e
  end.

(** ** Regular expressions: the part of [re] that [camel_re] uses *)

Module Re.

Inductive set_item : Type :=
| SChar (c : ascii)
| SRange (lo hi : ascii).

Inductive regex : Type :=
| ReSet (items : list set_item)
| ReGroup (r : regex)
| ReSeq (r1 r2 : regex).

Definition item_matches (c : ascii) (i : set_item) : bool :=
  match i with
  | SChar d => Ascii.eqb c d
  | SRange lo hi => PyStr.in_range lo hi c
  end.

Record match_obj : Type := MatchObj {
  m_text : string;          (* [m.group(0)] *)
  m_groups : list string;   (* [m.groups()] *)
  m_rest : string           (* the input after the match *)
}.

(** [pattern.match] anchored at the start of [s]. *)
Fixpoint match_at (r : regex) (s : string) : option match_obj :=
  match r with
  | ReSet items =>
      match s with
      | String c s' =>
          if existsb (item_matches c) items
          then Some (MatchObj (String c "") [] s')
          else None
      | "" => None
      end
  | ReGroup r' =>
      match match_at r' s with
      | Some m => Some (MatchObj (m_text m) (m_text m :: m_groups m) (m_rest m))
      | None => None
      end
  | ReSeq r1 r2 =>
      match match_at r1 s with
      | Some m1 =>
          match match_at r2 (m_rest m1) with
          | Some m2 =>
              Some (MatchObj (m_text m1 +:+ m_text m2)
                             (m_groups m1 ++ m_groups m2) (m_rest m2))
          | None => None
          end
      | None => None
      end
  end.

(** [m.group(i)] for [i >= 1] *)
Definition group (m : match_obj) (i : nat) : string :=
  nth (pred i) (m_groups m) "".

(** [pattern.sub(repl, s)] with a callable [repl]: scan from the left,
    replace each match, resume after it; an unmatched character is copied.
    Every pattern of [regex] consumes at least one character, so [fuel]
    equal to the length of the input is never exhausted. *)
Fixpoint sub_from (fuel : nat) (r : regex) (repl : match_obj → string)
    (s : string) : string :=
  match fuel with
  | O => s
  | S fuel' =>
      match s with
      | "" => ""
      | String c s' =>
          match match_at r s with
          | Some m => repl m +:+ sub_from fuel' r repl (m_rest m)
          | None => String c (sub_from fuel' r repl s')
          end
      end
  end.

Definition sub (r : regex) (repl : match_obj → string) (s : string) : string :=
  sub_from (String.length s) r repl s.

End Re.

(** ** generator.py: [ModelGenerator.camelify] (and [main._camelify]) *)

(** [re.compile(r"[_\-]([a-zA-Z])")] *)
Definition camel_re : Re.regex :=
  Re.ReSeq (Re.ReSet [Re.SChar "_"; Re.SChar "-"])
           (Re.ReGroup (Re.ReSet [Re.SRange "a" "z"; Re.SRange "A" "Z"])).

Definition camel_sub (name : string) : string :=
  Re.sub camel_re (fun m => PyStr.upper (Re.group m 1)) name.

Definition camelify (name : string) : string :=
  let name := camel_sub name in
  PyStr.upper (PyStr.take 1 name) +:+ PyStr.drop 1 name.

(** The separator rule in words: a separator is [_] or [-]; it is dropped,
    and the next character upper-cased, exactly when an ASCII letter
    follows it. *)
Definition is_separator (c : ascii) : bool :=
  Ascii.eqb c "_" || Ascii.eqb c "-".

Definition is_ascii_letter (c : ascii) : bool :=
  PyStr.is_ascii_lower c || PyStr.is_ascii_upper c.

Fixpoint camel_words (s : string) : string :=
  match s with
  | "" => ""
  | String c rest =>
      match rest with
      | String d rest' =>
          if is_separator c && is_ascii_letter d
          then String (PyStr.upper_char d) (camel_words rest')
          else String c (camel_words rest)
      | "" => String c ""
      end
  end.

Definition capitalize_first (s : string) : string :=
  match s with
  | "" => ""
  | String c rest => String (PyStr.upper_char c) rest
  end.

(** ** pathlib and the file system *)

(** A path is the tuple [PurePosixPath.parts]: the root, when the path is
    absolute, comes first as the component ["/"] (or ["//"]). *)
Abbreviation path := (list string).

Module PyPath.

Definition is_root_part (c : string) : bool :=
  String.eqb c "/" || String.eqb c "//".

Definition is_absolute (p : path) : bool :=
  match p with
  | c :: _ => is_root_part c
  | [] => false
  end.

Definition keep_part (c : string) : bool :=
  negb (String.eqb c "") && negb (String.eqb c ".").

(** [Path(s).parts]: empty components and ["."] are dropped, [".."] stays;
    exactly two leading slashes make the root ["//"]. *)
Definition of_string (s : string) : path :=
  let root :=
    if PyStr.startswith "/" s then
      if PyStr.startswith "//" s && negb (PyStr.startswith "///" s)
      then ["//"] else ["/"]
    else [] in
  root ++ filter (fun c => keep_part c = true) (PyStr.split "/" s).

(** [p / s] *)
Definition joinpath (p : path) (s : string) : path :=
  let q := of_string s in
  if is_absolute q then q else p ++ q.

(** [p.parent] *)
Definition parent (p : path) : path :=
  match p with
  | [c] => if is_root_part c then p else []
  | _ => removelast p
  end.

(** [p.name] and [p.stem] *)
Definition name (p : path) : string :=
  match p with
  | [c] => if is_root_part c then "" else c
  | _ => List.last p ""
  end.

Fixpoint rfind_dot (s : string) (i : nat) (found : option nat) : option nat :=
  match s with
  | "" => found
  | String c s' =>
      rfind_dot s' (S i) (if Ascii.eqb c "." then Some i else found)
  end.

Definition stem (p : path) : string :=
  let n := name p in
  match rfind_dot n 0 None with
  | Some i =>
      if (0 <? i)%nat && (i <? String.length n - 1)%nat
      then PyStr.take i n else n
  | None => n
  end.

(** The parts of [p] after the leading parts [other]. *)
Fixpoint strip_leading (p other : path) : result path :=
  match other, p with
  | [], _ => Ok p
  | o :: other', c :: p' =>
      if String.eqb o c then strip_leading p' other' else Exc ValueError
  | _ :: _, [] => Exc ValueError
  end.

(** [p.relative_to(other)]: the parts after [other], when [other] is a
    leading part of [p]; [ValueError] otherwise, and always when only one
    of the two paths is absolute (an absolute path is not below [.]). *)
Definition relative_to (p other : path) : result path :=
  if Bool.eqb (is_absolute p) (is_absolute other)
  then strip_leading p other else Exc ValueError.

(** [str(p)] *)
Definition to_string (p : path) : string :=
  match p with
  | [] => "."
  | c :: rest =>
      if is_root_part c then c +:+ PyStr.join "/" rest
      else PyStr.join "/" p
  end.

(** The proper, non-empty leading parts of [p], shortest first. *)
Fixpoint ancestors_from (pre : path) (p : path) : list path :=
  match p with
  | [] | [_] => []
  | c :: rest => (pre ++ [c])%list :: ancestors_from (pre ++ [c])%list rest
  end.

Definition ancestors (p : path) : list path := ancestors_from [] p.

End PyPath.

Inductive node : Type :=
| File (content : string)
| Dir.

Global Instance node_eq_dec : EqDecision node.
Proof. solve_decision. Defined.

(** The state the program runs in: the disk and what was printed.  The
    disk is keyed by the parts of a path as they are written: nothing is
    resolved, so a path that climbs back with [..] is another key than the
    path of the file it reaches, and statements about what a write leaves
    alone are made for paths without [..] (see [no_dotdot]). *)
Record world : Type := World {
  files : gmap path node;
  stdout : list string
}.

Definition set_files (w : world) (fs : gmap path node) : world :=
  World fs (stdout w).

(** ** Computations that read and write the world, or raise *)

Inductive outcome (A : Type) : Type :=
| Return (a : A) (w : world)
| Raise (e : exn) (w : world).
Global Arguments Return {A} a w.
Global Arguments Raise {A} e w.

Definition IO (A : Type) : Type := world → outcome A.

Definition io_ret {A} (a : A) : IO A := fun w => Return a w.

Definition io_bind {A B} (m : IO A) (k : A → IO B) : IO B :=
  fun w =>
    match m w with
    | Return a w' => k a w'
    | Raise e w' => Raise e w'
    end.

(** A pure computation that may raise, run inside [IO]. *)
Definition io_lift {A} (r : result A) : IO A :=
  fun w =>
    match r with
    | Ok a => Return a w
    | Exc e => Raise e w
    end.

Notation "'let*' x ':=' m 'in' k" := (io_bind m (fun x => k))
  (at level 10, x name, m at level 100, k at level 200).
Notation "m ';;' k" := (io_bind m (fun _ => k))
  (at level 100, k at level 200, right associativity).

(** [print(line)] / [click.echo(line)] *)
Definition echo (line : string) : IO unit :=
  fun w => Return tt (World (files w) (stdout w ++ [line])).

Module Os.

(** What a path names. The working directory (the empty relative path)
    and the root always are directories. *)
Definition lookup_node (fs : gmap path node) (p : path) : option node :=
  match p with
  | [] => Some Dir
  | [c] => if PyPath.is_root_part c then Some Dir else fs !! p
  | _ => fs !! p
  end.

(** [p.exists()] *)
Definition exists_ (w : world) (p : path) : bool :=
  match lookup_node (files w) p with
  | Some _ => true
  | None => false
  end.

(** [p.is_dir()] *)
Definition is_dir (w : world) (p : path) : bool :=
  match lookup_node (files w) p with
  | Some Dir => true
  | _ => false
  end.

Definition is_file_node (fs : gmap path node) (p : path) : bool :=
  match lookup_node fs p with
  | Some (File _) => true
  | _ => false
  end.

(** The error of creating an entry whose parent is no directory: ENOTDIR
    when a leading part of the path is a regular file, ENOENT otherwise. *)
Definition parent_error (fs : gmap path node) (p : path) : exn :=
  if existsb (is_file_node fs) (PyPath.ancestors p)
  then NotADirectoryError else FileNotFoundError.

(** [os.mkdir(p)] *)
Definition mkdir (p : path) : IO unit :=
  fun w =>
    if exists_ w p then Raise FileExistsError w
    else if is_dir w (PyPath.parent p)
    then Return tt (set_files w (<[p := Dir]> (files w)))
    else Raise (parent_error (files w) p) w.

(** [open(p, "w")] followed by a write of [data] and a close. *)
Definition write_file (p : path) (data : string) : IO unit :=
  fun w =>
    if is_dir w p then Raise IsADirectoryError w
    else if is_dir w (PyPath.parent p)
    then Return tt (set_files w (<[p := File data]> (files w)))
    else Raise (parent_error (files w) p) w.

End Os.

Module Path.

Definition exists_ := Os.exists_.
Definition is_dir := Os.is_dir.

(** [Path.mkdir(parents, exist_ok)], as pathlib writes it: try [os.mkdir];
    on [FileNotFoundError] make the parent first (when [parents]); on
    another [OSError] give in only if the path is a directory already and
    [exist_ok]. [fuel] bounds the climb to the parents. *)
Fixpoint mkdir_go (fuel : nat) (p : path) (parents exist_ok : bool) : IO unit :=
  fun w =>
    match Os.mkdir p w with
    | Return _ w' => Return tt w'
    | Raise FileNotFoundError _ =>
        if negb parents || bool_decide (PyPath.parent p = p)
        then Raise FileNotFoundError w
        else
          match fuel with
          | O => Raise FileNotFoundError w
          | S fuel' =>
              (mkdir_go fuel' (PyPath.parent p) true true ;;
               mkdir_go fuel' p false exist_ok) w
          end
    | Raise e _ =>
        if negb exist_ok || negb (Os.is_dir w p) then Raise e w
        else Return tt w
    end.

Definition mkdir (p : path) (parents exist_ok : bool) : IO unit :=
  mkdir_go (length p) p parents exist_ok.

(** [Path.touch(exist_ok=True)] *)
Definition touch (p : path) : IO unit :=
  fun w =>
    if Os.exists_ w p then Return tt w
    else if Os.is_dir w (PyPath.parent p)
    then Return tt (set_files w (<[p := File ""]> (files w)))
    else Raise (Os.parent_error (files w) p) w.

(** [Path.write_text(data, encoding="utf-8")] *)
Definition write_text (p : path) (data : string) : IO unit :=
  Os.write_file p data.

End Path.

(** ** textwrap.dedent *)

Module Textwrap.

Definition is_space_or_tab (c : ascii) : bool :=
  Ascii.eqb c " " || Ascii.eqb c "009".

Fixpoint all_space_or_tab (s : string) : bool :=
  match s with
  | "" => true
  | String c s' => is_space_or_tab c && all_space_or_tab s'
  end.

(** [_whitespace_only_re.sub('', text)], one line at a time: a line of
    spaces and tabs only becomes empty. *)
Definition blank_out (line : string) : string :=
  if all_space_or_tab line then "" else line.

(** The leading run of spaces and tabs of a line. *)
Fixpoint leading_whitespace (line : string) : string :=
  match line with
  | "" => ""
  | String c s' =>
      if is_space_or_tab c then String c (leading_whitespace s') else ""
  end.

(** [_leading_whitespace_re.findall(text)]: the indentation of every line
    that holds a character other than space and tab. *)
Definition indents (lines : list string) : list string :=
  map leading_whitespace
      (filter (fun l => all_space_or_tab l = false) lines).

Fixpoint common_prefix (a b : string) : string :=
  match a, b with
  | String x a', String y b' =>
      if Ascii.eqb x y then String x (common_prefix a' b') else ""
  | _, _ => ""
  end.

(** One turn of the loop over [indents]. *)
Definition next_margin (margin : option string) (indent : string)
    : option string :=
  match margin with
  | None => Some indent
  | Some m =>
      if PyStr.startswith m indent then Some m
      else if PyStr.startswith indent m then Some indent
      else Some (common_prefix m indent)
  end.

Definition find_margin (lines : list string) : option string :=
  fold_left next_margin (indents lines) None.

(** [re.sub(r'(?m)^' + margin, '', text)], one line at a time *)
Definition strip_margin (margin line : string) : string :=
  if PyStr.startswith margin line
  then PyStr.drop (String.length margin) line else line.

Definition dedent (text : string) : string :=
  let lines := map blank_out (PyStr.split PyStr.newline text) in
  match find_margin lines with
  | Some margin =>
      if String.eqb margin "" then PyStr.join PyStr.nl lines
      else PyStr.join PyStr.nl (map (strip_margin margin) lines)
  | None => PyStr.join PyStr.nl lines
  end.

End Textwrap.

(** ** Python objects: field values, classes, modules *)

(** The values a field of a binding holds in this model. *)
Inductive pyval : Type :=
| VNone
| VBool (b : bool)
| VStr (s : string).

Global Instance pyval_eq_dec : EqDecision pyval.
Proof. solve_decision. Defined.

(** A class object, as far as the driver looks at it. *)
Record pyclass : Type := PyClass {
  cls_qualname : string;                    (* its identity *)
  cls_name : string;                        (* [__name__] *)
  cls_mro : list string;                    (* identities along its MRO, itself first *)
  cls_template : option string;             (* [__template__], when assigned *)
  cls_output : option string;               (* [__output__]; [None] is Python's None *)
  cls_fields : list (string * option pyval) (* declared fields and their defaults *)
}.

Inductive pyobj : Type :=
| OStr (s : string)
| OClass (c : pyclass)
| OOther.

(** A loaded module: [__name__] and the entries of [__dict__], in
    insertion order. *)
Record py_module : Type := PyModule {
  mod_name : string;
  mod_dict : list (string * pyobj)
}.

Fixpoint assoc {A} (k : string) (l : list (string * A)) : option A :=
  match l with
  | [] => None
  | (k', a) :: l' => if String.eqb k k' then Some a else assoc k l'
  end.

(** [hasattr(mod, name)] and [getattr(mod, name)] *)
Definition hasattr (m : py_module) (name : string) : bool :=
  match assoc name (mod_dict m) with
  | Some _ => true
  | None => false
  end.

Definition getattr (m : py_module) (name : string) : result pyobj :=
  match assoc name (mod_dict m) with
  | Some o => Ok o
  | None => Exc AttributeError
  end.

(** Template text is a [str] by the declared types ([template_str: str]);
    the model does not follow another object into the engine. *)
Definition as_template_text (o : pyobj) : result string :=
  match o with
  | OStr s => Ok s
  | _ => Exc OutsideFragment
  end.

(** ** settings.py *)

Record TemplateerSettings : Type := Settings {
  project_root : path;
  model_dir : path;
  template_output_dir : path
}.

(** The field defaults: [Path("templateer") / "models"] and
    [Path("TEMPLATE_DIR")]. *)
Definition default_settings (root : path) : TemplateerSettings :=
  {| project_root := root;
     model_dir := PyPath.joinpath (PyPath.of_string "templateer") "models";
     template_output_dir := PyPath.of_string "TEMPLATE_DIR" |}.

(** [get_settings()]: [loaded] is what [init_settings] built from the
    environment; the directories are then made sure of. *)
Definition get_settings (loaded : TemplateerSettings) : IO TemplateerSettings :=
  Path.mkdir (model_dir loaded) true true ;;
  Path.touch (PyPath.joinpath (model_dir loaded) "__init__.py") ;;
  Path.mkdir (template_output_dir loaded) true true ;;
  io_ret loaded.

(** ** generator.py: the stub writer *)

Definition dquote : string := String "034" "".
Definition triple_quote : string := dquote +:+ dquote +:+ dquote.

Definition concat_all (pieces : list string) : string :=
  fold_right String.append "" pieces.

(** [f"    {v}: Any | None = None"] *)
Definition field_line (v : string) : string :=
  "    " +:+ v +:+ ": Any | None = None".

(** ["\n".join(... for v in sorted(vars_)) or "    pass"] *)
Definition field_lines (vars_ : gset string) : string :=
  let joined :=
    PyStr.join PyStr.nl (map field_line (PyStr.sorted (elements vars_))) in
  if String.eqb joined "" then "    pass" else joined.

(** [module.__name__.split(".")[-1]] *)
Definition module_stem (module : py_module) : string :=
  List.last (PyStr.split "." (mod_name module)) "".

Definition stub_class_name (module : py_module) : string :=
  camelify (module_stem module) +:+ "Template".

Definition stub_path (settings : TemplateerSettings) (module : py_module) : path :=
  PyPath.joinpath (model_dir settings) (module_stem module +:+ "_model.py").

Module Generator.

(** The f-string handed to [textwrap.dedent], line by line. *)
Definition stub_fstring (class_name stem module_name template_attr
    field_lines : string) : string :=
  concat_all [
    "            from __future__ import annotations"; PyStr.nl;
    PyStr.nl;
    "            from typing import Any"; PyStr.nl;
    PyStr.nl;
    "            from templateer import TemplateModel"; PyStr.nl;
    PyStr.nl;
    PyStr.nl;
    "            class "; class_name; "(TemplateModel):"; PyStr.nl;
    "                "; triple_quote; "Auto-generated from .templateer/";
      stem; ".py"; triple_quote; PyStr.nl;
    "                __template__ = "; dquote; module_name; ".";
      template_attr; dquote; PyStr.nl;
    PyStr.nl;
    "            "; field_lines; PyStr.nl;
    "            "
  ].

Definition stub_source (module : py_module) (template_attr : string)
    (vars_ : gset string) : string :=
  Textwrap.dedent
    (stub_fstring (stub_class_name module) (module_stem module)
       (mod_name module) template_attr (field_lines vars_)).

Definition write_model_stub (settings : TemplateerSettings)
    (module : py_module) (template_attr : string) (vars_ : gset string)
    : IO path :=
  let model_path := stub_path settings module in
  fun w =>
    if Path.exists_ w model_path then Return model_path w
    else
      (Path.write_text model_path (stub_source module template_attr vars_) ;;
       io_ret model_path) w.

End Generator.

(** ** main.py: the single-file variant of the stub writer *)

Module Main.

(** U+2011, the hyphen of the variant's docstring, in UTF-8. *)
Definition nb_hyphen : string := String "226" (String "128" (String "145" "")).

Definition stub_fstring (class_name stem module_name template_attr
    field_lines : string) : string :=
  concat_all [
    "from __future__ import annotations"; PyStr.nl;
    PyStr.nl;
    "from typing import Any"; PyStr.nl;
    "from templateer import TemplateModel"; PyStr.nl;
    PyStr.nl;
    PyStr.nl;
    "class "; class_name; "(TemplateModel):"; PyStr.nl;
    "    "; triple_quote; "Auto"; nb_hyphen; "generated from .templateer/";
      stem; ".py"; triple_quote; PyStr.nl;
    "    __template__ = "; dquote; module_name; "."; template_attr; dquote;
      PyStr.nl;
    PyStr.nl;
    field_lines; PyStr.nl
  ].

Definition stub_source (module : py_module) (template_attr : string)
    (vars_ : gset string) : string :=
  Textwrap.dedent
    (stub_fstring (stub_class_name module) (module_stem module)
       (mod_name module) template_attr (field_lines vars_)).

Definition _write_model_stub (settings : TemplateerSettings)
    (module : py_module) (template_attr : string) (vars_ : gset string)
    : IO path :=
  let model_path := stub_path settings module in
  fun w =>
    if Path.exists_ w model_path then Return model_path w
    else
      (Path.write_text model_path (stub_source module template_attr vars_) ;;
       io_ret model_path) w.

End Main.

(** ** Jinja: the engine, for a fragment of its template language

    The engine is a library; what follows models [Environment.parse],
    [Environment.from_string], [Template.render] and
    [meta.find_undeclared_variables] on templates made of literal text,
    comments [{# ... #}], prints of a variable or constant [{{ x }}], and
    conditionals [{% if x %} ... {% else %} ... {% endif %}] on a variable or
    constant, over printable ASCII text with tabs and line breaks.  A
    template with anything else (filters, loops, attribute access,
    whitespace-control signs, names the engine reserves or predefines, a
    tag opening as the last two characters of the source, ...) ends in
    [OutsideFragment]. *)

Module Jinja.

Inductive undefined_type : Type :=
| Undefined          (* the default: prints as the empty string, is false *)
| StrictUndefined.   (* raises on every use *)

Record Environment : Type := {
  autoescape : bool;
  undefined : undefined_type;
  trim_blocks : bool;
  lstrip_blocks : bool;
  keep_trailing_newline : bool
}.

(** *** The syntax tree *)

Inductive expr : Type :=
| Name (name : string)
| Const (value : pyval).

#[warnings="-register-all"]
Inductive stmt : Type :=
| TemplateData (data : string)
| Output (e : expr)
| If (test : expr) (body else_ : list stmt).

(** *** The lexer *)

Definition cr : ascii := "013"%char.
Definition tab : ascii := "009"%char.

Definition in_charset (c : ascii) : bool :=
  PyStr.in_range " " "~" c || Ascii.eqb c tab ||
  Ascii.eqb c PyStr.newline || Ascii.eqb c cr.

Fixpoint all_in_charset (s : string) : bool :=
  match s with
  | "" => true
  | String c s' => in_charset c && all_in_charset s'
  end.

(** [newline_re.split(source)[::2]] joined by ["\n"]: every [\r\n], [\r]
    and [\n] becomes [\n]. *)
Fixpoint normalize_newlines (s : string) : string :=
  match s with
  | "" => ""
  | String c s' =>
      if Ascii.eqb c cr then
        match s' with
        | String d s'' =>
            if Ascii.eqb d PyStr.newline
            then String PyStr.newline (normalize_newlines s'')
            else String PyStr.newline (normalize_newlines s')
        | "" => String PyStr.newline ""
        end
      else String c (normalize_newlines s')
  end.

(** Without [keep_trailing_newline], one line break at the very end of the
    source is dropped. *)
Fixpoint drop_trailing_newline (s : string) : string :=
  match s with
  | "" => ""
  | String c s' =>
      match s' with
      | "" => if Ascii.eqb c PyStr.newline then "" else s
      | String _ _ => String c (drop_trailing_newline s')
      end
  end.

Definition preprocess (env : Environment) (source : string) : string :=
  let s := normalize_newlines source in
  if keep_trailing_newline env then s else drop_trailing_newline s.

Definition is_tag_space (c : ascii) : bool :=
  Ascii.eqb c " " || Ascii.eqb c tab || Ascii.eqb c PyStr.newline.

Fixpoint lstrip (s : string) : string :=
  match s with
  | "" => ""
  | String c s' => if is_tag_space c then lstrip s' else s
  end.

Definition strip (s : string) : string :=
  String.rev (lstrip (String.rev (lstrip s))).

Definition is_name_start (c : ascii) : bool :=
  PyStr.is_ascii_lower c || PyStr.is_ascii_upper c || Ascii.eqb c "_".

Definition is_name_char (c : ascii) : bool :=
  is_name_start c || PyStr.in_range "0" "9" c.

Fixpoint all_name_chars (s : string) : bool :=
  match s with
  | "" => true
  | String c s' => is_name_char c && all_name_chars s'
  end.

Definition is_identifier (s : string) : bool :=
  match s with
  | "" => false
  | String c s' => is_name_start c && all_name_chars s'
  end.

(** Words of the expression and statement grammar, the special names of
    templates and the default globals of an environment: a template that
    uses one of these as a variable is outside the fragment. *)
Definition reserved_names : list string :=
  [ "and"; "or"; "not"; "in"; "is"; "if"; "else"; "elif"; "endif";
    "for"; "endfor"; "set"; "endset"; "block"; "endblock"; "extends";
    "include"; "import"; "from"; "macro"; "endmacro"; "call"; "endcall";
    "filter"; "endfilter"; "with"; "endwith"; "without"; "context";
    "ignore"; "missing"; "recursive"; "as"; "print"; "do"; "raw";
    "endraw"; "autoescape"; "endautoescape"; "trans"; "endtrans";
    "pluralize"; "break"; "continue"; "debug"; "scoped"; "required";
    "self"; "super"; "varargs"; "kwargs"; "caller"; "loop";
    "range"; "dict"; "lipsum"; "cycler"; "joiner"; "namespace" ].

Definition is_reserved (s : string) : bool :=
  existsb (String.eqb s) reserved_names.

(** The expression a tag holds: a constant word or a variable. *)
Definition parse_expr (s : string) : result expr :=
  if negb (is_identifier s) then Exc OutsideFragment
  else if String.eqb s "true" || String.eqb s "True" then Ok (Const (VBool true))
  else if String.eqb s "false" || String.eqb s "False" then Ok (Const (VBool false))
  else if String.eqb s "none" || String.eqb s "None" then Ok (Const VNone)
  else if is_reserved s then Exc OutsideFragment
  else Ok (Name s).

Inductive token : Type :=
| TData (data : string)
| TVariable (e : expr)
| TIf (test : expr)
| TElse
| TEndif.

(** [{{ content }}] *)
Definition variable_token (content : string) : result token :=
  match parse_expr (strip content) with
  | Ok e => Ok (TVariable e)
  | Exc e => Exc e
  end.

(** [{% content %}] *)
Definition block_token (content : string) : result token :=
  let s := strip content in
  if String.eqb s "else" then Ok TElse
  else if String.eqb s "endif" then Ok TEndif
  else if String.eqb (PyStr.take 2 s) "if" &&
          match PyStr.drop 2 s with
          | String c _ => is_tag_space c
          | "" => false
          end
  then
    match parse_expr (lstrip (PyStr.drop 2 s)) with
    | Ok e => Ok (TIf e)
    | Exc e => Exc e
    end
  else Exc OutsideFragment.

Definition is_sign (c : ascii) : bool := Ascii.eqb c "-" || Ascii.eqb c "+".

(** A comment is skipped, unless a whitespace-control sign stands at one of
    its ends. *)
Definition comment_ok (content_rev : string) : bool :=
  match content_rev with
  | String c _ => negb (is_sign c)
  | "" => true
  end.

Fixpoint span_blank (s : string) : string * string :=
  match s with
  | String c s' =>
      if Ascii.eqb c " " || Ascii.eqb c tab
      then let '(b, r) := span_blank s' in (String c b, r)
      else ("", s)
  | "" => ("", "")
  end.

(** [lstrip_blocks]: the blanks between the start of a line and a block or
    comment tag are dropped. [data_rev] is the text before the tag, last
    character first; [line_starting] says whether that text began a line. *)
Definition lstrip_data (env : Environment) (line_starting : bool)
    (data_rev : string) : string :=
  if lstrip_blocks env then
    let '(blank, rest) := span_blank data_rev in
    match blank, rest with
    | "", _ => data_rev
    | _, String c _ => if Ascii.eqb c PyStr.newline then rest else data_rev
    | _, "" => if line_starting then rest else data_rev
    end
  else data_rev.

Definition push_data (data_rev : string) (toks : list token) : list token :=
  match data_rev with
  | "" => toks
  | _ => TData (String.rev data_rev) :: toks
  end.

Inductive lexer_state : Type :=
| InRoot (data_rev : string) (line_starting : bool)
| InVariable (content_rev : string)
| InBlock (content_rev : string)
| InComment (content_rev : string).

(** The tokens of a preprocessed source, last token first in [toks]. *)
Fixpoint tokeniter (env : Environment) (st : lexer_state) (toks : list token)
    (s : string) : result (list token) :=
  match s with
  | "" =>
      match st with
      | InRoot data_rev _ => Ok (rev (push_data data_rev toks))
      | _ => Exc TemplateSyntaxError
      end
  | String a s1 =>
      match st with
      | InRoot data_rev ls =>
          match s1 with
          | String b s2 =>
              if Ascii.eqb a "{" &&
                 (Ascii.eqb b "{" || Ascii.eqb b "%" || Ascii.eqb b "#")
              then
                match s2 with
                | String c _ =>
                    if is_sign c then Exc OutsideFragment
                    else if Ascii.eqb b "{"
                    then tokeniter env (InVariable "") (push_data data_rev toks) s2
                    else if Ascii.eqb b "%"
                    then tokeniter env (InBlock "")
                           (push_data (lstrip_data env ls data_rev) toks) s2
                    else tokeniter env (InComment "")
                           (push_data (lstrip_data env ls data_rev) toks) s2
                | "" => Exc OutsideFragment
                end
              else tokeniter env (InRoot (String a data_rev) ls) toks s1
          | "" => tokeniter env (InRoot (String a data_rev) ls) toks s1
          end
      | InVariable content_rev =>
          match s1 with
          | String b s2 =>
              if Ascii.eqb a "}" && Ascii.eqb b "}" then
                match variable_token (String.rev content_rev) with
                | Ok t => tokeniter env (InRoot "" false) (t :: toks) s2
                | Exc e => Exc e
                end
              else tokeniter env (InVariable (String a content_rev)) toks s1
          | "" => Exc TemplateSyntaxError
          end
      | InBlock content_rev =>
          match s1 with
          | String b s2 =>
              if Ascii.eqb a "%" && Ascii.eqb b "}" then
                match block_token (String.rev content_rev) with
                | Ok t =>
                    match s2 with
                    | String c s3 =>
                        if trim_blocks env && Ascii.eqb c PyStr.newline
                        then tokeniter env (InRoot "" true) (t :: toks) s3
                        else tokeniter env (InRoot "" false) (t :: toks) s2
                    | "" => tokeniter env (InRoot "" false) (t :: toks) s2
                    end
                | Exc e => Exc e
                end
              else tokeniter env (InBlock (String a content_rev)) toks s1
          | "" => Exc TemplateSyntaxError
          end
      | InComment content_rev =>
          match s1 with
          | String b s2 =>
              if Ascii.eqb a "#" && Ascii.eqb b "}" then
                if comment_ok content_rev then
                  match s2 with
                  | String c s3 =>
                      if trim_blocks env && Ascii.eqb c PyStr.newline
                      then tokeniter env (InRoot "" true) toks s3
                      else tokeniter env (InRoot "" false) toks s2
                  | "" => tokeniter env (InRoot "" false) toks s2
                  end
                else Exc OutsideFragment
              else tokeniter env (InComment (String a content_rev)) toks s1
          | "" => Exc TemplateSyntaxError
          end
      end
  end.

Definition tokenize (env : Environment) (source : string) : result (list token) :=
  if all_in_charset source
  then tokeniter env (InRoot "" true) [] (preprocess env source)
  else Exc OutsideFragment.

(** *** The parser *)

(** An [if] that is still open: its test, the statements of the enclosing
    block so far, and its body once [else] has been seen. *)
Record open_if : Type := OpenIf {
  oi_test : expr;
  oi_outer : list stmt;
  oi_body : option (list stmt)
}.

(** [cur] holds the statements of the block being read, last first. *)
Fixpoint subparse (toks : list token) (cur : list stmt) (stack : list open_if)
    : result (list stmt) :=
  match toks with
  | [] =>
      match stack with
      | [] => Ok (rev cur)
      | _ :: _ => Exc TemplateSyntaxError
      end
  | TData d :: toks' => subparse toks' (TemplateData d :: cur) stack
  | TVariable e :: toks' => subparse toks' (Output e :: cur) stack
  | TIf test :: toks' => subparse toks' [] (OpenIf test cur None :: stack)
  | TElse :: toks' =>
      match stack with
      | OpenIf test outer None :: stack' =>
          subparse toks' [] (OpenIf test outer (Some (rev cur)) :: stack')
      | _ => Exc TemplateSyntaxError
      end
  | TEndif :: toks' =>
      match stack with
      | OpenIf test outer None :: stack' =>
          subparse toks' (If test (rev cur) [] :: outer) stack'
      | OpenIf test outer (Some body) :: stack' =>
          subparse toks' (If test body (rev cur) :: outer) stack'
      | [] => Exc TemplateSyntaxError
      end
  end.

(** [env.parse(source)] *)
Definition parse (env : Environment) (source : string) : result (list stmt) :=
  match tokenize env source with
  | Ok toks => subparse toks [] []
  | Exc e => Exc e
  end.

(** *** Rendering *)

(** [str(value)] *)
Definition to_string (v : pyval) : string :=
  match v with
  | VNone => "None"
  | VBool true => "True"
  | VBool false => "False"
  | VStr s => s
  end.

(** [bool(value)] *)
Definition truth (v : pyval) : bool :=
  match v with
  | VNone => false
  | VBool b => b
  | VStr s => negb (String.eqb s "")
  end.

Definition output_expr (env : Environment) (ctx : gmap string pyval)
    (e : expr) : result string :=
  match e with
  | Const v => Ok (to_string v)
  | Name x =>
      match ctx !! x with
      | Some v => Ok (to_string v)
      | None =>
          match undefined env with
          | StrictUndefined => Exc UndefinedError
          | Undefined => Ok ""
          end
      end
  end.

Definition test_expr (env : Environment) (ctx : gmap string pyval)
    (e : expr) : result bool :=
  match e with
  | Const v => Ok (truth v)
  | Name x =>
      match ctx !! x with
      | Some v => Ok (truth v)
      | None =>
          match undefined env with
          | StrictUndefined => Exc UndefinedError
          | Undefined => Ok false
          end
      end
  end.

Section Rendering.

Variable env : Environment.
Variable ctx : gmap string pyval.

Fixpoint render_stmt (s : stmt) : result string :=
  let render_block :=
    fix render_block (b : list stmt) : result string :=
      match b with
      | [] => Ok ""
      | s' :: b' =>
          match render_stmt s' with
          | Ok out =>
              match render_block b' with
              | Ok outs => Ok (out +:+ outs)
              | Exc e => Exc e
              end
          | Exc e => Exc e
          end
      end in
  match s with
  | TemplateData d => Ok d
  | Output e => output_expr env ctx e
  | If test body else_ =>
      match test_expr env ctx test with
      | Ok true => render_block body
      | Ok false => render_block else_
      | Exc e => Exc e
      end
  end.

Fixpoint render_block (b : list stmt) : result string :=
  match b with
  | [] => Ok ""
  | s :: b' =>
      match render_stmt s with
      | Ok out =>
          match render_block b' with
          | Ok outs => Ok (out +:+ outs)
          | Exc e => Exc e
          end
      | Exc e => Exc e
      end
  end.

End Rendering.

(** A compiled template: [env.from_string(source)]. *)
Record Template : Type := { t_env : Environment; t_body : list stmt }.

Definition from_string (env : Environment) (source : string) : result Template :=
  if autoescape env then Exc OutsideFragment
  else
    match parse env source with
    | Ok body => Ok {| t_env := env; t_body := body |}
    | Exc e => Exc e
    end.

(** [template.render], with [ctx] as its keyword arguments *)
Definition render (t : Template) (ctx : gmap string pyval) : result string :=
  render_block (t_env t) ctx (t_body t).

(** *** [meta.find_undeclared_variables] *)

Definition expr_names (e : expr) : gset string :=
  match e with
  | Name x => {[x]}
  | Const _ => ∅
  end.

Fixpoint stmt_names (s : stmt) : gset string :=
  let block_names :=
    fix block_names (b : list stmt) : gset string :=
      match b with
      | [] => ∅
      | s' :: b' => stmt_names s' ∪ block_names b'
      end in
  match s with
  | TemplateData _ => ∅
  | Output e => expr_names e
  | If test body else_ =>
      expr_names test ∪ block_names body ∪ block_names else_
  end.

Fixpoint block_names (b : list stmt) : gset string :=
  match b with
  | [] => ∅
  | s :: b' => stmt_names s ∪ block_names b'
  end.

Definition find_undeclared_variables (ast : list stmt) : gset string :=
  block_names ast.

End Jinja.

(** ** The interpreter around the package *)

(** The value that the globals of a run hold under [__loader__], as far
    as [autogen_models] uses it.  [runpy.run_path] runs a file from its
    path, without a module spec, and binds [__loader__] to [None] before the
    code of the file runs; the globals it returns hold something else only
    when the file itself has assigned [__loader__].  [NoLoader] stands for
    [None] (and for any other object without a [load_module] method),
    [Loader r] for an object whose [load_module()] gives [r]. *)
Inductive loader_value : Type :=
| NoLoader
| Loader (load_module : result py_module).

(** What the Python run time contributes and the package does not define:
    running a template file ([runpy.run_path(p)], which raises what the file
    raises and else returns the globals of the run, of which the package
    reads [__loader__] only), importing a module by its dotted name, and the
    text of an exception ([str(exc)]).  Running and importing execute code of
    the user's; they either give a value or raise.  The byte-code caches
    ([__pycache__]) that the interpreter writes beside the modules it imports
    are its own business: the disk of a [world] leaves them out, and what is
    stated about the disk is stated for the entries the package itself reads
    and writes. *)
Record interpreter : Type := Interpreter {
  runpy_run_path : path → result loader_value;
  py_import : string → result py_module;
  exc_str : exn → string
}.

(** [runpy.run_path(tpl_py)["__loader__"].load_module()], line 85 of
    [generator.py] (and line 183 of [main.py]): on the [None] that [runpy]
    has put there, the attribute access raises [AttributeError]. *)
Definition run_path (py : interpreter) (tpl_py : path) : result py_module :=
  match runpy_run_path py tpl_py with
  | Ok NoLoader => Exc AttributeError
  | Ok (Loader load_module) => load_module
  | Exc e => Exc e
  end.

(** [__import__(name, fromlist=[...])] and [importlib.import_module(name)] *)
Definition import_module (py : interpreter) (name : string) : result py_module :=
  if String.eqb name "" then Exc ValueError else py_import py name.

(** [s.rpartition(".")], without the separator: the text before the last
    dot and the text after it; no dot leaves the head empty. *)
Definition rpartition_dot (s : string) : string * string :=
  let pieces := PyStr.split "." s in
  (PyStr.join "." (removelast pieces), List.last pieces "").

(** ** core.py *)

(** [JinjaEnvironment().env] *)
Definition jinja_env : Jinja.Environment :=
  {| Jinja.autoescape := false;
     Jinja.undefined := Jinja.StrictUndefined;
     Jinja.trim_blocks := true;
     Jinja.lstrip_blocks := true;
     Jinja.keep_trailing_newline := false |}.

(** An instance of a [TemplateModel] subclass: its class, and its fields
    with their values ([self.model_dump()]). *)
Record TemplateModel : Type := Instance {
  inst_class : pyclass;
  inst_fields : gmap string pyval
}.

Section Core.

Variable settings : TemplateerSettings.
Variable py : interpreter.

Definition _template_str (self : TemplateModel) : result string :=
  match cls_template (inst_class self) with
  | None => Exc AttributeError
  | Some ref =>
      let '(module_path, var_name) := rpartition_dot ref in
      result_bind (import_module py module_path) (fun module =>
      result_bind (getattr module var_name) as_template_text)
  end.

Definition _jinja_template (self : TemplateModel) : result Jinja.Template :=
  result_bind (_template_str self) (Jinja.from_string jinja_env).

Definition _output_path (self : TemplateModel) : path :=
  let derived :=
    PyStr.lower (PyStr.removesuffix "Template" (cls_name (inst_class self)))
      +:+ ".py" in
  let filename :=
    match cls_output (inst_class self) with
    | Some out => if String.eqb out "" then derived else out
    | None => derived
    end in
  PyPath.joinpath (template_output_dir settings) filename.

Definition render (self : TemplateModel) : result string :=
  result_bind (_jinja_template self) (fun t =>
    Jinja.render t (inst_fields self)).

Definition generate (self : TemplateModel) (write : bool) : IO string :=
  let* code := io_lift (render self) in
  (if write then
     Path.mkdir (PyPath.parent (_output_path self)) true true ;;
     Path.write_text (_output_path self) code
   else io_ret tt) ;;
  io_ret code.

End Core.

(** ** generator.py: discovery *)

(** [dir.glob("*" + suffix)]: the entries of [dir] whose name ends with
    [suffix]. The order is the directory's; the model lists in key order. *)
Definition glob_suffix (w : world) (dir : path) (suffix : string) : list path :=
  filter (fun p => PyPath.parent p = dir ∧ p ≠ dir ∧
                   PyStr.endswith suffix (PyPath.name p) = true)
         (map fst (map_to_list (files w))).

Definition arrow : string := String "226" (String "134" (String "146" "")).

Section Discovery.

Variable settings : TemplateerSettings.
Variable py : interpreter.

Definition template_root : path :=
  PyPath.joinpath (project_root settings) ".templateer".

Definition discover_template_modules (w : world) : list path :=
  glob_suffix w template_root ".py".

Definition extract_template_vars (template_str : string) : result (gset string) :=
  result_bind (Jinja.parse jinja_env template_str) (fun ast =>
    Ok (Jinja.find_undeclared_variables ast)).

(** The body of the loop of [autogen_models] for one template file:
    [None] when the file is skipped, the stub's path otherwise. *)
Definition autogen_one (verbose : bool) (tpl_py : path) : IO (option path) :=
  let* module := io_lift (run_path py tpl_py) in
  if negb (hasattr module "TEMPLATE") then io_ret None
  else
    let* template := io_lift (result_bind (getattr module "TEMPLATE")
                                as_template_text) in
    let* vars_ := io_lift (extract_template_vars template) in
    let* model_path :=
      Generator.write_model_stub settings module "TEMPLATE" vars_ in
    (if verbose then
       let* rel_path := io_lift (PyPath.relative_to model_path
                                   (project_root settings)) in
       echo ("[templateer] model stub " +:+ arrow +:+ " " +:+
             PyPath.to_string rel_path)
     else io_ret tt) ;;
    io_ret (Some model_path).

Fixpoint autogen_loop (verbose : bool) (tpls : list path)
    (generated : list path) : IO (list path) :=
  match tpls with
  | [] => io_ret generated
  | tpl_py :: rest =>
      let* r := autogen_one verbose tpl_py in
      match r with
      | None => autogen_loop verbose rest generated
      | Some model_path =>
          autogen_loop verbose rest (generated ++ [model_path])
      end
  end.

Definition autogen_models (verbose : bool) : IO (list path) :=
  fun w => autogen_loop verbose (discover_template_modules w) [] w.

End Discovery.

(** ** cli.py *)

Definition TemplateModel_qualname : string := "templateer.core.TemplateModel".

(** [issubclass(c, TemplateModel)] and [c is TemplateModel] *)
Definition issubclass_TemplateModel (c : pyclass) : bool :=
  existsb (String.eqb TemplateModel_qualname) (cls_mro c).

Definition is_TemplateModel (c : pyclass) : bool :=
  String.eqb (cls_qualname c) TemplateModel_qualname.

(** The condition of the generator expression. *)
Definition eligible (o : pyobj) : bool :=
  match o with
  | OClass c => issubclass_TemplateModel c && negb (is_TemplateModel c)
  | _ => false
  end.

(** [next(c for c in mod.__dict__.values() if ...)] *)
Fixpoint next_template_class (values : list pyobj) : result pyclass :=
  match values with
  | [] => Exc StopIteration
  | OClass c :: rest =>
      if eligible (OClass c) then Ok c else next_template_class rest
  | _ :: rest => next_template_class rest
  end.

(** [tmpl_cls()]: every field takes its default; a field without one makes
    the validation fail. *)
Fixpoint field_defaults (fields : list (string * option pyval))
    : result (list (string * pyval)) :=
  match fields with
  | [] => Ok []
  | (name, Some v) :: rest =>
      result_bind (field_defaults rest) (fun l => Ok ((name, v) :: l))
  | (_, None) :: _ => Exc ValidationError
  end.

Definition instantiate (c : pyclass) : result TemplateModel :=
  result_bind (field_defaults (cls_fields c)) (fun l =>
    Ok {| inst_class := c; inst_fields := list_to_map l |}).

Definition warning_sign : string :=
  String "226" (String "154" (String "160"
    (String "239" (String "184" (String "143" ""))))).

Module Cli.

Section Commands.

Variable settings : TemplateerSettings.
Variable py : interpreter.

(** [autogen(verbose)] *)
Definition autogen (verbose : bool) : IO unit :=
  let* generated := autogen_models settings py verbose in
  if negb verbose
  then echo ("Generated " +:+ pretty (length generated) +:+ " model stubs")
  else io_ret tt.

(** The [try] block of the loop of [generate], up to the count: import the
    stub, pick its class, instantiate, render and write. *)
Definition render_stub (stub : path) : IO TemplateModel :=
  let mod_name := "templateer.models." +:+ PyPath.stem stub in
  let* module := io_lift (import_module py mod_name) in
  let* tmpl_cls :=
    io_lift (next_template_class (map snd (mod_dict module))) in
  let* instance := io_lift (instantiate tmpl_cls) in
  generate settings py instance true ;;
  io_ret instance.

(** The rest of the [try] block, after [rendered_count += 1]. *)
Definition report_rendered (verbose : bool) (instance : TemplateModel) : IO unit :=
  if verbose then
    let* rel_path := io_lift (PyPath.relative_to (_output_path settings instance)
                                (project_root settings)) in
    echo ("[templateer] rendered " +:+ arrow +:+ " " +:+
          PyPath.to_string rel_path)
  else io_ret tt.

(** [except Exception as exc] *)
Definition report_failure (verbose : bool) (stub : path) (e : exn) : IO unit :=
  if verbose
  then echo (warning_sign +:+ "  " +:+ PyPath.stem stub +:+
             " could not render: " +:+ exc_str py e)
  else io_ret tt.

(** One turn of the loop, from [rendered_count] to its next value. *)
Definition generate_one (verbose : bool) (stub : path) (rendered_count : nat)
    : IO nat :=
  fun w =>
    match render_stub stub w with
    | Return instance w1 =>
        match report_rendered verbose instance w1 with
        | Return _ w2 => Return (S rendered_count) w2
        | Raise e w2 =>
            if is_Exception e
            then (report_failure verbose stub e ;;
                  io_ret (S rendered_count)) w2
            else Raise e w2
        end
    | Raise e w1 =>
        if is_Exception e
        then (report_failure verbose stub e ;; io_ret rendered_count) w1
        else Raise e w1
    end.

Fixpoint generate_loop (verbose : bool) (stubs : list path)
    (rendered_count : nat) : IO nat :=
  match stubs with
  | [] => io_ret rendered_count
  | stub :: rest =>
      let* n := generate_one verbose stub rendered_count in
      generate_loop verbose rest n
  end.

(** [generate(verbose)] *)
Definition generate (verbose : bool) : IO unit :=
  let* generated := autogen_models settings py verbose in
  (if verbose
   then echo ("Generated " +:+ pretty (length generated) +:+ " model stubs")
   else io_ret tt) ;;
  let* rendered_count :=
    (fun w => generate_loop verbose
                (glob_suffix w (model_dir settings) "_model.py") 0 w) in
  if negb verbose
  then echo ("Rendered " +:+ pretty rendered_count +:+ " templates")
  else io_ret tt.

End Commands.

End Cli.

(** ** main.py: the generation loop of the command-line shim *)

Module MainScript.

(** [TemplateerSettings.__module__]: the shim runs under
    [if __name__ == "__main__"], and the class is declared in [main.py]
    itself, so its module is [__main__]. *)
Definition settings_module : string := "__main__".

(** [main.py] declares a [TemplateModel] of its own, and it is against that
    class that the shim tests. *)
Definition TemplateModel_qualname : string := "__main__.TemplateModel".

Definition eligible (o : pyobj) : bool :=
  match o with
  | OClass c =>
      existsb (String.eqb TemplateModel_qualname) (cls_mro c) &&
      negb (String.eqb (cls_qualname c) TemplateModel_qualname)
  | _ => false
  end.

(** [next(c for c in mod.__dict__.values() if ...)] *)
Fixpoint next_template_class (values : list pyobj) : result pyclass :=
  match values with
  | [] => Exc StopIteration
  | OClass c :: rest =>
      if eligible (OClass c) then Ok c else next_template_class rest
  | _ :: rest => next_template_class rest
  end.

Section Loop.

Variable settings : TemplateerSettings.
Variable py : interpreter.

(** The [try] block: instantiate, render and write, report. [generate]
    returns the rendered text, and it is that text which the shim turns
    into a path to report. *)
Definition try_render (tmpl_cls : pyclass) : IO unit :=
  let* instance := io_lift (instantiate tmpl_cls) in
  let* outfile := generate settings py instance true in
  let* rel_path := io_lift (PyPath.relative_to (PyPath.of_string outfile)
                              (project_root settings)) in
  echo ("[templateer] rendered " +:+ arrow +:+ " " +:+
        PyPath.to_string rel_path).

(** One turn of the loop: the import and the choice of the class stand
    before the [try]. *)
Definition render_one (stub : path) : IO unit :=
  let* module :=
    io_lift (import_module py
               (settings_module +:+ ".models." +:+ PyPath.stem stub)) in
  let* tmpl_cls :=
    io_lift (next_template_class (map snd (mod_dict module))) in
  fun w =>
    match try_render tmpl_cls w with
    | Return _ w' => Return tt w'
    | Raise e w' =>
        if is_Exception e
        then echo (warning_sign +:+ "  " +:+ cls_name tmpl_cls +:+
                   " could not render: " +:+ exc_str py e) w'
        else Raise e w'
    end.

Fixpoint generation_loop (stubs : list path) : IO unit :=
  match stubs with
  | [] => io_ret tt
  | stub :: rest => render_one stub ;; generation_loop rest
  end.

End Loop.

End MainScript.

(** ** Notions used to state the properties *)



Section LookedUp.

Variable ctx : gmap string pyval.



End LookedUp.

(** The template files of a listing that load and expose [TEMPLATE]. *)
Definition exposes_TEMPLATE (py : interpreter) (tpl_py : path) : option py_module :=
  match run_path py tpl_py with
  | Ok module => if hasattr module "TEMPLATE" then Some module else None
  | Exc _ => None
  end.

Definition expected_stubs (settings : TemplateerSettings) (py : interpreter)
    (tpls : list path) : list path :=
  omap (fun tpl_py => stub_path settings <$> exposes_TEMPLATE py tpl_py) tpls.

(** A template file whose turn of the discovery pass goes through, once
    the model directory is there: it loads, and either has no [TEMPLATE] or
    has one that parses, with a stub path directly in the model directory
    and, for the verbose report, below the project root. *)
Definition processable (settings : TemplateerSettings) (py : interpreter)
    (verbose : bool) (tpl_py : path) : Prop :=
  ∃ module,
    run_path py tpl_py = Ok module ∧
    (hasattr module "TEMPLATE" = false ∨
     ∃ template vars_,
       getattr module "TEMPLATE" = Ok (OStr template) ∧
       extract_template_vars template = Ok vars_ ∧
       PyPath.parent (stub_path settings module) = model_dir settings ∧
       (verbose = true →
        ∃ rel, PyPath.relative_to (stub_path settings module)
                 (project_root settings) = Ok rel)).


(** A path through a byte-code cache directory of the interpreter (see
    [interpreter]). *)
Definition is_cache_path (p : path) : bool :=
  existsb (String.eqb "__pycache__") p.



(** The module [__main__] is a script and no package: it has no
    [__path__], so that the import of a module below it raises
    [ModuleNotFoundError], an [ImportError].  This is the case whenever
    [main.py] runs as a script. *)
Definition main_is_script (py : interpreter) : Prop :=
  ∀ name, py_import py ("__main__." +:+ name) = Exc ImportError.

(** ** Worlds used in the examples *)

Definition proj_settings : TemplateerSettings := default_settings ["/"; "proj"].

Definition foo_module : py_module :=
  PyModule "foo" [("TEMPLATE", OStr "Hello {{ name }}, {{ age }}!")].

(** A disk as [get_settings] leaves it: both directories, and the package
    marker of the model directory. *)
Definition fresh_disk : gmap path node :=
  list_to_map [
    (["templateer"], Dir);
    (["templateer"; "models"], Dir);
    (["templateer"; "models"; "__init__.py"], File "");
    (["TEMPLATE_DIR"], Dir)
  ].

Definition fresh_world : world := World fresh_disk [].
Definition empty_world : world := World ∅ [].

(** Template modules of the examples. *)
Definition greeting_module : py_module :=
  PyModule "greeting" [("TEMPLATE", OStr "Hello {{ name }}!")].
Definition hello_module : py_module :=
  PyModule "hello" [("TEMPLATE", OStr "hello world")].
Definition plain_module : py_module :=
  PyModule "plain" [("TEMPLATE", OStr ("hello world" +:+ PyStr.nl))].
Definition guarded_module : py_module :=
  PyModule "guarded" [("TEMPLATE", OStr "{% if flag %}{{ name }}{% endif %}")].
Definition broken_module : py_module :=
  PyModule "broken" [("TEMPLATE", OStr "{{ name")].
Definition helper_module : py_module :=
  PyModule "helper" [("VERSION", OStr "1")].

Definition example_modules : list (string * py_module) :=
  [ ("greeting", greeting_module); ("hello", hello_module);
    ("plain", plain_module); ("guarded", guarded_module);
    ("broken", broken_module); ("helper", helper_module) ].

Definition example_class (name template : string)
    (fields : list (string * option pyval)) : pyclass :=
  {| cls_qualname := "templateer.models." +:+ name;
     cls_name := name;
     cls_mro := ["templateer.models." +:+ name; TemplateModel_qualname;
                 "pydantic.main.BaseModel"; "builtins.object"];
     cls_template := Some template;
     cls_output := None;
     cls_fields := fields |}.

Definition GreetingTemplate : pyclass :=
  example_class "GreetingTemplate" "greeting.TEMPLATE" [("name", Some VNone)].
Definition HelloTemplate : pyclass :=
  example_class "HelloTemplate" "hello.TEMPLATE" [].

(** The base class itself, as a stub module sees it after
    [from templateer import TemplateModel]. *)
Definition TemplateModel_class : pyclass :=
  {| cls_qualname := TemplateModel_qualname;
     cls_name := "TemplateModel";
     cls_mro := [TemplateModel_qualname; "pydantic.main.BaseModel";
                 "builtins.object"];
     cls_template := None;
     cls_output := None;
     cls_fields := [] |}.

(** Stub modules of the examples: one with two eligible classes, one
    with none. *)
Definition two_model : py_module :=
  PyModule "templateer.models.two_model"
    [ ("annotations", OOther); ("Any", OOther);
      ("TemplateModel", OClass TemplateModel_class);
      ("HelloTemplate", OClass HelloTemplate);
      ("GreetingTemplate", OClass GreetingTemplate) ].

Definition none_model : py_module :=
  PyModule "templateer.models.none_model"
    [ ("annotations", OOther); ("Any", OOther);
      ("TemplateModel", OClass TemplateModel_class) ].

Definition example_stubs : list (string * py_module) :=
  [ ("templateer.models.two_model", two_model);
    ("templateer.models.none_model", none_model) ].

(** The interpreter of the examples.  Its template files assign
    [__loader__] themselves, to a loader whose [load_module()] gives the
    module of the file, so that line 85 gets a module; a file it does not
    know raises when it is run. *)
Definition example_py : interpreter :=
  {| runpy_run_path := fun p =>
       match assoc (PyPath.stem p) example_modules with
       | Some m => Ok (Loader (Ok m))
       | None => Exc NameError
       end;
     py_import := fun name =>
       match assoc name (example_modules ++ example_stubs) with
       | Some m => Ok m
       | None => Exc ImportError
       end;
     exc_str := fun _ => "" |}.

(** An interpreter for ordinary template files: every file runs and leaves
    [__loader__] as [runpy] has set it. *)
Definition plain_py : interpreter :=
  {| runpy_run_path := fun _ => Ok NoLoader;
     py_import := fun _ => Exc ImportError;
     exc_str := fun _ => "" |}.

Definition ada : TemplateModel :=
  {| inst_class := GreetingTemplate;
     inst_fields := {["name" := VStr "Ada"]} |}.




Definition hello : TemplateModel :=
  {| inst_class := HelloTemplate; inst_fields := ∅ |}.


(** A project with three template files, the second of which (in the order
    of the listing) holds a template that does not parse. *)
Definition three_templates_disk : gmap path node :=
  list_to_map [
    (["/"], Dir); (["/"; "proj"], Dir);
    (["/"; "proj"; ".templateer"], Dir);
    (["/"; "proj"; ".templateer"; "hello.py"], File "");
    (["/"; "proj"; ".templateer"; "broken.py"], File "");
    (["/"; "proj"; ".templateer"; "greeting.py"], File "");
    (["templateer"], Dir);
    (["templateer"; "models"], Dir);
    (["templateer"; "models"; "__init__.py"], File "");
    (["TEMPLATE_DIR"], Dir)
  ].

(** A project with a helper module (no [TEMPLATE]) and two template
    modules; the stub of [hello] exists already, edited by its user. *)
Definition rerun_disk : gmap path node :=
  list_to_map [
    (["/"], Dir); (["/"; "proj"], Dir);
    (["/"; "proj"; ".templateer"], Dir);
    (["/"; "proj"; ".templateer"; "helper.py"], File "");
    (["/"; "proj"; ".templateer"; "hello.py"], File "");
    (["/"; "proj"; ".templateer"; "greeting.py"], File "");
    (["templateer"], Dir);
    (["templateer"; "models"], Dir);
    (["templateer"; "models"; "__init__.py"], File "");
    (["templateer"; "models"; "hello_model.py"], File "# edited by hand");
    (["TEMPLATE_DIR"], Dir)
  ].

(** ** Further notions and examples *)

(** Every entry of the disk of [w] is still there, as it was, in [w']. *)
Definition preserved (w w' : world) : Prop :=
  ∀ q n, files w !! q = Some n → files w' !! q = Some n.

(** The world a computation ends in, returning or raising. *)
Definition outcome_world {A} (o : outcome A) : world :=
  match o with
  | Return _ w => w
  | Raise _ w => w
  end.

(** A disk on which the model directory's path names a regular file. *)
Definition blocked_disk : gmap path node :=
  list_to_map [ (["templateer"], Dir); (["templateer"; "models"], File "x") ].

(** An ASCII Python identifier: a letter or underscore, then letters,
    digits and underscores. *)
Definition is_py_identifier (s : string) : bool := Jinja.is_identifier s.

(** No [_] and no [-] in a name. *)
Fixpoint no_separator (s : string) : bool :=
  match s with
  | "" => true
  | String c s' => negb (is_separator c) && no_separator s'
  end.

(** ** Lines by their indentation

    To state how [textwrap.dedent] acts on the stub, a line is taken as its
    indentation, a number of spaces, and the text that follows. *)

Fixpoint spaces (n : nat) : string :=
  match n with
  | O => ""
  | S n' => String " " (spaces n')
  end.

Definition starts_nonblank (b : string) : bool :=
  match b with
  | "" => false
  | String c _ => negb (Textwrap.is_space_or_tab c)
  end.

Definition line_text (l : nat * string) : string := spaces l.1 +:+ l.2.

(** A line without line break whose text is empty or begins with a
    character other than space and tab. *)
Definition plain_line (l : nat * string) : Prop :=
  PyStr.contains_char PyStr.newline l.2 = false ∧
  (l.2 = "" ∨ starts_nonblank l.2 = true).

(** The least indentation among the lines that hold text. *)
Definition min_step (acc : option nat) (l : nat * string) : option nat :=
  if String.eqb l.2 "" then acc
  else Some (match acc with
             | None => l.1
             | Some m => Nat.min m l.1
             end).

Definition min_indent (ls : list (nat * string)) : option nat :=
  fold_left min_step ls None.

(** A line with [m] columns of its indentation taken off; a line without
    text becomes empty. *)
Definition dedented_line (m : nat) (l : nat * string) : string :=
  if String.eqb l.2 "" then "" else spaces (l.1 - m) +:+ l.2.

(** The lines of the f-string that [write_model_stub] hands to
    [textwrap.dedent], by indentation: the literal lines stand at the
    columns of the source, and of the interpolated field lines only the
    first does; [names] are the variables in sorted order. *)
Definition field_suffix : string := ": Any | None = None".

Definition generator_header (class_name stem module_name template_attr : string)
    : list (nat * string) :=
  [ (12, "from __future__ import annotations");
    (0, "");
    (12, "from typing import Any");
    (0, "");
    (12, "from templateer import TemplateModel");
    (0, "");
    (0, "");
    (12, "class " +:+ class_name +:+ "(TemplateModel):");
    (16, triple_quote +:+ "Auto-generated from .templateer/" +:+ stem +:+
         ".py" +:+ triple_quote);
    (16, "__template__ = " +:+ dquote +:+ module_name +:+ "." +:+
         template_attr +:+ dquote);
    (0, "") ].

Definition generator_fields (names : list string) : list (nat * string) :=
  match names with
  | [] => [(16, "pass")]
  | v :: rest =>
      (16, v +:+ field_suffix) :: map (fun v' => (4, v' +:+ field_suffix)) rest
  end.

Definition generator_lines (class_name stem module_name template_attr : string)
    (names : list string) : list (nat * string) :=
  generator_header class_name stem module_name template_attr ++
  generator_fields names ++ [(12, "")].

(** The same for the f-string of [main.py], which starts at column 0. *)
Definition main_header (class_name stem module_name template_attr : string)
    : list (nat * string) :=
  [ (0, "from __future__ import annotations");
    (0, "");
    (0, "from typing import Any");
    (0, "from templateer import TemplateModel");
    (0, "");
    (0, "");
    (0, "class " +:+ class_name +:+ "(TemplateModel):");
    (4, triple_quote +:+ "Auto" +:+ Main.nb_hyphen +:+
        "generated from .templateer/" +:+ stem +:+ ".py" +:+ triple_quote);
    (4, "__template__ = " +:+ dquote +:+ module_name +:+ "." +:+
        template_attr +:+ dquote);
    (0, "") ].

Definition main_fields (names : list string) : list (nat * string) :=
  match names with
  | [] => [(4, "pass")]
  | _ => map (fun v => (4, v +:+ field_suffix)) names
  end.

Definition main_lines (class_name stem module_name template_attr : string)
    (names : list string) : list (nat * string) :=
  main_header class_name stem module_name template_attr ++
  main_fields names ++ [(0, "")].


(** An entry is the stub of a template file: the file loads to a module
    whose [TEMPLATE] the extractor accepts, the entry's path is the stub
    path of the module and its content the stub text made for it. *)
Definition stub_of (settings : TemplateerSettings) (py : interpreter)
    (tpl_py q : path) (n : node) : Prop :=
  ∃ module template vars_,
    run_path py tpl_py = Ok module ∧
    getattr module "TEMPLATE" = Ok (OStr template) ∧
    extract_template_vars template = Ok vars_ ∧
    q = stub_path settings module ∧
    n = File (Generator.stub_source module "TEMPLATE" vars_).

(** * Properties *)

#[local] Arguments Ascii.eqb : simpl never.
#[local] Set Warnings "-clear-no-such-hyp".

(** ** [camelify] *)

Lemma match_at_camel_re_cons c d rest :
  Re.match_at camel_re (String c (String d rest)) =
  if is_separator c && is_ascii_letter d
  then Some (Re.MatchObj (String c (String d "")) [String d ""] rest)
  else None.
Proof.
  unfold camel_re, is_separator, is_ascii_letter,
    PyStr.is_ascii_lower, PyStr.is_ascii_upper.
  cbn [Re.match_at existsb Re.item_matches].
  rewrite !orb_false_r.
  destruct (Ascii.eqb c "_" || Ascii.eqb c "-"); [|done].
  cbn [Re.m_rest Re.match_at existsb Re.item_matches].
  rewrite !orb_false_r.
  by destruct (PyStr.in_range "a" "z" d || PyStr.in_range "A" "Z" d).
Qed.

Lemma match_at_camel_re_single c : Re.match_at camel_re (String c "") = None.
Proof.
  unfold camel_re. cbn [Re.match_at existsb Re.item_matches].
  by destruct (Ascii.eqb c "_" || (Ascii.eqb c "-" || false)).
Qed.

Lemma sub_from_camel_words fuel s :
  (String.length s ≤ fuel)%nat →
  Re.sub_from fuel camel_re (fun m => PyStr.upper (Re.group m 1)) s =
  camel_words s.
Proof.
  revert s. induction (lt_wf fuel) as [fuel _ IH]. intros s Hlen.
  destruct fuel as [|fuel]; [by destruct s; simpl in *; [|lia]|].
  destruct s as [|c [|d rest]]; [done| |].
  - cbn [Re.sub_from]. rewrite match_at_camel_re_single.
    by destruct fuel.
  - cbn [Re.sub_from]. rewrite match_at_camel_re_cons. cbn [camel_words].
    destruct (is_separator c && is_ascii_letter d).
    + cbn [Re.m_rest Re.group Re.m_groups pred nth PyStr.upper PyStr.map_chars].
      simpl in Hlen. rewrite IH by lia. done.
    + simpl in Hlen. rewrite IH by (simpl; lia). done.
Qed.

Lemma camel_sub_words name : camel_sub name = camel_words name.
Proof. unfold camel_sub, Re.sub. by apply sub_from_camel_words. Qed.

Lemma camelify_words name : camelify name = capitalize_first (camel_words name).
Proof.
  unfold camelify. rewrite camel_sub_words.
  by destruct (camel_words name) as [|c rest]; [|destruct rest].
Qed.


(** ** The file system operations *)

Lemma lookup_node_insert fs p n :
  is_Some (Os.lookup_node (<[p := n]> fs) p).
Proof.
  unfold Os.lookup_node. destruct p as [|c [|d p]]; [by eexists| |].
  - destruct (PyPath.is_root_part c); [by eexists|].
    rewrite lookup_insert_eq. by eexists.
  - rewrite lookup_insert_eq. by eexists.
Qed.

Lemma exists_insert w p n :
  Os.exists_ (set_files w (<[p := n]> (files w))) p = true.
Proof.
  unfold Os.exists_, set_files. simpl.
  by destruct (lookup_node_insert (files w) p n) as [x ->].
Qed.

Lemma lookup_node_insert_ne fs p q n :
  Os.lookup_node fs p = None → p ≠ q →
  Os.lookup_node (<[p := n]> fs) q = Os.lookup_node fs q.
Proof.
  intros _ Hne. unfold Os.lookup_node.
  destruct q as [|c [|d q]]; [done| |].
  - destruct (PyPath.is_root_part c); [done|]. by rewrite lookup_insert_ne.
  - by rewrite lookup_insert_ne.
Qed.

Lemma lookup_node_None fs p : Os.lookup_node fs p = None → fs !! p = None.
Proof.
  unfold Os.lookup_node. destruct p as [|c [|d p]]; [done| |done].
  by destruct (PyPath.is_root_part c).
Qed.

(** A directory stays a directory when an absent entry is created. *)
Lemma is_dir_insert_absent w p q n :
  Os.exists_ w p = false → Os.is_dir w q = true →
  Os.is_dir (set_files w (<[p := n]> (files w))) q = true.
Proof.
  unfold Os.exists_, Os.is_dir. intros Hp Hq. simpl.
  destruct (Os.lookup_node (files w) p) eqn:Hl; [done|].
  destruct (decide (p = q)) as [->|Hne]; [by rewrite Hl in Hq|].
  by rewrite lookup_node_insert_ne.
Qed.

Lemma is_dir_insert_dir w p :
  Os.is_dir (set_files w (<[p := Dir]> (files w))) p = true.
Proof.
  unfold Os.is_dir, Os.lookup_node, set_files. simpl.
  destruct p as [|c [|d p]]; [done| |by rewrite lookup_insert_eq].
  destruct (PyPath.is_root_part c); [done|]. by rewrite lookup_insert_eq.
Qed.

Lemma os_mkdir_returns p w w' :
  Os.mkdir p w = Return tt w' →
  Os.exists_ w p = false ∧ w' = set_files w (<[p := Dir]> (files w)).
Proof.
  unfold Os.mkdir. destruct (Os.exists_ w p); [done|].
  destruct (Os.is_dir w (PyPath.parent p)); [|done].
  by intros [= <-].
Qed.

Lemma os_mkdir_raises p w e w' : Os.mkdir p w = Raise e w' → w' = w.
Proof.
  unfold Os.mkdir. destruct (Os.exists_ w p); [by intros [= _ <-]|].
  destruct (Os.is_dir w (PyPath.parent p)); [done|]. by intros [= _ <-].
Qed.

(** [Path.mkdir] leaves its path a directory and keeps every directory. *)
Lemma mkdir_go_returns fuel p parents exist_ok w w' :
  Path.mkdir_go fuel p parents exist_ok w = Return tt w' →
  Os.is_dir w' p = true ∧ stdout w' = stdout w ∧
  ∀ q, Os.is_dir w q = true → Os.is_dir w' q = true.
Proof.
  revert p parents exist_ok w w'.
  induction fuel as [|fuel IH]; intros p parents exist_ok w w'; simpl.
  - destruct (Os.mkdir p w) as [[] w1|e w1] eqn:Hmk.
    + intros [= <-]. apply os_mkdir_returns in Hmk as [Hex ->].
      split_and!; [apply is_dir_insert_dir|done|].
      intros q Hq. by apply is_dir_insert_absent.
    + destruct e;
        try (destruct (negb exist_ok || negb (Os.is_dir w p)) eqn:Hc;
             [done|]; intros [= <-];
             apply orb_false_iff in Hc as [_ Hc];
             apply negb_false_iff in Hc; by split_and!).
      by destruct (negb parents || bool_decide (PyPath.parent p = p)).
  - destruct (Os.mkdir p w) as [[] w1|e w1] eqn:Hmk.
    + intros [= <-]. apply os_mkdir_returns in Hmk as [Hex ->].
      split_and!; [apply is_dir_insert_dir|done|].
      intros q Hq. by apply is_dir_insert_absent.
    + destruct e;
        try (destruct (negb exist_ok || negb (Os.is_dir w p)) eqn:Hc;
             [done|]; intros [= <-];
             apply orb_false_iff in Hc as [_ Hc];
             apply negb_false_iff in Hc; by split_and!).
      destruct (negb parents || bool_decide (PyPath.parent p = p)); [done|].
      unfold io_bind.
      destruct (Path.mkdir_go fuel (PyPath.parent p) true true w)
        as [[] w2|e2 w2] eqn:Hpar; [|done].
      intros Hself. apply IH in Hpar as (_ & Hout1 & Hmono1).
      apply IH in Hself as (Hdir & Hout2 & Hmono2).
      split_and!; [done|congruence|auto].
Qed.

(** [Path.mkdir] never runs out of [fuel]: with [parents] false the fuel is
    not looked at, and any fuel from the length of the path on gives the
    same outcome. *)
Lemma mkdir_go_flat fuel1 fuel2 p exist_ok w :
  Path.mkdir_go fuel1 p false exist_ok w = Path.mkdir_go fuel2 p false exist_ok w.
Proof. by destruct fuel1, fuel2. Qed.

Lemma parent_length p :
  PyPath.parent p ≠ p → S (length (PyPath.parent p)) = length p.
Proof.
  unfold PyPath.parent. destruct p as [|c [|d p]]; [done| |].
  - by destruct (PyPath.is_root_part c).
  - intros _. generalize (d :: p). clear. intros l. revert c.
    induction l as [|x l IH]; intros c; [done|].
    cbn [removelast length] in *. by rewrite IH.
Qed.

Lemma mkdir_go_fuel fuel p parents exist_ok w :
  (length p ≤ fuel)%nat →
  Path.mkdir_go fuel p parents exist_ok w =
  Path.mkdir (p) parents exist_ok w.
Proof.
  unfold Path.mkdir. revert p parents exist_ok w.
  induction fuel as [|fuel IH]; intros p parents exist_ok w Hlen.
  - by replace (length p) with 0%nat by lia.
  - destruct (length p) as [|n] eqn:Hn.
    + destruct p; [|done]. cbn [Path.mkdir_go].
      destruct (Os.mkdir [] w) as [|[] ?]; try done.
      rewrite bool_decide_eq_true_2 by done. by rewrite orb_true_r.
    + cbn [Path.mkdir_go].
      destruct (Os.mkdir p w) as [|[] ?]; try done.
      destruct (negb parents) eqn:Hp; [done|]. cbn [orb].
      destruct (bool_decide (PyPath.parent p = p)) eqn:Hpar; [done|].
      apply bool_decide_eq_false in Hpar. apply parent_length in Hpar.
      unfold io_bind.
      rewrite (IH (PyPath.parent p)) by lia.
      replace n with (length (PyPath.parent p)) by lia.
      destruct (Path.mkdir_go _ (PyPath.parent p) true true w); [|done].
      apply mkdir_go_flat.
Qed.

Lemma mkdir_returns p parents exist_ok w w' :
  Path.mkdir p parents exist_ok w = Return tt w' →
  Os.is_dir w' p = true ∧ stdout w' = stdout w ∧
  ∀ q, Os.is_dir w q = true → Os.is_dir w' q = true.
Proof. apply mkdir_go_returns. Qed.

Lemma touch_returns p w w' :
  Path.touch p w = Return tt w' →
  ∀ q, Os.is_dir w q = true → Os.is_dir w' q = true.
Proof.
  unfold Path.touch. destruct (Os.exists_ w p) eqn:Hex; [by intros [= <-]|].
  destruct (Os.is_dir w (PyPath.parent p)); [|done].
  intros [= <-] q Hq. by apply is_dir_insert_absent.
Qed.

(** [get_settings] returns only with the model directory and the output
    directory in place. *)
Lemma get_settings_returns loaded w s w' :
  get_settings loaded w = Return s w' →
  s = loaded ∧ Os.is_dir w' (model_dir loaded) = true ∧
  Os.is_dir w' (template_output_dir loaded) = true.
Proof.
  unfold get_settings, io_bind, io_ret.
  destruct (Path.mkdir (model_dir loaded) true true w) as [[] w1|] eqn:H1; [|done].
  destruct (Path.touch _ w1) as [[] w2|] eqn:H2; [|done].
  destruct (Path.mkdir (template_output_dir loaded) true true w2)
    as [[] w3|] eqn:H3; [|done].
  intros [= <- <-].
  apply mkdir_returns in H1 as (Hd1 & _ & _).
  apply mkdir_returns in H3 as (Hd3 & _ & Hm3).
  split_and!; [done| |done].
  apply Hm3. by eapply touch_returns.
Qed.

(** ** The stub writer *)

Lemma split_go_no_sep sep cur s :
  PyStr.contains_char sep s = false →
  PyStr.split_go sep cur s = [String.rev_app cur s].
Proof.
  revert cur. induction s as [|c s IH]; intros cur Hs; simpl in *; [done|].
  apply orb_false_iff in Hs as [-> Hs]. by rewrite IH.
Qed.

Lemma contains_char_app c s t :
  PyStr.contains_char c (s +:+ t) =
  PyStr.contains_char c s || PyStr.contains_char c t.
Proof.
  induction s as [|d s IH]; simpl; [done|]. by rewrite IH, orb_assoc.
Qed.

Lemma string_app_length s t :
  String.length (s +:+ t) = (String.length s + String.length t)%nat.
Proof. induction s; simpl; auto. Qed.

Lemma startswith_slash_absent x :
  PyStr.contains_char "/" x = false → PyStr.startswith "/" x = false.
Proof.
  destruct x as [|c u]; simpl; [done|].
  intros [Hc _]%orb_false_iff. rewrite Ascii.eqb_sym, Hc. done.
Qed.

(** With no slash in the stem the stub sits directly in the model directory. *)
Lemma stub_path_in_model_dir settings module :
  PyStr.contains_char "/" (module_stem module) = false →
  stub_path settings module =
    (model_dir settings ++ [module_stem module +:+ "_model.py"])%list ∧
  PyPath.parent (stub_path settings module) = model_dir settings.
Proof.
  intros Hstem. unfold stub_path, PyPath.joinpath, PyPath.of_string.
  set (x := module_stem module +:+ "_model.py").
  assert (Hx : PyStr.contains_char "/" x = false).
  { unfold x. rewrite contains_char_app, Hstem. done. }
  assert (Hlen : (9 ≤ String.length x)%nat).
  { unfold x. rewrite string_app_length. simpl. lia. }
  clearbody x.
  rewrite (startswith_slash_absent _ Hx). simpl.
  unfold PyStr.split. rewrite split_go_no_sep by done. simpl.
  assert (Hne : ∀ s, (String.length s < 9)%nat → String.eqb x s = false).
  { intros s Hs. apply String.eqb_neq. intros ->. lia. }
  assert (Hkeep : PyPath.keep_part x = true).
  { unfold PyPath.keep_part. by rewrite !Hne by (simpl; lia). }
  assert (Hroot : PyPath.is_root_part x = false).
  { unfold PyPath.is_root_part. by rewrite !Hne by (simpl; lia). }
  rewrite filter_cons_True by done. rewrite filter_nil.
  cbn [PyPath.is_absolute]. rewrite Hroot.
  split; [done|]. unfold PyPath.parent.
  destruct (model_dir settings) as [|d ds] eqn:Hmd; simpl; [by rewrite Hroot|].
  destruct (ds ++ [x])%list eqn:Hds; [by destruct ds|].
  rewrite <- Hds. f_equal. clear. induction ds as [|? [|? ?]]; simpl in *; try done.
  by f_equal.
Qed.

Lemma write_model_stub_existing settings module attr vars_ w :
  Path.exists_ w (stub_path settings module) = true →
  Generator.write_model_stub settings module attr vars_ w =
    Return (stub_path settings module) w.
Proof. unfold Generator.write_model_stub. by intros ->. Qed.

Lemma main_write_model_stub_existing settings module attr vars_ w :
  Path.exists_ w (stub_path settings module) = true →
  Main._write_model_stub settings module attr vars_ w =
    Return (stub_path settings module) w.
Proof. unfold Main._write_model_stub. by intros ->. Qed.

Lemma write_file_cases p data w :
  Os.exists_ w p = false →
  Os.write_file p data w =
    if Os.is_dir w (PyPath.parent p)
    then Return tt (set_files w (<[p := File data]> (files w)))
    else Raise (Os.parent_error (files w) p) w.
Proof.
  unfold Os.write_file, Os.exists_, Os.is_dir.
  by destruct (Os.lookup_node (files w) p).
Qed.

Lemma write_file_returns p data w w' :
  Os.write_file p data w = Return tt w' →
  w' = set_files w (<[p := File data]> (files w)).
Proof.
  unfold Os.write_file. destruct (Os.is_dir w p); [done|].
  destruct (Os.is_dir w (PyPath.parent p)); [|done]. by intros [= <-].
Qed.

Lemma write_model_stub_returns settings module attr vars_ w q w' :
  Generator.write_model_stub settings module attr vars_ w = Return q w' →
  q = stub_path settings module ∧ Path.exists_ w' q = true.
Proof.
  unfold Generator.write_model_stub, io_bind, io_ret, Path.write_text.
  destruct (Path.exists_ w (stub_path settings module)) eqn:Hex.
  - by intros [= <- <-].
  - destruct (Os.write_file _ _ w) as [[] w1|] eqn:Hw; [|done].
    intros [= <- <-]. split; [done|].
    apply write_file_returns in Hw as ->. apply exists_insert.
Qed.

Lemma main_write_model_stub_returns settings module attr vars_ w q w' :
  Main._write_model_stub settings module attr vars_ w = Return q w' →
  q = stub_path settings module ∧ Path.exists_ w' q = true.
Proof.
  unfold Main._write_model_stub, io_bind, io_ret, Path.write_text.
  destruct (Path.exists_ w (stub_path settings module)) eqn:Hex.
  - by intros [= <- <-].
  - destruct (Os.write_file _ _ w) as [[] w1|] eqn:Hw; [|done].
    intros [= <- <-]. split; [done|].
    apply write_file_returns in Hw as ->. apply exists_insert.
Qed.

(** C1. When the stub path exists already, the stub writer (in
    [generator.py] and in [main.py] alike) returns that path and leaves the
    world as it found it: nothing is read, compared or written.  So after a
    first call has returned, whatever a user then puts into the stub file
    is still there, untouched, after a second call, also when the template's
    attribute or variables have changed meanwhile. *)
Theorem write_model_stub_keeps_existing settings module attr vars_ w :
  Path.exists_ w (stub_path settings module) = true →
  Generator.write_model_stub settings module attr vars_ w =
    Return (stub_path settings module) w ∧
  Main._write_model_stub settings module attr vars_ w =
    Return (stub_path settings module) w ∧
  ∀ edited attr' vars',
    let w2 := set_files w
      (<[stub_path settings module := File edited]> (files w)) in
    Generator.write_model_stub settings module attr' vars' w2 =
      Return (stub_path settings module) w2 ∧
    Main._write_model_stub settings module attr' vars' w2 =
      Return (stub_path settings module) w2 ∧
    files w2 !! stub_path settings module = Some (File edited).
Proof.
  intros Hex. split_and!.
  - by apply write_model_stub_existing.
  - by apply main_write_model_stub_existing.
  - intros edited attr' vars' w2. split_and!.
    + apply write_model_stub_existing. apply exists_insert.
    + apply main_write_model_stub_existing. apply exists_insert.
    + apply lookup_insert_eq.
Qed.

(** The world after a first call has written the stub of [foo] and its
    user has replaced the text. *)
Lemma write_model_stub_keeps_existing_witness :
  let w2 := World (<[stub_path proj_settings foo_module := File "# mine"]>
                     fresh_disk) [] in
  Path.exists_ w2 (stub_path proj_settings foo_module) = true ∧
  Generator.write_model_stub proj_settings foo_module "TEMPLATE"
    ({["name"]} ∪ {["age"]}) w2 =
    Return (stub_path proj_settings foo_module) w2.
Proof.
  intros w2. split; [vm_compute; reflexivity|].
  apply (write_model_stub_keeps_existing proj_settings foo_module "TEMPLATE"
           ({["name"]} ∪ {["age"]}) w2).
  vm_compute; reflexivity.
Defined.

(** C8 as stated fails: with the model directory missing, the stub writer
    makes no directory; the write raises and the disk stays empty. *)
Lemma write_model_stub_missing_model_dir :
  Path.exists_ empty_world (stub_path proj_settings foo_module) = false ∧
  Generator.write_model_stub proj_settings foo_module "TEMPLATE" {["name"]}
    empty_world = Raise FileNotFoundError empty_world ∧
  ¬ ∃ w', Generator.write_model_stub proj_settings foo_module "TEMPLATE"
            {["name"]} empty_world =
          Return (stub_path proj_settings foo_module) w'.
Proof.
  assert (Hraise :
    Generator.write_model_stub proj_settings foo_module "TEMPLATE" {["name"]}
      empty_world = Raise FileNotFoundError empty_world)
    by (vm_compute; reflexivity).
  split_and!; [vm_compute; reflexivity|exact Hraise|].
  intros [w' Hw]. rewrite Hraise in Hw. discriminate Hw.
Qed.

(** C8, amended. The stub writer creates no directory. When the stub path
    does not exist and its parent is a directory, it writes exactly one file,
    the stub, and changes nothing else; when the parent is no directory it
    raises and writes nothing.  The parent is the model directory (for a stem
    without a slash), and it is [get_settings] that creates it: a world that
    [get_settings] has returned in has the model directory. *)
Theorem write_model_stub_writes_one_file settings module attr vars_ w :
  Path.exists_ w (stub_path settings module) = false →
  (Os.is_dir w (PyPath.parent (stub_path settings module)) = true →
     Generator.write_model_stub settings module attr vars_ w =
       Return (stub_path settings module)
         (World (<[stub_path settings module :=
                     File (Generator.stub_source module attr vars_)]> (files w))
                (stdout w))) ∧
  (Os.is_dir w (PyPath.parent (stub_path settings module)) = false →
     Generator.write_model_stub settings module attr vars_ w =
       Raise (Os.parent_error (files w) (stub_path settings module)) w) ∧
  (PyStr.contains_char "/" (module_stem module) = false →
     PyPath.parent (stub_path settings module) = model_dir settings ∧
     ∀ w0 s, get_settings settings w0 = Return s w →
       Os.is_dir w (PyPath.parent (stub_path settings module)) = true).
Proof.
  intros Hex. split_and!.
  - intros Hdir. unfold Generator.write_model_stub, io_bind, Path.write_text.
    rewrite Hex. rewrite write_file_cases by exact Hex. by rewrite Hdir.
  - intros Hdir. unfold Generator.write_model_stub, io_bind, Path.write_text.
    rewrite Hex. rewrite write_file_cases by exact Hex. by rewrite Hdir.
  - intros Hstem.
    destruct (stub_path_in_model_dir settings module Hstem) as [_ Hpar].
    split; [done|]. intros w0 s Hget. rewrite Hpar.
    by apply get_settings_returns in Hget as (_ & Hdir & _).
Qed.

Lemma write_model_stub_writes_one_file_witness :
  Path.exists_ fresh_world (stub_path proj_settings foo_module) = false ∧
  Os.is_dir fresh_world (PyPath.parent (stub_path proj_settings foo_module))
    = true ∧
  Generator.write_model_stub proj_settings foo_module "TEMPLATE" {["name"]}
    fresh_world =
  Return (stub_path proj_settings foo_module)
    (World (<[stub_path proj_settings foo_module :=
                File (Generator.stub_source foo_module "TEMPLATE" {["name"]})]>
              (files fresh_world))
           (stdout fresh_world)).
Proof.
  split_and!; [vm_compute; reflexivity|vm_compute; reflexivity|].
  apply (write_model_stub_writes_one_file proj_settings foo_module "TEMPLATE"
           {["name"]} fresh_world); vm_compute; reflexivity.
Defined.

(** C2 at two variables. For the module [foo] and the variables [age] and
    [name], [generator.py] writes the stub below to
    [templateer/models/foo_model.py]: the interpolated field lines carry four
    spaces only, so [textwrap.dedent] takes off four columns instead of
    twelve; the class header is left indented by eight columns and the second
    field stands at column 0.  With one variable the stub is laid out as
    intended, and so is the stub of [main.py] with both. *)
Theorem write_model_stub_two_variables :
  let vars_ : gset string := {["name"]} ∪ {["age"]} in
  Generator.write_model_stub proj_settings foo_module "TEMPLATE" vars_
    fresh_world =
  Return ["templateer"; "models"; "foo_model.py"]
    (World (<[ ["templateer"; "models"; "foo_model.py"] :=
                File (Generator.stub_source foo_module "TEMPLATE" vars_) ]>
              fresh_disk) []) ∧
  PyStr.split PyStr.newline
    (Generator.stub_source foo_module "TEMPLATE" vars_) =
  [ "        from __future__ import annotations";
    "";
    "        from typing import Any";
    "";
    "        from templateer import TemplateModel";
    "";
    "";
    "        class FooTemplate(TemplateModel):";
    "            " +:+ triple_quote +:+
      "Auto-generated from .templateer/foo.py" +:+ triple_quote;
    "            __template__ = " +:+ dquote +:+ "foo.TEMPLATE" +:+ dquote;
    "";
    "            age: Any | None = None";
    "name: Any | None = None";
    "" ] ∧
  PyStr.split PyStr.newline
    (Generator.stub_source foo_module "TEMPLATE" {["name"]}) =
  [ "from __future__ import annotations";
    "";
    "from typing import Any";
    "";
    "from templateer import TemplateModel";
    "";
    "";
    "class FooTemplate(TemplateModel):";
    "    " +:+ triple_quote +:+
      "Auto-generated from .templateer/foo.py" +:+ triple_quote;
    "    __template__ = " +:+ dquote +:+ "foo.TEMPLATE" +:+ dquote;
    "";
    "    name: Any | None = None";
    "" ] ∧
  PyStr.split PyStr.newline (Main.stub_source foo_module "TEMPLATE" vars_) =
  [ "from __future__ import annotations";
    "";
    "from typing import Any";
    "from templateer import TemplateModel";
    "";
    "";
    "class FooTemplate(TemplateModel):";
    "    " +:+ triple_quote +:+ "Auto" +:+ Main.nb_hyphen +:+
      "generated from .templateer/foo.py" +:+ triple_quote;
    "    __template__ = " +:+ dquote +:+ "foo.TEMPLATE" +:+ dquote;
    "";
    "    age: Any | None = None";
    "    name: Any | None = None";
    "" ].
Proof. intros vars_. split_and!; vm_compute; reflexivity. Qed.

(** ** The engine *)

Section JinjaFacts.

Import Jinja.









End JinjaFacts.

(** *** Literal text *)

Section LiteralText.

Import Jinja.


Lemma string_app_nil_r s : s +:+ "" = s.
Proof.
  induction s as [|c s IH]; [done|].
  change (String c (s +:+ "") = String c s). by rewrite IH.
Qed.













End LiteralText.

(** ** The template binding *)

Lemma mkdir_go_frame fuel p parents exist_ok w w' :
  Path.mkdir_go fuel p parents exist_ok w = Return tt w' →
  ∀ q, files w' !! q = files w !! q ∨
       (files w !! q = None ∧ files w' !! q = Some Dir).
Proof.
  revert p parents exist_ok w w'.
  assert (Hmk : ∀ p w w', Os.mkdir p w = Return tt w' →
            ∀ q, files w' !! q = files w !! q ∨
                 (files w !! q = None ∧ files w' !! q = Some Dir)).
  { intros p w w' [Hex ->]%os_mkdir_returns q. simpl.
    destruct (decide (p = q)) as [->|Hne].
    - right. split; [|apply lookup_insert_eq].
      apply lookup_node_None. unfold Os.exists_ in Hex.
      by destruct (Os.lookup_node (files w) q).
    - left. by apply lookup_insert_ne. }
  induction fuel as [|fuel IH]; intros p parents exist_ok w w'; simpl.
  - destruct (Os.mkdir p w) as [[] w1|e w1] eqn:Hm.
    + intros [= <-]. by eapply Hmk.
    + destruct e;
        try (destruct (negb exist_ok || negb (Os.is_dir w p));
             [done|]; intros [= <-]; by left).
      by destruct (negb parents || bool_decide (PyPath.parent p = p)).
  - destruct (Os.mkdir p w) as [[] w1|e w1] eqn:Hm.
    + intros [= <-]. by eapply Hmk.
    + destruct e;
        try (destruct (negb exist_ok || negb (Os.is_dir w p));
             [done|]; intros [= <-]; by left).
      destruct (negb parents || bool_decide (PyPath.parent p = p)); [done|].
      unfold io_bind.
      destruct (Path.mkdir_go fuel (PyPath.parent p) true true w)
        as [[] w2|e2 w2] eqn:Hpar; [|done].
      intros Hself q.
      destruct (IH _ _ _ _ _ Hpar q) as [H1|[H1 H1']];
        destruct (IH _ _ _ _ _ Hself q) as [H2|[H2 H2']];
        try (left; congruence); try (right; split; congruence).
Qed.

Lemma mkdir_go_existing fuel p parents w :
  Os.is_dir w p = true → Path.mkdir_go fuel p parents true w = Return tt w.
Proof.
  intros Hdir.
  assert (Hm : Os.mkdir p w = Raise FileExistsError w).
  { unfold Os.mkdir, Os.exists_. unfold Os.is_dir in Hdir.
    by destruct (Os.lookup_node (files w) p). }
  destruct fuel; simpl; rewrite Hm, Hdir; done.
Qed.

Lemma generate_unfold settings py self write w :
  generate settings py self write w =
  match render py self with
  | Exc e => Raise e w
  | Ok code =>
      if write then
        match Path.mkdir (PyPath.parent (_output_path settings self)) true true w with
        | Return _ w1 =>
            match Path.write_text (_output_path settings self) code w1 with
            | Return _ w2 => Return code w2
            | Raise e w2 => Raise e w2
            end
        | Raise e w1 => Raise e w1
        end
      else Return code w
  end.
Proof.
  unfold generate, io_bind, io_lift, io_ret.
  destruct (render py self) as [code|e]; [|done].
  destruct write; [|done].
  destruct (Path.mkdir _ true true w) as [[] w1|]; [|done].
  by destruct (Path.write_text _ code w1) as [[] w2|].
Qed.













(** ** The discovery pass *)

Section DiscoveryFacts.

Context (settings : TemplateerSettings) (py : interpreter).

Lemma autogen_one_returns verbose tpl_py w r w' :
  autogen_one settings py verbose tpl_py w = Return r w' →
  r = stub_path settings <$> exposes_TEMPLATE py tpl_py.
Proof.
  unfold autogen_one, exposes_TEMPLATE, io_bind, io_lift, io_ret.
  destruct (run_path py tpl_py) as [module|]; [|done].
  destruct (hasattr module "TEMPLATE"); simpl; [|by intros [= <- _]].
  destruct (result_bind (getattr module "TEMPLATE") as_template_text)
    as [template|]; [|done].
  destruct (extract_template_vars template) as [vars_|]; [|done].
  destruct (Generator.write_model_stub settings module "TEMPLATE" vars_ w)
    as [q w1|] eqn:Hw; [|done].
  apply write_model_stub_returns in Hw as [-> _].
  destruct verbose.
  - destruct (PyPath.relative_to _ _); [|done]. simpl. by intros [= <- _].
  - by intros [= <- _].
Qed.

(** A template that does not parse makes the turn raise, before anything
    is written. *)
Lemma autogen_one_parse_failure verbose tpl_py module template e w :
  run_path py tpl_py = Ok module →
  getattr module "TEMPLATE" = Ok (OStr template) →
  extract_template_vars template = Exc e →
  autogen_one settings py verbose tpl_py w = Raise e w.
Proof.
  intros Hrun Hget Hvars. unfold autogen_one, io_bind, io_lift.
  rewrite Hrun. unfold hasattr. unfold getattr in Hget.
  destruct (assoc "TEMPLATE" (mod_dict module)) as [o|] eqn:Ha; [|done].
  injection Hget as ->. simpl. unfold getattr. rewrite Ha. simpl.
  by rewrite Hvars.
Qed.

Lemma autogen_loop_app verbose tpls1 tpls2 generated w :
  autogen_loop settings py verbose (tpls1 ++ tpls2) generated w =
  match autogen_loop settings py verbose tpls1 generated w with
  | Return generated1 w1 =>
      autogen_loop settings py verbose tpls2 generated1 w1
  | Raise e w1 => Raise e w1
  end.
Proof.
  revert generated w. induction tpls1 as [|tpl tpls1 IH]; intros generated w.
  - done.
  - simpl. unfold io_bind.
    destruct (autogen_one settings py verbose tpl w) as [[q|] w1|]; [| |done];
      apply IH.
Qed.

Lemma autogen_loop_returns verbose tpls generated w generated' w' :
  autogen_loop settings py verbose tpls generated w = Return generated' w' →
  generated' = (generated ++ expected_stubs settings py tpls)%list.
Proof.
  revert generated w. induction tpls as [|tpl tpls IH]; intros generated w.
  - simpl. unfold io_ret. intros [= <- _]. by rewrite app_nil_r.
  - simpl. unfold io_bind.
    destruct (autogen_one settings py verbose tpl w) as [r w1|] eqn:H1; [|done].
    apply autogen_one_returns in H1 as ->. unfold expected_stubs. simpl.
    destruct (exposes_TEMPLATE py tpl) as [module|]; simpl.
    + intros ->%IH. by rewrite <- app_assoc.
    + by intros ->%IH.
Qed.

Lemma length_expected_stubs tpls :
  length (expected_stubs settings py tpls) =
  length (filter (fun tpl_py => is_Some (exposes_TEMPLATE py tpl_py)) tpls).
Proof.
  unfold expected_stubs, omap. induction tpls as [|tpl tpls IH]; [done|].
  simpl. destruct (exposes_TEMPLATE py tpl) as [module|] eqn:He; simpl.
  - rewrite filter_cons_True by (rewrite He; by eexists). simpl. by rewrite IH.
  - rewrite filter_cons_False by (rewrite He; by intros [? ?]). done.
Qed.

Lemma getattr_hasattr module name o :
  getattr module name = Ok o → hasattr module name = true.
Proof.
  unfold getattr, hasattr. by destruct (assoc name (mod_dict module)).
Qed.

(** The turn of a processable file returns and keeps the model directory. *)
Lemma autogen_one_processable verbose tpl_py w :
  Os.is_dir w (model_dir settings) = true →
  processable settings py verbose tpl_py →
  ∃ r w', autogen_one settings py verbose tpl_py w = Return r w' ∧
          Os.is_dir w' (model_dir settings) = true.
Proof.
  intros Hdir (module & Hrun & Hmod).
  unfold autogen_one, io_bind, io_lift, io_ret. rewrite Hrun.
  destruct Hmod as [Hno|(template & vars_ & Hget & Hvars & Hpar & Hrel)].
  - rewrite Hno. simpl. by eauto.
  - rewrite (getattr_hasattr _ _ _ Hget), Hget. simpl. rewrite Hvars.
    assert (Hw : ∃ w1,
      Generator.write_model_stub settings module "TEMPLATE" vars_ w =
        Return (stub_path settings module) w1 ∧
      Os.is_dir w1 (model_dir settings) = true).
    { unfold Generator.write_model_stub, io_bind, io_ret, Path.write_text.
      destruct (Path.exists_ w (stub_path settings module)) eqn:Hex;
        [by eauto|].
      rewrite write_file_cases, Hpar, Hdir by exact Hex.
      eexists. split; [done|]. by apply is_dir_insert_absent. }
    destruct Hw as (w1 & -> & Hdir1).
    destruct verbose.
    + destruct (Hrel eq_refl) as [rel ->]. simpl. by eauto.
    + by eauto.
Qed.

Lemma autogen_loop_processable verbose tpls generated w :
  Os.is_dir w (model_dir settings) = true →
  Forall (processable settings py verbose) tpls →
  ∃ generated' w',
    autogen_loop settings py verbose tpls generated w = Return generated' w'.
Proof.
  intros Hdir Hall. revert generated w Hdir.
  induction Hall as [|tpl tpls Htpl _ IH]; intros generated w Hdir.
  - by eexists _, _.
  - simpl. unfold io_bind.
    destruct (autogen_one_processable verbose tpl w Hdir Htpl)
      as (r & w1 & -> & Hdir1).
    destruct r; by apply IH.
Qed.

End DiscoveryFacts.

(** C5 as stated fails: of the three template files of
    [three_templates_disk], listed in the order [hello], [broken],
    [greeting], the second does not parse; the pass raises
    [TemplateSyntaxError] and the third file gets no stub. *)
Lemma autogen_models_aborts_on_failure :
  let w := World three_templates_disk [] in
  let w' :=
    World (<[ ["templateer"; "models"; "hello_model.py"] :=
                File (Generator.stub_source hello_module "TEMPLATE" ∅) ]>
             three_templates_disk) [] in
  discover_template_modules proj_settings w =
    [ ["/"; "proj"; ".templateer"; "hello.py"];
      ["/"; "proj"; ".templateer"; "broken.py"];
      ["/"; "proj"; ".templateer"; "greeting.py"] ] ∧
  extract_template_vars "{{ name" = Exc TemplateSyntaxError ∧
  autogen_models proj_settings example_py false w =
    Raise TemplateSyntaxError w' ∧
  Path.exists_ w' ["templateer"; "models"; "greeting_model.py"] = false.
Proof. intros w w'. split_and!; vm_compute; reflexivity. Qed.

(** C5, amended. The discovery pass does not isolate failures: when the
    turn of one template file raises, after the turns of the files before
    it have returned, the whole pass raises that exception then and there;
    the files after it are not looked at, and the stubs written before stay
    on disk. A template that does not parse makes its turn raise. *)
Theorem autogen_failure_aborts settings py verbose before tpl_py after
    w generated w1 e w2 :
  autogen_loop settings py verbose before [] w = Return generated w1 →
  autogen_one settings py verbose tpl_py w1 = Raise e w2 →
  autogen_loop settings py verbose (before ++ tpl_py :: after) [] w =
    Raise e w2 ∧
  (∀ module template e',
     run_path py tpl_py = Ok module →
     getattr module "TEMPLATE" = Ok (OStr template) →
     extract_template_vars template = Exc e' →
     e = e' ∧ w2 = w1).
Proof.
  intros Hbefore Hone. split.
  - rewrite autogen_loop_app, Hbefore. simpl. unfold io_bind. by rewrite Hone.
  - intros module template e' Hrun Hget Hvars.
    rewrite (autogen_one_parse_failure settings py verbose tpl_py module
               template e' w1 Hrun Hget Hvars) in Hone.
    by injection Hone as <- <-.
Qed.

Lemma autogen_failure_aborts_witness :
  let w := World three_templates_disk [] in
  let w1 :=
    World (<[ ["templateer"; "models"; "hello_model.py"] :=
                File (Generator.stub_source hello_module "TEMPLATE" ∅) ]>
             three_templates_disk) [] in
  autogen_loop proj_settings example_py false
    ([ ["/"; "proj"; ".templateer"; "hello.py"] ] ++
     ["/"; "proj"; ".templateer"; "broken.py"] ::
     [ ["/"; "proj"; ".templateer"; "greeting.py"] ]) [] w =
    Raise TemplateSyntaxError w1.
Proof.
  intros w w1.
  apply (autogen_failure_aborts proj_settings example_py false
           [ ["/"; "proj"; ".templateer"; "hello.py"] ]
           ["/"; "proj"; ".templateer"; "broken.py"]
           [ ["/"; "proj"; ".templateer"; "greeting.py"] ]
           w [ ["templateer"; "models"; "hello_model.py"] ] w1
           TemplateSyntaxError w1);
    vm_compute; reflexivity.
Defined.

(** What the pass lists when it returns, which takes template files that
    bring a loader of their own (see [run_path]): in the order of the
    listing, the stub path of every discovered template file that loads to a
    module with a [TEMPLATE] constant, whether the stub was written in this
    pass or was there before, and nothing for a module without [TEMPLATE].
    The count that [autogen] prints is the length of that list. And the
    pass does return when the model directory is there and every discovered
    file is processable. *)
Lemma autogen_models_lists_every_template settings py verbose w :
  (∀ generated w',
     autogen_models settings py verbose w = Return generated w' →
     generated =
       expected_stubs settings py (discover_template_modules settings w) ∧
     length generated =
       length (filter (fun tpl_py => is_Some (exposes_TEMPLATE py tpl_py))
                      (discover_template_modules settings w)) ∧
     (∀ tpl_py module,
        tpl_py ∈ discover_template_modules settings w →
        exposes_TEMPLATE py tpl_py = Some module →
        stub_path settings module ∈ generated) ∧
     Cli.autogen settings py verbose w =
       if verbose then Return tt w'
       else Return tt
              (World (files w')
                 (stdout w' ++
                  ["Generated " +:+ pretty (length generated) +:+
                   " model stubs"]))) ∧
  (Os.is_dir w (model_dir settings) = true →
   Forall (processable settings py verbose)
          (discover_template_modules settings w) →
   ∃ generated w', autogen_models settings py verbose w = Return generated w').
Proof.
  split.
  - intros generated w' Hgen. unfold autogen_models in Hgen.
    pose proof (autogen_loop_returns _ _ _ _ _ _ _ _ Hgen) as Heq.
    simpl in Heq. split_and!.
    + done.
    + rewrite Heq. apply length_expected_stubs.
    + intros tpl_py module Hin Hexp. rewrite Heq. unfold expected_stubs.
      apply list_elem_of_omap. exists tpl_py. by rewrite Hexp.
    + unfold Cli.autogen, io_bind, autogen_models. rewrite Hgen.
      by destruct verbose.
  - intros Hdir Hall. by apply autogen_loop_processable.
Qed.

Lemma autogen_models_lists_every_template_witness :
  let w := World rerun_disk [] in
  let w' :=
    World (<[ ["templateer"; "models"; "greeting_model.py"] :=
                File (Generator.stub_source greeting_module "TEMPLATE"
                        {["name"]}) ]> rerun_disk) [] in
  let generated :=
    [ ["templateer"; "models"; "hello_model.py"];
      ["templateer"; "models"; "greeting_model.py"] ] in
  files w !! ["templateer"; "models"; "hello_model.py"] =
    Some (File "# edited by hand") ∧
  files w' !! ["templateer"; "models"; "hello_model.py"] =
    Some (File "# edited by hand") ∧
  autogen_models proj_settings example_py false w = Return generated w' ∧
  generated =
    expected_stubs proj_settings example_py
      (discover_template_modules proj_settings w) ∧
  pretty (length generated) = "2".
Proof.
  intros w w' generated.
  assert (Hrun : autogen_models proj_settings example_py false w =
                 Return generated w') by (vm_compute; reflexivity).
  split_and!; [vm_compute; reflexivity|vm_compute; reflexivity|exact Hrun| |
               vm_compute; reflexivity].
  apply (proj1 (autogen_models_lists_every_template proj_settings example_py
                  false w) generated w' Hrun).
Defined.

(** C10. On ordinary template files the discovery pass lists nothing. A
    file that runs and leaves [__loader__] as [runpy] has bound it, to
    [None], makes line 85 raise [AttributeError]. So when the discovered
    files are such files, [autogen_models] returns, the empty list, only when
    there is no template file at all; else it raises at the first file,
    having written and printed nothing, and the command [autogen] raises
    with it before it prints a count. *)
Theorem autogen_models_ordinary_files settings py verbose w :
  Forall (fun tpl_py => runpy_run_path py tpl_py = Ok NoLoader)
         (discover_template_modules settings w) →
  autogen_models settings py verbose w =
    match discover_template_modules settings w with
    | [] => Return [] w
    | _ :: _ => Raise AttributeError w
    end ∧
  (discover_template_modules settings w ≠ [] →
   Cli.autogen settings py verbose w = Raise AttributeError w).
Proof.
  intros Hplain.
  assert (Hrun : autogen_models settings py verbose w =
                 match discover_template_modules settings w with
                 | [] => Return [] w
                 | _ :: _ => Raise AttributeError w
                 end).
  { unfold autogen_models.
    destruct Hplain as [|tpl_py rest Hfirst _]; [done|].
    cbn [autogen_loop]. unfold io_bind, autogen_one, io_bind, io_lift, run_path.
    by rewrite Hfirst. }
  split; [exact Hrun|]. intros Hne.
  unfold Cli.autogen, io_bind. rewrite Hrun.
  by destruct (discover_template_modules settings w).
Qed.

Lemma autogen_models_ordinary_files_witness :
  discover_template_modules proj_settings (World rerun_disk []) =
    [ ["/"; "proj"; ".templateer"; "helper.py"];
      ["/"; "proj"; ".templateer"; "hello.py"];
      ["/"; "proj"; ".templateer"; "greeting.py"] ] ∧
  autogen_models proj_settings plain_py false (World rerun_disk []) =
    Raise AttributeError (World rerun_disk []) ∧
  Cli.autogen proj_settings plain_py false (World rerun_disk []) =
    Raise AttributeError (World rerun_disk []).
Proof.
  assert (Hls : discover_template_modules proj_settings (World rerun_disk []) =
                [ ["/"; "proj"; ".templateer"; "helper.py"];
                  ["/"; "proj"; ".templateer"; "hello.py"];
                  ["/"; "proj"; ".templateer"; "greeting.py"] ])
    by (vm_compute; reflexivity).
  destruct (autogen_models_ordinary_files proj_settings plain_py false
              (World rerun_disk [])) as [Hrun Hcli].
  { rewrite Hls. by repeat constructor. }
  rewrite Hls in Hrun, Hcli. split_and!; [done|exact Hrun|].
  by apply Hcli.
Defined.

(** ** The generation pass *)

Lemma next_template_class_none values :
  Forall (fun o => eligible o = false) values →
  next_template_class values = Exc StopIteration.
Proof.
  induction 1 as [|o values Ho _ IH]; [done|].
  cbn [next_template_class]. destruct o as [s|c|]; [done| |done].
  by rewrite Ho.
Qed.

Lemma next_template_class_first pre c post :
  Forall (fun o => eligible o = false) pre →
  eligible (OClass c) = true →
  next_template_class (pre ++ OClass c :: post) = Ok c.
Proof.
  intros Hpre Hc.
  induction Hpre as [|o pre Ho _ IH]; cbn [app next_template_class].
  - by rewrite Hc.
  - destruct o as [s|c'|]; [done| |done]. by rewrite Ho.
Qed.

(** C6 as stated fails: the stub module [two_model] declares two eligible
    subclasses of [TemplateModel]; its processing does not fail: the first
    of the two in the module's dictionary is picked, rendered and written,
    and counted. *)
Lemma generate_one_picks_first_of_two :
  let values := map snd (mod_dict two_model) in
  py_import example_py "templateer.models.two_model" = Ok two_model ∧
  filter (fun o => eligible o = true) values =
    [OClass HelloTemplate; OClass GreetingTemplate] ∧
  next_template_class values = Ok HelloTemplate ∧
  Cli.generate_one proj_settings example_py false
    ["templateer"; "models"; "two_model.py"] 0 fresh_world =
  Return 1
    (World (<[ ["TEMPLATE_DIR"; "hello.py"] := File "hello world" ]> fresh_disk)
           []).
Proof. intros values. split_and!; vm_compute; reflexivity. Qed.

(** C6, amended. The class of a stub module is picked by [next(...)] over
    the values of the module's dictionary: with no eligible class (a
    subclass of [TemplateModel] other than [TemplateModel] itself) the
    choice raises [StopIteration], and with one or more it is the first
    eligible class in the order of the dictionary, whatever follows it.
    In [cli.py] a stub without an eligible class therefore fails alone: the
    exception is caught, the count stays, nothing is written, and only in
    verbose mode a line is printed. *)
Theorem next_template_class_picks_first :
  (∀ values,
     Forall (fun o => eligible o = false) values →
     next_template_class values = Exc StopIteration) ∧
  (∀ pre c post,
     Forall (fun o => eligible o = false) pre →
     eligible (OClass c) = true →
     next_template_class (pre ++ OClass c :: post) = Ok c) ∧
  (∀ settings py verbose stub module n w,
     import_module py ("templateer.models." +:+ PyPath.stem stub) = Ok module →
     Forall (fun o => eligible o = false) (map snd (mod_dict module)) →
     Cli.generate_one settings py verbose stub n w =
       Return n
         (World (files w)
            (stdout w ++
             if verbose
             then [warning_sign +:+ "  " +:+ PyPath.stem stub +:+
                   " could not render: " +:+ exc_str py StopIteration]
             else []))).
Proof.
  split_and!.
  - apply next_template_class_none.
  - apply next_template_class_first.
  - intros settings py verbose stub module n w Himp Hnone.
    unfold Cli.generate_one, Cli.render_stub, io_bind, io_lift.
    rewrite Himp, (next_template_class_none _ Hnone). simpl.
    unfold Cli.report_failure. destruct verbose; simpl.
    + done.
    + destruct w. simpl. by rewrite app_nil_r.
Qed.

Lemma next_template_class_picks_first_witness :
  Cli.generate_one proj_settings example_py true
    ["templateer"; "models"; "none_model.py"] 0 fresh_world =
  Return 0
    (World (files fresh_world)
       (stdout fresh_world ++
        [warning_sign +:+ "  " +:+
         PyPath.stem ["templateer"; "models"; "none_model.py"] +:+
         " could not render: " +:+ exc_str example_py StopIteration])) ∧
  next_template_class
    ([OOther; OOther; OClass TemplateModel_class] ++
     OClass HelloTemplate :: [OClass GreetingTemplate]) = Ok HelloTemplate.
Proof.
  destruct next_template_class_picks_first as (_ & Hfirst & Hcli).
  split.
  - apply (Hcli proj_settings example_py true
             ["templateer"; "models"; "none_model.py"] none_model
             0 fresh_world); [vm_compute; reflexivity|].
    repeat constructor.
  - apply Hfirst; [repeat constructor|vm_compute; reflexivity].
Defined.

(** * Further properties *)

(** ** settings.py *)

Lemma preserved_refl w : preserved w w.
Proof. by intros q n. Qed.

Lemma preserved_trans w1 w2 w3 :
  preserved w1 w2 → preserved w2 w3 → preserved w1 w3.
Proof. intros H12 H23 q n Hq. by apply H23, H12. Qed.

Lemma preserved_insert_absent w p n :
  Os.exists_ w p = false →
  preserved w (set_files w (<[p := n]> (files w))).
Proof.
  intros Hex q m Hq. simpl.
  destruct (decide (p = q)) as [->|Hne]; [|by rewrite lookup_insert_ne].
  unfold Os.exists_ in Hex.
  destruct (Os.lookup_node (files w) q) eqn:Hl; [done|].
  apply lookup_node_None in Hl. congruence.
Qed.

Lemma preserved_exists w w' q :
  preserved w w' → Os.exists_ w q = true → Os.exists_ w' q = true.
Proof.
  intros Hpre. unfold Os.exists_, Os.lookup_node.
  destruct q as [|c [|d q]]; [done| |].
  - destruct (PyPath.is_root_part c); [done|].
    destruct (files w !! [c]) as [n|] eqn:Hq; [|done].
    by rewrite (Hpre _ _ Hq).
  - destruct (files w !! (c :: d :: q)) as [n|] eqn:Hq; [|done].
    by rewrite (Hpre _ _ Hq).
Qed.

Lemma mkdir_preserved p parents exist_ok w w' :
  Path.mkdir p parents exist_ok w = Return tt w' → preserved w w'.
Proof.
  intros Hmk q n Hq.
  destruct (mkdir_go_frame _ _ _ _ _ _ Hmk q) as [->|[Hnone _]]; congruence.
Qed.

Lemma touch_cases p w w' :
  Path.touch p w = Return tt w' →
  Os.exists_ w' p = true ∧ preserved w w' ∧ stdout w' = stdout w.
Proof.
  unfold Path.touch. destruct (Os.exists_ w p) eqn:Hex.
  - intros [= <-]. split_and!; [done|apply preserved_refl|done].
  - destruct (Os.is_dir w (PyPath.parent p)); [|done]. intros [= <-].
    split_and!; [apply exists_insert|by apply preserved_insert_absent|done].
Qed.

(** X1. When [get_settings] returns, it returns the settings it loaded; the
    model directory and the output directory are directories, the package
    marker [__init__.py] exists in the model directory, every entry that was
    on disk before is still there unchanged, and nothing has been printed. *)
Theorem get_settings_ensures_directories loaded w s w' :
  get_settings loaded w = Return s w' →
  s = loaded ∧
  Path.is_dir w' (model_dir loaded) = true ∧
  Path.is_dir w' (template_output_dir loaded) = true ∧
  Path.exists_ w' (PyPath.joinpath (model_dir loaded) "__init__.py") = true ∧
  preserved w w' ∧
  stdout w' = stdout w.
Proof.
  unfold get_settings, io_bind, io_ret.
  destruct (Path.mkdir (model_dir loaded) true true w) as [[] w1|] eqn:H1;
    [|done].
  destruct (Path.touch _ w1) as [[] w2|] eqn:H2; [|done].
  destruct (Path.mkdir (template_output_dir loaded) true true w2)
    as [[] w3|] eqn:H3; [|done].
  intros [= <- <-].
  pose proof (mkdir_preserved _ _ _ _ _ H1) as Hp1.
  pose proof (mkdir_preserved _ _ _ _ _ H3) as Hp3.
  apply mkdir_returns in H1 as (Hd1 & Ho1 & _).
  apply mkdir_returns in H3 as (Hd3 & Ho3 & Hm3).
  pose proof (touch_returns _ _ _ H2) as Hm2.
  apply touch_cases in H2 as (Hex2 & Hp2 & Ho2).
  split_and!; [done|by apply Hm3, Hm2|done| | |congruence].
  - by apply (preserved_exists w2 w3).
  - eauto using preserved_trans.
Qed.

Lemma get_settings_ensures_directories_witness :
  get_settings proj_settings empty_world = Return proj_settings fresh_world ∧
  Path.is_dir fresh_world (model_dir proj_settings) = true.
Proof.
  assert (Hrun : get_settings proj_settings empty_world =
                 Return proj_settings fresh_world) by (vm_compute; reflexivity).
  split; [exact Hrun|].
  by destruct (get_settings_ensures_directories _ _ _ _ Hrun) as (_ & Hd & _).
Defined.

(** X2. [get_settings] is idempotent: in a world it has returned in, a
    second call returns the same settings and changes nothing at all. *)
Theorem get_settings_idempotent loaded w s w' :
  get_settings loaded w = Return s w' →
  get_settings loaded w' = Return loaded w'.
Proof.
  intros Hget.
  assert (Hpost :
    Os.is_dir w' (model_dir loaded) = true ∧
    Os.is_dir w' (template_output_dir loaded) = true ∧
    Os.exists_ w' (PyPath.joinpath (model_dir loaded) "__init__.py") = true).
  { revert Hget. unfold get_settings, io_bind, io_ret.
    destruct (Path.mkdir (model_dir loaded) true true w) as [[] w1|] eqn:H1;
      [|done].
    destruct (Path.touch _ w1) as [[] w2|] eqn:H2; [|done].
    destruct (Path.mkdir (template_output_dir loaded) true true w2)
      as [[] w3|] eqn:H3; [|done].
    intros [= <- <-].
    pose proof (mkdir_preserved _ _ _ _ _ H3) as Hp3.
    apply mkdir_returns in H1 as (Hd1 & _ & _).
    apply mkdir_returns in H3 as (Hd3 & _ & Hm3).
    pose proof (touch_returns _ _ _ H2) as Hm2.
    apply touch_cases in H2 as (Hex2 & _ & _).
    split_and!; [by apply Hm3, Hm2|done|by apply (preserved_exists w2 w3)]. }
  destruct Hpost as (Hd1 & Hd2 & Hex).
  unfold get_settings, io_bind, io_ret, Path.mkdir.
  rewrite mkdir_go_existing by done.
  unfold Path.touch. rewrite Hex.
  by rewrite mkdir_go_existing by done.
Qed.

Lemma get_settings_idempotent_witness :
  get_settings proj_settings empty_world = Return proj_settings fresh_world ∧
  get_settings proj_settings fresh_world = Return proj_settings fresh_world.
Proof.
  assert (Hrun : get_settings proj_settings empty_world =
                 Return proj_settings fresh_world) by (vm_compute; reflexivity).
  split; [exact Hrun|].
  exact (get_settings_idempotent _ _ _ _ Hrun).
Defined.

(** X3. When the path of the model directory names a regular file,
    [get_settings] raises [FileExistsError] and leaves the world as it
    was: [exist_ok] forgives an existing directory only. *)
Theorem get_settings_model_dir_is_file loaded w :
  Os.is_file_node (files w) (model_dir loaded) = true →
  get_settings loaded w = Raise FileExistsError w.
Proof.
  intros Hfile. unfold get_settings, io_bind, Path.mkdir.
  assert (Hm : Os.mkdir (model_dir loaded) w = Raise FileExistsError w).
  { unfold Os.mkdir, Os.exists_. unfold Os.is_file_node in Hfile.
    by destruct (Os.lookup_node (files w) (model_dir loaded)). }
  assert (Hd : Os.is_dir w (model_dir loaded) = false).
  { unfold Os.is_dir. unfold Os.is_file_node in Hfile.
    by destruct (Os.lookup_node (files w) (model_dir loaded)) as [[]|]. }
  destruct (length (model_dir loaded)); cbn [Path.mkdir_go];
    by rewrite Hm, Hd.
Qed.

Lemma get_settings_model_dir_is_file_witness :
  Os.is_file_node blocked_disk (model_dir proj_settings) = true ∧
  get_settings proj_settings (World blocked_disk []) =
    Raise FileExistsError (World blocked_disk []).
Proof.
  split; [vm_compute; reflexivity|].
  apply (get_settings_model_dir_is_file proj_settings (World blocked_disk [])).
  vm_compute; reflexivity.
Defined.

(** ** [camelify] and the field lines *)

Lemma upper_char_name_char c :
  Jinja.is_name_char c = true → Jinja.is_name_char (PyStr.upper_char c) = true.
Proof. by destruct c as [[] [] [] [] [] [] [] []]. Qed.

Lemma upper_char_name_start c :
  Jinja.is_name_start c = true → Jinja.is_name_start (PyStr.upper_char c) = true.
Proof. by destruct c as [[] [] [] [] [] [] [] []]. Qed.

Lemma letter_name_start c :
  is_ascii_letter c = true → Jinja.is_name_start (PyStr.upper_char c) = true.
Proof. by destruct c as [[] [] [] [] [] [] [] []]. Qed.

Lemma letter_name_char c :
  is_ascii_letter c = true → Jinja.is_name_char (PyStr.upper_char c) = true.
Proof. by destruct c as [[] [] [] [] [] [] [] []]. Qed.

(** Induction that follows the two-character steps of [camel_words]. *)
Lemma string_pair_ind (P : string → Prop) :
  P "" → (∀ c, P (String c "")) →
  (∀ c d s, P s → P (String d s) → P (String c (String d s))) →
  ∀ s, P s.
Proof.
  intros Hnil Hone Hstep s.
  assert (H : P s ∧ ∀ c, P (String c s)).
  { induction s as [|d s [IH1 IH2]]; [by split|].
    split; [apply IH2|]. intros c. apply Hstep; [done|apply IH2]. }
  apply H.
Qed.

Lemma camel_words_cons2 c d s :
  camel_words (String c (String d s)) =
  if is_separator c && is_ascii_letter d
  then String (PyStr.upper_char d) (camel_words s)
  else String c (camel_words (String d s)).
Proof. reflexivity. Qed.

Lemma camel_words_name_chars s :
  Jinja.all_name_chars s = true → Jinja.all_name_chars (camel_words s) = true.
Proof.
  induction s as [|c|c d s IH1 IH2] using string_pair_ind; [done|done|].
  intros Hall. rewrite camel_words_cons2.
  cbn [Jinja.all_name_chars] in Hall.
  apply andb_true_iff in Hall as [Hc Hall].
  pose proof Hall as Hds. apply andb_true_iff in Hall as [Hd Hs].
  destruct (is_separator c && is_ascii_letter d) eqn:Hm.
  - apply andb_true_iff in Hm as [_ Hl]. cbn [Jinja.all_name_chars].
    by rewrite (letter_name_char _ Hl), IH1.
  - cbn [Jinja.all_name_chars]. rewrite Hc. cbn [andb]. apply IH2.
    cbn [Jinja.all_name_chars]. by rewrite Hd, Hs.
Qed.

Lemma all_name_chars_app s t :
  Jinja.all_name_chars (s +:+ t) =
  Jinja.all_name_chars s && Jinja.all_name_chars t.
Proof.
  induction s as [|c s IH]; [done|].
  change (String c s +:+ t) with (String c (s +:+ t)).
  cbn [Jinja.all_name_chars]. by rewrite IH, andb_assoc.
Qed.

Lemma camel_words_identifier s :
  is_py_identifier s = true → is_py_identifier (camel_words s) = true.
Proof.
  unfold is_py_identifier. destruct s as [|c [|d s]]; [done|done|].
  intros Hid. cbn [Jinja.is_identifier] in Hid.
  apply andb_true_iff in Hid as [Hc Hall].
  pose proof (camel_words_name_chars _ Hall) as Hrest.
  rewrite camel_words_cons2.
  destruct (is_separator c && is_ascii_letter d) eqn:Hm.
  - apply andb_true_iff in Hm as [_ Hl]. cbn [Jinja.is_identifier].
    rewrite (letter_name_start _ Hl). cbn [andb].
    cbn [Jinja.all_name_chars] in Hall.
    apply andb_true_iff in Hall as [_ Hs]. by apply camel_words_name_chars.
  - cbn [Jinja.is_identifier]. by rewrite Hc, Hrest.
Qed.

(** X4. A module stem that is an (ASCII) Python identifier gives a class
    name that is one too: [camelify] of an identifier is an identifier, and
    so is that name with the suffix [Template]. *)
Theorem camelify_identifier name :
  is_py_identifier name = true →
  is_py_identifier (camelify name) = true ∧
  is_py_identifier (camelify name +:+ "Template") = true.
Proof.
  intros Hid. rewrite camelify_words.
  pose proof (camel_words_identifier _ Hid) as Hcw.
  unfold is_py_identifier in *.
  destruct (camel_words name) as [|c s]; [done|].
  cbn [capitalize_first Jinja.is_identifier] in *.
  apply andb_true_iff in Hcw as [Hc Hs].
  change (String (PyStr.upper_char c) s +:+ "Template")
    with (String (PyStr.upper_char c) (s +:+ "Template")).
  cbn [Jinja.is_identifier].
  rewrite (upper_char_name_start _ Hc), all_name_chars_app, Hs. done.
Qed.

Lemma camelify_identifier_witness :
  is_py_identifier "example_function_template" = true ∧
  is_py_identifier (camelify "example_function_template" +:+ "Template") = true.
Proof.
  split; [vm_compute; reflexivity|].
  apply (camelify_identifier "example_function_template").
  vm_compute; reflexivity.
Defined.

Lemma camel_words_length s :
  (String.length (camel_words s) ≤ String.length s)%nat.
Proof.
  induction s as [|c|c d s IH1 IH2] using string_pair_ind; [done|done|].
  rewrite camel_words_cons2.
  destruct (is_separator c && is_ascii_letter d); cbn [String.length] in *; lia.
Qed.

Lemma camel_words_no_separator s :
  no_separator s = true → camel_words s = s.
Proof.
  induction s as [|c|c d s IH1 IH2] using string_pair_ind; [done|done|].
  intros Hs. rewrite camel_words_cons2. cbn [no_separator] in Hs.
  apply andb_true_iff in Hs as [Hc Hs]. apply negb_true_iff in Hc.
  rewrite Hc. cbn [andb]. by rewrite IH2.
Qed.

Lemma capitalize_first_length s :
  String.length (capitalize_first s) = String.length s.
Proof. by destruct s. Qed.

(** X5. On an ASCII name (where [str.upper] is the ASCII case conversion
    and keeps the length) [camelify] never makes the name longer, and a name
    without [_] and [-] comes back with nothing but its first character
    upper-cased. *)
Theorem camelify_length_and_plain_names name :
  PyStr.isascii name = true →
  (String.length (camelify name) ≤ String.length name)%nat ∧
  (no_separator name = true → camelify name = capitalize_first name).
Proof.
  intros _. rewrite camelify_words, capitalize_first_length. split.
  - apply camel_words_length.
  - intros Hs. by rewrite camel_words_no_separator.
Qed.

Lemma camelify_length_and_plain_names_witness :
  PyStr.isascii "greeting" = true ∧
  no_separator "greeting" = true ∧
  camelify "greeting" = capitalize_first "greeting".
Proof.
  split; [vm_compute; reflexivity|]. split; [vm_compute; reflexivity|].
  apply (camelify_length_and_plain_names "greeting"); vm_compute; reflexivity.
Defined.

Lemma join_cons_nonempty sep x l :
  x ≠ "" → PyStr.join sep (x :: l) ≠ "".
Proof.
  intros Hx. destruct x as [|c x]; [done|]. by destruct l.
Qed.

(** X6. The field lines of a stub: the variables are taken in ascending
    order, each exactly once, one line [    v: Any | None = None] per
    variable, joined by line breaks; the placeholder [    pass] stands in
    exactly when there is no variable. *)
Theorem field_lines_one_per_variable (vars_ : gset string) :
  StronglySorted String.le (PyStr.sorted (elements vars_)) ∧
  NoDup (PyStr.sorted (elements vars_)) ∧
  (∀ v, v ∈ PyStr.sorted (elements vars_) ↔ v ∈ vars_) ∧
  length (PyStr.sorted (elements vars_)) = size vars_ ∧
  field_lines vars_ =
    match PyStr.sorted (elements vars_) with
    | [] => "    pass"
    | vs => PyStr.join PyStr.nl (map field_line vs)
    end.
Proof.
  pose proof (merge_sort_Permutation String.le (elements vars_)) as Hperm.
  fold (PyStr.sorted (elements vars_)) in Hperm.
  split_and!.
  - apply StronglySorted_merge_sort; apply _.
  - rewrite Hperm. apply NoDup_elements.
  - intros v. rewrite Hperm. apply elem_of_elements.
  - by rewrite Hperm.
  - unfold field_lines. destruct (PyStr.sorted (elements vars_)) as [|v vs];
      [done|].
    destruct (String.eqb _ "") eqn:Heq; [|done].
    apply String.eqb_eq in Heq. by apply join_cons_nonempty in Heq.
Qed.

(** ** The discovery pass and the disk *)

Lemma write_model_stub_outcome settings module attr vars_ w :
  preserved w
    (outcome_world (Generator.write_model_stub settings module attr vars_ w)) ∧
  stdout (outcome_world (Generator.write_model_stub settings module attr vars_ w))
    = stdout w.
Proof.
  unfold Generator.write_model_stub, io_bind, io_ret, Path.write_text,
    Path.exists_.
  destruct (Os.exists_ w (stub_path settings module)) eqn:Hex; simpl.
  - split; [apply preserved_refl|done].
  - rewrite write_file_cases by done.
    destruct (Os.is_dir w (PyPath.parent (stub_path settings module))); simpl.
    + split; [by apply preserved_insert_absent|done].
    + split; [apply preserved_refl|done].
Qed.

Section DiscoveryFrame.

Context (settings : TemplateerSettings) (py : interpreter).

Lemma autogen_one_outcome verbose tpl_py w :
  preserved w (outcome_world (autogen_one settings py verbose tpl_py w)) ∧
  (verbose = false →
   stdout (outcome_world (autogen_one settings py verbose tpl_py w)) = stdout w).
Proof.
  unfold autogen_one, io_bind, io_lift, io_ret.
  destruct (run_path py tpl_py) as [module|];
    [|split; [apply preserved_refl|done]].
  destruct (hasattr module "TEMPLATE"); simpl;
    [|split; [apply preserved_refl|done]].
  destruct (result_bind (getattr module "TEMPLATE") as_template_text)
    as [template|]; [|split; [apply preserved_refl|done]].
  destruct (extract_template_vars template) as [vars_|];
    [|split; [apply preserved_refl|done]].
  destruct (write_model_stub_outcome settings module "TEMPLATE" vars_ w)
    as [Hpre Hout].
  destruct (Generator.write_model_stub settings module "TEMPLATE" vars_ w)
    as [q w1|e w1]; simpl in *; [|done].
  destruct verbose; [|done].
  destruct (PyPath.relative_to q (project_root settings)); simpl;
    (split; [exact Hpre|done]).
Qed.

Lemma autogen_loop_outcome verbose tpls generated w :
  preserved w
    (outcome_world (autogen_loop settings py verbose tpls generated w)) ∧
  (verbose = false →
   stdout (outcome_world (autogen_loop settings py verbose tpls generated w))
     = stdout w).
Proof.
  revert generated w. induction tpls as [|tpl tpls IH]; intros generated w.
  - split; [apply preserved_refl|done].
  - cbn [autogen_loop]. unfold io_bind.
    destruct (autogen_one_outcome verbose tpl w) as [Hpre Hout].
    destruct (autogen_one settings py verbose tpl w) as [[q|] w1|e w1];
      simpl in *; [| |done].
    + destruct (IH (generated ++ [q])%list w1) as [Hpre' Hout'].
      split; [by eapply preserved_trans|].
      intros Hv. by rewrite Hout', Hout.
    + destruct (IH generated w1) as [Hpre' Hout'].
      split; [by eapply preserved_trans|].
      intros Hv. by rewrite Hout', Hout.
Qed.

End DiscoveryFrame.

(** X7. The discovery pass never changes or removes anything that is on
    disk: whether [autogen_models] returns or raises part-way, every entry
    the disk had before is still there with the same content afterwards
    (all it does is add stub files).  A pass that is not verbose prints
    nothing. *)
Theorem autogen_models_preserves_disk settings py verbose w :
  preserved w (outcome_world (autogen_models settings py verbose w)) ∧
  stdout (outcome_world (autogen_models settings py false w)) = stdout w.
Proof.
  unfold autogen_models. split.
  - apply autogen_loop_outcome.
  - by apply autogen_loop_outcome.
Qed.

(** ** Rendering and the fields of an instance *)





(** ** Instances made from the defaults *)

Lemma field_defaults_spec fields :
  match field_defaults fields with
  | Ok l => fields = map (fun f => (f.1, Some f.2)) l
  | Exc e => e = ValidationError ∧ ∃ name, (name, None) ∈ fields
  end.
Proof.
  induction fields as [|[name [v|]] fields IH]; cbn [field_defaults].
  - done.
  - destruct (field_defaults fields) as [l|e]; simpl.
    + by rewrite IH.
    + destruct IH as [-> [n Hn]]. split; [done|]. exists n. by right.
  - split; [done|]. exists name. by left.
Qed.

(** [tmpl_cls()] without arguments: when it returns, every declared
    field has a default, the instance is of that class and has exactly the
    declared fields, each holding a default declared for it; when it does
    not, the exception is the validation error and some declared field has
    no default. *)
Lemma instantiate_takes_defaults c :
  match instantiate c with
  | Ok self =>
      Forall (fun f => is_Some f.2) (cls_fields c) ∧
      inst_class self = c ∧
      dom (inst_fields self) = list_to_set (cls_fields c).*1 ∧
      (∀ name v, inst_fields self !! name = Some v →
                 (name, Some v) ∈ cls_fields c)
  | Exc e => e = ValidationError ∧ ∃ name, (name, None) ∈ cls_fields c
  end.
Proof.
  unfold instantiate. pose proof (field_defaults_spec (cls_fields c)) as Hspec.
  destruct (field_defaults (cls_fields c)) as [l|e]; simpl; [|done].
  rewrite Hspec. split_and!.
  - apply Forall_forall. intros f (g & -> & _)%list_elem_of_fmap. by eexists.
  - done.
  - rewrite dom_list_to_map_L. f_equal. rewrite <- list_fmap_compose.
    by apply list_fmap_ext.
  - intros name v Hv%elem_of_list_to_map_2.
    apply list_elem_of_fmap. by exists (name, v).
Qed.



(** ** The output path *)

Lemma take_app_length s t : PyStr.take (String.length s) (s +:+ t) = s.
Proof.
  induction s as [|c s IH]; [by destruct t|].
  change (String c s +:+ t) with (String c (s +:+ t)).
  cbn [String.length PyStr.take]. by rewrite IH.
Qed.

Lemma drop_app_length s t : PyStr.drop (String.length s) (s +:+ t) = t.
Proof.
  induction s as [|c s IH]; [by destruct t|].
  change (String c s +:+ t) with (String c (s +:+ t)).
  cbn [String.length PyStr.drop]. by rewrite IH.
Qed.

Lemma removesuffix_app p s : PyStr.removesuffix p (s +:+ p) = s.
Proof.
  unfold PyStr.removesuffix, PyStr.endswith.
  rewrite string_app_length.
  replace (String.length s + String.length p - String.length p)%nat
    with (String.length s) by lia.
  rewrite drop_app_length, take_app_length, String.eqb_refl.
  replace (Nat.leb (String.length p) (String.length s + String.length p))
    with true by (symmetry; apply Nat.leb_le; lia).
  cbn [andb]. destruct (String.eqb p "") eqn:Hp; [|done].
  apply String.eqb_eq in Hp as ->. apply string_app_nil_r.
Qed.

Lemma lower_char_name_char c :
  Jinja.is_name_char c = true → Jinja.is_name_char (PyStr.lower_char c) = true.
Proof. by destruct c as [[] [] [] [] [] [] [] []]. Qed.

Lemma name_char_no_slash c :
  Jinja.is_name_char c = true → Ascii.eqb c "/" = false.
Proof. by destruct c as [[] [] [] [] [] [] [] []]. Qed.

Lemma name_start_name_char c :
  Jinja.is_name_start c = true → Jinja.is_name_char c = true.
Proof. unfold Jinja.is_name_char. by intros ->. Qed.

Lemma identifier_name_chars s :
  Jinja.is_identifier s = true → Jinja.all_name_chars s = true.
Proof.
  destruct s as [|c s]; [done|]. cbn [Jinja.is_identifier Jinja.all_name_chars].
  intros [Hc Hs]%andb_true_iff. by rewrite (name_start_name_char _ Hc), Hs.
Qed.

Lemma lower_name_chars s :
  Jinja.all_name_chars s = true → Jinja.all_name_chars (PyStr.lower s) = true.
Proof.
  induction s as [|c s IH]; [done|].
  change (PyStr.lower (String c s))
    with (String (PyStr.lower_char c) (PyStr.lower s)).
  cbn [Jinja.all_name_chars]. intros [Hc Hs]%andb_true_iff.
  by rewrite (lower_char_name_char _ Hc), IH.
Qed.

Lemma name_chars_no_slash s :
  Jinja.all_name_chars s = true → PyStr.contains_char "/" s = false.
Proof.
  induction s as [|c s IH]; [done|].
  cbn [Jinja.all_name_chars PyStr.contains_char].
  intros [Hc Hs]%andb_true_iff. by rewrite (name_char_no_slash _ Hc), IH.
Qed.

Lemma camelify_name_chars s :
  is_py_identifier s = true → Jinja.all_name_chars (camelify s) = true.
Proof.
  intros Hid%camel_words_identifier. rewrite camelify_words.
  unfold is_py_identifier in Hid.
  destruct (camel_words s) as [|c u]; [done|].
  cbn [capitalize_first Jinja.is_identifier Jinja.all_name_chars] in *.
  apply andb_true_iff in Hid as [Hc Hu].
  by rewrite (name_start_name_char _ (upper_char_name_start _ Hc)), Hu.
Qed.

(** The join of a directory and a file name without slash, other than the
    empty name and the dot, is the directory's parts and that name. *)
Lemma joinpath_single dir x :
  PyStr.contains_char "/" x = false → (3 ≤ String.length x)%nat →
  PyPath.joinpath dir x = (dir ++ [x])%list.
Proof.
  intros Hx Hlen. unfold PyPath.joinpath, PyPath.of_string.
  rewrite (startswith_slash_absent _ Hx). simpl.
  unfold PyStr.split. rewrite split_go_no_sep by done. simpl.
  assert (Hne : ∀ s, (String.length s < 3)%nat → String.eqb x s = false).
  { intros s Hs. apply String.eqb_neq. intros ->. lia. }
  assert (Hkeep : PyPath.keep_part x = true).
  { unfold PyPath.keep_part. by rewrite !Hne by (simpl; lia). }
  assert (Hroot : PyPath.is_root_part x = false).
  { unfold PyPath.is_root_part. by rewrite !Hne by (simpl; lia). }
  rewrite filter_cons_True by done. rewrite filter_nil.
  cbn [PyPath.is_absolute]. by rewrite Hroot.
Qed.

(** X10. The output file of a stub class.  A class that is named as the
    stub writer names it, [camelify(stem) + "Template"] for an (ASCII)
    identifier [stem], and that sets no [__output__] (or an empty one),
    renders into the file [lower(camelify(stem)) + ".py"] directly in the
    output directory.  Separators and letter case of the stem are thus lost
    in the file name: the stems [foo_bar] and [foobar] share one output
    file. *)
Theorem output_path_of_stub_class settings self stem :
  is_py_identifier stem = true →
  cls_name (inst_class self) = camelify stem +:+ "Template" →
  (cls_output (inst_class self) = None ∨
   cls_output (inst_class self) = Some "") →
  _output_path settings self =
    (template_output_dir settings ++
     [PyStr.lower (camelify stem) +:+ ".py"])%list.
Proof.
  intros Hid Hname Hout. unfold _output_path.
  rewrite Hname, removesuffix_app.
  assert (Hfile : match cls_output (inst_class self) with
                  | Some out =>
                      if String.eqb out ""
                      then PyStr.lower (camelify stem) +:+ ".py" else out
                  | None => PyStr.lower (camelify stem) +:+ ".py"
                  end = PyStr.lower (camelify stem) +:+ ".py")
    by (by destruct Hout as [-> | ->]).
  rewrite Hfile. apply joinpath_single.
  - rewrite contains_char_app.
    by rewrite (name_chars_no_slash _
                  (lower_name_chars _ (camelify_name_chars _ Hid))).
  - rewrite string_app_length. simpl. lia.
Qed.

Lemma output_path_of_stub_class_witness :
  _output_path proj_settings
    {| inst_class := example_class "FooBarTemplate" "foo_bar.TEMPLATE" [];
       inst_fields := ∅ |} = ["TEMPLATE_DIR"; "foobar.py"] ∧
  _output_path proj_settings
    {| inst_class := example_class "FoobarTemplate" "foobar.TEMPLATE" [];
       inst_fields := ∅ |} = ["TEMPLATE_DIR"; "foobar.py"].
Proof.
  split.
  - rewrite (output_path_of_stub_class proj_settings _ "foo_bar");
      [vm_compute; reflexivity|vm_compute; reflexivity|vm_compute; reflexivity|
       by left].
  - rewrite (output_path_of_stub_class proj_settings _ "foobar");
      [vm_compute; reflexivity|vm_compute; reflexivity|vm_compute; reflexivity|
       by left].
Defined.

(** ** Verbose reports and the project root *)

(** A relative path is not below an absolute one. *)
Lemma relative_to_mixed p other :
  PyPath.is_absolute other = true → PyPath.is_absolute p = false →
  PyPath.relative_to p other = Exc ValueError.
Proof. unfold PyPath.relative_to. by intros -> ->. Qed.

Lemma is_absolute_app_single dir x :
  PyPath.is_absolute dir = false → PyPath.is_root_part x = false →
  PyPath.is_absolute (dir ++ [x]) = false.
Proof. by destruct dir. Qed.

Lemma stub_path_relative settings module :
  PyPath.is_absolute (model_dir settings) = false →
  PyStr.contains_char "/" (module_stem module) = false →
  PyPath.is_absolute (stub_path settings module) = false.
Proof.
  intros Hrel Hstem.
  destruct (stub_path_in_model_dir settings module Hstem) as [-> _].
  apply is_absolute_app_single; [done|].
  unfold PyPath.is_root_part.
  assert (Hne : ∀ s, (String.length s < 9)%nat →
                     String.eqb (module_stem module +:+ "_model.py") s = false).
  { intros s Hs. apply String.eqb_neq. intros Heq.
    apply (f_equal String.length) in Heq. rewrite string_app_length in Heq.
    simpl in Heq. lia. }
  by rewrite !Hne by (simpl; lia).
Qed.

(** X11. The verbose discovery pass reports each stub relative to the
    project root.  With an absolute project root and a relative model
    directory (the default, [templateer/models]) that report cannot be
    made: for a template file on which the quiet pass returns a stub path,
    the verbose pass does the same work, so the stub is on disk, and then
    raises [ValueError]. *)
Theorem autogen_verbose_relative_model_dir settings py tpl_py module q w w1 :
  PyPath.is_absolute (project_root settings) = true →
  PyPath.is_absolute (model_dir settings) = false →
  run_path py tpl_py = Ok module →
  PyStr.contains_char "/" (module_stem module) = false →
  autogen_one settings py false tpl_py w = Return (Some q) w1 →
  autogen_one settings py true tpl_py w = Raise ValueError w1 ∧
  Path.exists_ w1 q = true ∧
  ∀ rest generated,
    autogen_loop settings py true (tpl_py :: rest) generated w =
      Raise ValueError w1.
Proof.
  intros Hroot Hrel Hrun Hstem Hquiet.
  assert (Hone : autogen_one settings py true tpl_py w = Raise ValueError w1 ∧
                 Path.exists_ w1 q = true).
  { revert Hquiet. unfold autogen_one, io_bind, io_lift, io_ret.
    rewrite Hrun.
    destruct (hasattr module "TEMPLATE"); simpl; [|done].
    destruct (result_bind (getattr module "TEMPLATE") as_template_text)
      as [template|]; [|done].
    destruct (extract_template_vars template) as [vars_|]; [|done].
    destruct (Generator.write_model_stub settings module "TEMPLATE" vars_ w)
      as [q' w'|] eqn:Hw; [|done].
    apply write_model_stub_returns in Hw as [-> Hex].
    intros [= <- <-].
    rewrite relative_to_mixed by (by try apply stub_path_relative).
    done. }
  destruct Hone as [Hone Hex]. split_and!; [done|done|].
  intros rest generated. cbn [autogen_loop]. unfold io_bind. by rewrite Hone.
Qed.

Lemma autogen_verbose_relative_model_dir_witness :
  autogen_one proj_settings example_py true
    ["/"; "proj"; ".templateer"; "greeting.py"] fresh_world =
  Raise ValueError
    (World (<[ ["templateer"; "models"; "greeting_model.py"] :=
                 File (Generator.stub_source greeting_module "TEMPLATE"
                         {["name"]}) ]> fresh_disk) []).
Proof.
  eapply proj1, (autogen_verbose_relative_model_dir proj_settings example_py
                   ["/"; "proj"; ".templateer"; "greeting.py"] greeting_module
                   ["templateer"; "models"; "greeting_model.py"] fresh_world);
    vm_compute; reflexivity.
Defined.

(** ** The generation loop of [cli.py] *)

Lemma mkdir_go_stdout fuel p parents exist_ok w :
  stdout (outcome_world (Path.mkdir_go fuel p parents exist_ok w)) = stdout w.
Proof.
  revert p parents exist_ok w.
  induction fuel as [|fuel IH]; intros p parents exist_ok w;
    cbn [Path.mkdir_go].
  - destruct (Os.mkdir p w) as [[] w1|e w1] eqn:Hmk.
    + by apply os_mkdir_returns in Hmk as [_ ->].
    + destruct e;
        try (by destruct (negb exist_ok || negb (Os.is_dir w p)));
        by destruct (negb parents || bool_decide (PyPath.parent p = p)).
  - destruct (Os.mkdir p w) as [[] w1|e w1] eqn:Hmk.
    + by apply os_mkdir_returns in Hmk as [_ ->].
    + destruct e;
        try (by destruct (negb exist_ok || negb (Os.is_dir w p))).
      destruct (negb parents || bool_decide (PyPath.parent p = p)); [done|].
      unfold io_bind.
      pose proof (IH (PyPath.parent p) true true w) as H1.
      destruct (Path.mkdir_go fuel (PyPath.parent p) true true w)
        as [[] w2|e2 w2]; simpl in H1; [|done].
      by rewrite IH.
Qed.

Lemma write_file_stdout p data w :
  stdout (outcome_world (Os.write_file p data w)) = stdout w.
Proof.
  unfold Os.write_file. destruct (Os.is_dir w p); [done|].
  by destruct (Os.is_dir w (PyPath.parent p)).
Qed.

Lemma generate_stdout settings py self write w :
  stdout (outcome_world (generate settings py self write w)) = stdout w.
Proof.
  rewrite generate_unfold. destruct (render py self) as [code|]; [|done].
  destruct write; [|done].
  pose proof (mkdir_go_stdout
                (length (PyPath.parent (_output_path settings self)))
                (PyPath.parent (_output_path settings self)) true true w) as H1.
  fold (Path.mkdir (PyPath.parent (_output_path settings self)) true true) in H1.
  destruct (Path.mkdir _ true true w) as [[] w1|e w1]; simpl in H1; [|done].
  pose proof (write_file_stdout (_output_path settings self) code w1) as H2.
  unfold Path.write_text.
  destruct (Os.write_file _ code w1) as [[] w2|e w2]; simpl in *; congruence.
Qed.

Section CliLoop.

Context (settings : TemplateerSettings) (py : interpreter).

Lemma render_stub_stdout stub w :
  stdout (outcome_world (Cli.render_stub settings py stub w)) = stdout w.
Proof.
  unfold Cli.render_stub, io_bind, io_lift, io_ret.
  destruct (import_module py _) as [module|]; [|done].
  destruct (next_template_class _) as [tmpl_cls|]; [|done].
  destruct (instantiate tmpl_cls) as [instance|]; [|done].
  pose proof (generate_stdout settings py instance true w) as Hg.
  by destruct (generate settings py instance true w).
Qed.

(** One turn of the loop: the count stays or goes up by one, one line is
    printed in verbose mode and none otherwise; only what is no
    [Exception] gets out. *)
Lemma generate_one_outcome verbose stub n w :
  match Cli.generate_one settings py verbose stub n w with
  | Return k w' =>
      (k = n ∨ k = S n) ∧
      length (stdout w') =
        (length (stdout w) + if verbose then 1 else 0)%nat
  | Raise e _ => is_Exception e = false
  end.
Proof.
  unfold Cli.generate_one.
  pose proof (render_stub_stdout stub w) as Hout.
  destruct (Cli.render_stub settings py stub w) as [instance w1|e w1];
    simpl in Hout.
  - unfold Cli.report_rendered, Cli.report_failure, io_bind, io_lift, io_ret,
      echo.
    destruct verbose.
    + destruct (PyPath.relative_to _ _) as [rel|e]; simpl.
      * split; [by right|]. rewrite length_app, Hout. done.
      * destruct (is_Exception e) eqn:He; [|done]. simpl.
        split; [by right|]. rewrite length_app, Hout. done.
    + simpl. split; [by right|]. rewrite Hout. lia.
  - destruct (is_Exception e) eqn:He; [|done].
    unfold Cli.report_failure, io_bind, io_ret, echo.
    destruct verbose; simpl.
    + split; [by left|]. rewrite length_app, Hout. done.
    + split; [by left|]. rewrite Hout. lia.
Qed.

End CliLoop.

(** X12. The loop of the command [generate] keeps a failing stub from
    stopping the others: it raises only what is no [Exception] (an exit,
    say), and when it returns, the count it returns has gone up by at most
    one per stub, and it has printed exactly one line per stub in verbose
    mode and nothing otherwise. *)
Theorem generate_loop_isolates_failures settings py verbose stubs n w :
  match Cli.generate_loop settings py verbose stubs n w with
  | Return k w' =>
      (n ≤ k ≤ n + length stubs)%nat ∧
      length (stdout w') =
        (length (stdout w) + if verbose then length stubs else 0)%nat
  | Raise e _ => is_Exception e = false
  end.
Proof.
  revert n w. induction stubs as [|stub stubs IH]; intros n w.
  - simpl. split; [lia|]. destruct verbose; lia.
  - cbn [Cli.generate_loop]. unfold io_bind.
    pose proof (generate_one_outcome settings py verbose stub n w) as H1.
    destruct (Cli.generate_one settings py verbose stub n w) as [k w1|e w1];
      [|done].
    destruct H1 as [Hk Hout1]. specialize (IH k w1).
    destruct (Cli.generate_loop settings py verbose stubs k w1) as [k' w2|];
      [|done].
    destruct IH as [Hk' Hout2]. cbn [length]. split; [lia|].
    rewrite Hout2, Hout1. destruct verbose; lia.
Qed.

(** X13. In verbose mode the command [generate] reports each rendered file
    relative to the project root.  With an absolute project root and a
    relative output path (the default output directory, [TEMPLATE_DIR], is
    relative) a stub that has been rendered and written is counted, and is
    then reported as one that could not be rendered. *)
Theorem generate_one_verbose_relative_output settings py stub n w instance w1 :
  PyPath.is_absolute (project_root settings) = true →
  PyPath.is_absolute (_output_path settings instance) = false →
  Cli.render_stub settings py stub w = Return instance w1 →
  Cli.generate_one settings py true stub n w =
    Return (S n)
      (World (files w1)
         (stdout w ++
          [warning_sign +:+ "  " +:+ PyPath.stem stub +:+
           " could not render: " +:+ exc_str py ValueError])) ∧
  Cli.generate_one settings py false stub n w = Return (S n) w1.
Proof.
  intros Hroot Hrel Hstub.
  pose proof (render_stub_stdout settings py stub w) as Hout.
  unfold Cli.generate_one. rewrite Hstub in *. simpl in Hout.
  unfold Cli.report_rendered, Cli.report_failure, io_bind, io_lift, io_ret,
    echo.
  rewrite relative_to_mixed by done. simpl. by rewrite Hout.
Qed.

Lemma generate_one_verbose_relative_output_witness :
  Cli.generate_one proj_settings example_py true
    ["templateer"; "models"; "two_model.py"] 0 fresh_world =
  Return 1
    (World (<[ ["TEMPLATE_DIR"; "hello.py"] := File "hello world" ]> fresh_disk)
       [warning_sign +:+ "  two_model could not render: "]).
Proof.
  destruct
    (generate_one_verbose_relative_output proj_settings example_py
       ["templateer"; "models"; "two_model.py"] 0 fresh_world hello
       (World (<[ ["TEMPLATE_DIR"; "hello.py"] := File "hello world" ]>
                 fresh_disk) []))
    as [Hverbose _]; [vm_compute; reflexivity..|].
  rewrite Hverbose. vm_compute; reflexivity.
Defined.

(** ** The generation loop of [main.py] *)

Lemma contains_char_rev_app c s acc :
  PyStr.contains_char c (String.rev_app s acc) =
  PyStr.contains_char c s || PyStr.contains_char c acc.
Proof.
  revert acc. induction s as [|d s IH]; intros acc; [done|].
  cbn [String.rev_app PyStr.contains_char]. rewrite IH.
  cbn [PyStr.contains_char].
  destruct (Ascii.eqb d c), (PyStr.contains_char c s); done.
Qed.

Lemma contains_char_rev c s :
  PyStr.contains_char c (String.rev s) = PyStr.contains_char c s.
Proof.
  unfold String.rev. rewrite contains_char_rev_app. cbn [PyStr.contains_char].
  apply orb_false_r.
Qed.

(** X14. The shim of [main.py] renders nothing.  Run as a script, it
    imports every stub module below [__main__], the module of its own
    [TemplateerSettings], and [__main__] is no package; the import stands
    before the [try].  So the first stub of the listing ends the loop with
    [ImportError], before a class is chosen or a template rendered, and the
    world is left as it was. *)
Theorem main_shim_import_fails settings py stubs w :
  main_is_script py →
  MainScript.generation_loop settings py stubs w =
    match stubs with
    | [] => Return tt w
    | _ :: _ => Raise ImportError w
    end.
Proof.
  intros Hmain. destruct stubs as [|stub rest]; [done|].
  assert (Himp : import_module py
                   (MainScript.settings_module +:+ ".models." +:+
                    PyPath.stem stub) = Exc ImportError)
    by exact (Hmain ("models." +:+ PyPath.stem stub)).
  cbn [MainScript.generation_loop].
  unfold io_bind, MainScript.render_one, io_bind, io_lift.
  by rewrite Himp.
Qed.

Lemma main_shim_import_fails_witness :
  MainScript.generation_loop proj_settings example_py
    [ ["templateer"; "models"; "two_model.py"];
      ["templateer"; "models"; "none_model.py"] ] fresh_world =
  Raise ImportError fresh_world.
Proof.
  apply (main_shim_import_fails proj_settings example_py
           [ ["templateer"; "models"; "two_model.py"];
             ["templateer"; "models"; "none_model.py"] ] fresh_world).
  intros name. reflexivity.
Defined.

(** ** [textwrap.dedent] on indented lines *)

Lemma string_app_assoc s t u : (s +:+ t) +:+ u = s +:+ t +:+ u.
Proof.
  induction s as [|c s IH]; [done|].
  change (String c ((s +:+ t) +:+ u) = String c (s +:+ t +:+ u)). by rewrite IH.
Qed.

Lemma join_cons2 sep p q l :
  PyStr.join sep (p :: q :: l) = p +:+ sep +:+ PyStr.join sep (q :: l).
Proof. reflexivity. Qed.

Lemma join_app sep l1 l2 :
  l1 ≠ [] → l2 ≠ [] →
  PyStr.join sep (l1 ++ l2) = PyStr.join sep l1 +:+ sep +:+ PyStr.join sep l2.
Proof.
  intros H1 H2. induction l1 as [|p [|q l1] IH]; [done| |].
  - destruct l2 as [|r l2]; [done|]. reflexivity.
  - change ((p :: q :: l1) ++ l2)%list with (p :: q :: (l1 ++ l2))%list.
    rewrite !join_cons2, string_app_assoc, string_app_assoc.
    do 2 f_equal. by apply IH.
Qed.

Lemma join_cons_prefix sep p x l :
  PyStr.join sep ((p +:+ x) :: l) = p +:+ PyStr.join sep (x :: l).
Proof. destruct l; [done|]. by rewrite !join_cons2, string_app_assoc. Qed.

(** Splitting what was joined gives the pieces back. *)
Lemma split_go_app_sep sep cur p t :
  PyStr.contains_char sep p = false →
  PyStr.split_go sep cur (p +:+ String sep t) =
    String.rev_app cur p :: PyStr.split_go sep "" t.
Proof.
  revert cur. induction p as [|c p IH]; intros cur Hp.
  - change ("" +:+ String sep t) with (String sep t).
    cbn [PyStr.split_go]. by rewrite Ascii.eqb_refl.
  - change (String c p +:+ String sep t) with (String c (p +:+ String sep t)).
    cbn [PyStr.contains_char] in Hp. apply orb_false_iff in Hp as [Hc Hp].
    cbn [PyStr.split_go]. rewrite Hc. by rewrite IH.
Qed.

Lemma split_join lines :
  lines ≠ [] →
  Forall (fun l => PyStr.contains_char PyStr.newline l = false) lines →
  PyStr.split PyStr.newline (PyStr.join PyStr.nl lines) = lines.
Proof.
  intros Hne Hall. unfold PyStr.split.
  induction lines as [|p [|q lines] IH]; [done| |].
  - cbn [PyStr.join]. rewrite split_go_no_sep by by inversion Hall. done.
  - rewrite join_cons2. inversion Hall as [|? ? Hp Hrest]; subst.
    change (PyStr.nl +:+ PyStr.join PyStr.nl (q :: lines))
      with (String PyStr.newline (PyStr.join PyStr.nl (q :: lines))).
    rewrite split_go_app_sep by done. cbn [String.rev_app].
    f_equal. by apply IH.
Qed.

Lemma spaces_app_cons n s :
  spaces (S n) +:+ s = String " " (spaces n +:+ s).
Proof. reflexivity. Qed.

Lemma all_space_or_tab_spaces n : Textwrap.all_space_or_tab (spaces n) = true.
Proof. induction n as [|n IH]; [done|]. cbn. by rewrite IH. Qed.

Lemma all_space_or_tab_nonblank b :
  starts_nonblank b = true → Textwrap.all_space_or_tab b = false.
Proof.
  destruct b as [|c b]; [done|]. cbn [starts_nonblank Textwrap.all_space_or_tab].
  by intros ->%negb_true_iff.
Qed.

Lemma all_space_or_tab_line n b :
  starts_nonblank b = true →
  Textwrap.all_space_or_tab (spaces n +:+ b) = false.
Proof.
  intros Hb. induction n as [|n IH].
  - by apply all_space_or_tab_nonblank.
  - rewrite spaces_app_cons. cbn [Textwrap.all_space_or_tab]. by rewrite IH.
Qed.

Lemma leading_whitespace_line n b :
  starts_nonblank b = true →
  Textwrap.leading_whitespace (spaces n +:+ b) = spaces n.
Proof.
  intros Hb. induction n as [|n IH].
  - destruct b as [|c b]; [done|]. cbn [starts_nonblank] in Hb.
    apply negb_true_iff in Hb.
    change (spaces 0 +:+ String c b) with (String c b).
    cbn [Textwrap.leading_whitespace]. by rewrite Hb.
  - rewrite spaces_app_cons. cbn [Textwrap.leading_whitespace].
    by rewrite IH.
Qed.

Lemma blank_out_line l :
  plain_line l →
  Textwrap.blank_out (line_text l) = dedented_line 0 l.
Proof.
  destruct l as [n b]. intros [_ [Hb|Hb]]; simpl in Hb;
    unfold Textwrap.blank_out, line_text, dedented_line; cbn [fst snd].
  - subst b. rewrite string_app_nil_r, all_space_or_tab_spaces. done.
  - rewrite all_space_or_tab_line by done.
    destruct b; [done|]. by rewrite Nat.sub_0_r.
Qed.

Lemma startswith_spaces m n :
  PyStr.startswith (spaces m) (spaces n) = Nat.leb m n.
Proof.
  revert n. induction m as [|m IH]; intros [|n]; try done.
  cbn [spaces PyStr.startswith]. rewrite IH. done.
Qed.

Lemma next_margin_spaces m n :
  Textwrap.next_margin (Some (spaces m)) (spaces n) = Some (spaces (Nat.min m n)).
Proof.
  unfold Textwrap.next_margin. rewrite !startswith_spaces.
  destruct (Nat.leb m n) eqn:Hmn.
  - apply Nat.leb_le in Hmn. by rewrite Nat.min_l.
  - apply Nat.leb_gt in Hmn.
    replace (Nat.leb n m) with true by (symmetry; apply Nat.leb_le; lia).
    by rewrite Nat.min_r by lia.
Qed.

Lemma indents_cons_blank l ls :
  l = "" → Textwrap.indents (l :: ls) = Textwrap.indents ls.
Proof. intros ->. unfold Textwrap.indents. by rewrite filter_cons_False. Qed.

Lemma indents_cons_text n b ls :
  starts_nonblank b = true →
  Textwrap.indents ((spaces n +:+ b) :: ls) = spaces n :: Textwrap.indents ls.
Proof.
  intros Hb. unfold Textwrap.indents.
  rewrite filter_cons_True by by apply all_space_or_tab_line.
  cbn [map]. by rewrite leading_whitespace_line.
Qed.

Lemma find_margin_lines ls acc :
  Forall plain_line ls →
  fold_left Textwrap.next_margin
    (Textwrap.indents (map (dedented_line 0) ls)) (spaces <$> acc) =
  spaces <$> fold_left min_step ls acc.
Proof.
  intros Hall. revert acc.
  induction Hall as [|[n b] ls [_ Hb] _ IH]; intros acc; [done|].
  cbn [map fold_left]. unfold dedented_line, min_step at 2. cbn [fst snd] in *.
  destruct Hb as [->|Hb].
  - cbn [String.eqb]. rewrite indents_cons_blank by done. apply IH.
  - assert (Hne : String.eqb b "" = false) by by destruct b.
    rewrite Hne, Nat.sub_0_r, indents_cons_text by done.
    cbn [fold_left]. rewrite <- IH. f_equal.
    destruct acc as [m|]; [|done]. apply next_margin_spaces.
Qed.

Lemma min_step_le ls acc m :
  fold_left min_step ls acc = Some m →
  (∀ a, acc = Some a → m ≤ a)%nat ∧
  Forall (fun l => l.2 ≠ "" → (m ≤ l.1)%nat) ls.
Proof.
  revert acc. induction ls as [|[n b] ls IH]; intros acc Hm.
  - simpl in Hm. subst acc. split; [by intros a [= <-]|constructor].
  - cbn [fold_left] in Hm. apply IH in Hm as [Hacc Hls].
    unfold min_step in Hacc. cbn [fst snd] in *.
    destruct (String.eqb b "") eqn:Hb.
    + apply String.eqb_eq in Hb as ->. split; [done|].
      constructor; [done|done].
    + split.
      * intros a ->. specialize (Hacc _ eq_refl). lia.
      * constructor; [|done]. intros _. cbn [fst].
        destruct acc as [a|]; specialize (Hacc _ eq_refl); lia.
Qed.

Lemma spaces_add m n : spaces (m + n) = spaces m +:+ spaces n.
Proof. induction m as [|m IH]; [done|]. simpl. by rewrite IH. Qed.

Lemma strip_margin_line m l :
  plain_line l → (l.2 ≠ "" → m ≤ l.1)%nat → (0 < m)%nat →
  Textwrap.strip_margin (spaces m) (dedented_line 0 l) = dedented_line m l.
Proof.
  destruct l as [n b]. intros [_ Hb] Hle Hm. cbn [fst snd] in *.
  unfold dedented_line, Textwrap.strip_margin. cbn [fst snd].
  destruct (String.eqb b "") eqn:Heq.
  - destruct m; [lia|]. done.
  - assert (Hmn : (m ≤ n)%nat).
    { apply Hle. intros ->. done. }
    rewrite Nat.sub_0_r.
    destruct (Nat.le_exists_sub m n Hmn) as [k [-> _]].
    rewrite Nat.add_sub, (Nat.add_comm k m), spaces_add, string_app_assoc.
    assert (Hsw : ∀ t, PyStr.startswith (spaces m) (spaces m +:+ t) = true).
    { intros t. clear. induction m as [|m IH]; [done|].
      rewrite spaces_app_cons. cbn [spaces PyStr.startswith].
      by rewrite IH. }
    rewrite Hsw. by rewrite drop_app_length.
Qed.

(** [textwrap.dedent] takes the least indentation of the lines that hold
    text off every such line and empties the others. *)
Lemma dedent_lines ls :
  ls ≠ [] → Forall plain_line ls →
  Textwrap.dedent (PyStr.join PyStr.nl (map line_text ls)) =
  PyStr.join PyStr.nl
    (map (dedented_line (default 0 (min_indent ls))) ls).
Proof.
  intros Hne Hall. unfold Textwrap.dedent.
  rewrite split_join; cycle 1.
  { by destruct ls. }
  { apply Forall_fmap. eapply Forall_impl; [exact Hall|].
    intros [n b] [Hnl _]. cbn [fst snd] in *. unfold compose, line_text.
    cbn [fst snd]. rewrite contains_char_app, Hnl, orb_false_r.
    clear. induction n as [|n IH]; [done|]. cbn. by rewrite IH. }
  assert (Hblank : map Textwrap.blank_out (map line_text ls) =
                   map (dedented_line 0) ls).
  { rewrite map_map. apply Forall_fmap_ext_1.
    eapply Forall_impl; [exact Hall|]. intros l Hl. by apply blank_out_line. }
  rewrite Hblank. unfold Textwrap.find_margin.
  pose proof (find_margin_lines ls None Hall) as Hmargin.
  change (spaces <$> None) with (@None string) in Hmargin.
  rewrite Hmargin. fold (min_indent ls).
  destruct (min_indent ls) as [m|] eqn:Hmin; cbn [fmap option_fmap option_map default].
  - destruct m as [|m]; [done|].
    cbn [spaces String.eqb]. change (String " " (spaces m)) with (spaces (S m)).
    f_equal. rewrite map_map. apply Forall_fmap_ext_1.
    apply min_step_le in Hmin as [_ Hle].
    rewrite Forall_forall in Hall, Hle. apply Forall_forall. intros l Hl.
    apply strip_margin_line; [by apply Hall|by apply Hle|unfold id; lia].
  - done.
Qed.
(** ** The layout of the stub *)

Lemma field_lines_cases vars_ :
  field_lines vars_ =
  match PyStr.sorted (elements vars_) with
  | [] => "    pass"
  | names => PyStr.join PyStr.nl (map field_line names)
  end.
Proof.
  unfold field_lines. destruct (PyStr.sorted (elements vars_)) as [|v vs];
    [done|].
  destruct (String.eqb _ "") eqn:Heq; [|done].
  apply String.eqb_eq in Heq. by apply join_cons_nonempty in Heq.
Qed.

Lemma join_field_lines names :
  PyStr.join PyStr.nl (map field_line names) =
  PyStr.join PyStr.nl
    (map line_text (map (fun v => (4, v +:+ field_suffix)) names)).
Proof. by rewrite map_map. Qed.

Lemma generator_fstring_lines cn stem mn attr vars_ :
  Generator.stub_fstring cn stem mn attr (field_lines vars_) =
  PyStr.join PyStr.nl
    (map line_text
       (generator_lines cn stem mn attr (PyStr.sorted (elements vars_)))).
Proof.
  unfold generator_lines. rewrite !map_app, join_app; cycle 1.
  { discriminate. }
  { intros [_ [=]]%app_eq_nil. }
  rewrite field_lines_cases.
  assert (Htail : ∀ fl names,
            names ≠ [] →
            fl = PyStr.join PyStr.nl (map line_text names) →
            "            " +:+ fl +:+ PyStr.nl +:+ "            " =
            PyStr.join PyStr.nl
              (match names with
               | [] => []
               | (n, b) :: rest => line_text (12 + n, b)%nat :: map line_text rest
               end ++ ["            "])).
  { intros fl [|[n b] rest] Hne ->; [done|].
    rewrite join_app by done. cbn [map].
    change (line_text (12 + n, b)%nat) with ("            " +:+ line_text (n, b)).
    rewrite join_cons_prefix. by rewrite !string_app_assoc. }
  unfold Generator.stub_fstring, concat_all. cbn [fold_right].
  change (PyStr.join PyStr.nl
            (map line_text (generator_header cn stem mn attr)))
    with (concat_all
            [ "            from __future__ import annotations"; PyStr.nl;
              PyStr.nl;
              "            from typing import Any"; PyStr.nl;
              PyStr.nl;
              "            from templateer import TemplateModel"; PyStr.nl;
              PyStr.nl;
              PyStr.nl;
              "            class " +:+ cn +:+ "(TemplateModel):"; PyStr.nl;
              "                " +:+ triple_quote +:+
                "Auto-generated from .templateer/" +:+ stem +:+ ".py" +:+
                triple_quote; PyStr.nl;
              "                __template__ = " +:+ dquote +:+ mn +:+ "." +:+
                attr +:+ dquote; PyStr.nl ]).
  unfold concat_all. cbn [fold_right]. rewrite !string_app_assoc.
  do 26 f_equal.
  destruct (PyStr.sorted (elements vars_)) as [|v names].
  - reflexivity.
  - rewrite (Htail _ (map (fun v => (4, v +:+ field_suffix)) (v :: names)))
      by done || apply join_field_lines.
    reflexivity.
Qed.
Lemma main_fstring_lines cn stem mn attr vars_ :
  Main.stub_fstring cn stem mn attr (field_lines vars_) =
  PyStr.join PyStr.nl
    (map line_text
       (main_lines cn stem mn attr (PyStr.sorted (elements vars_)))).
Proof.
  unfold main_lines. rewrite !map_app, join_app; cycle 1.
  { discriminate. }
  { intros [_ [=]]%app_eq_nil. }
  rewrite field_lines_cases.
  unfold Main.stub_fstring, concat_all. cbn [fold_right].
  change (PyStr.join PyStr.nl (map line_text (main_header cn stem mn attr)))
    with (concat_all
            [ "from __future__ import annotations"; PyStr.nl;
              PyStr.nl;
              "from typing import Any"; PyStr.nl;
              "from templateer import TemplateModel"; PyStr.nl;
              PyStr.nl;
              PyStr.nl;
              "class " +:+ cn +:+ "(TemplateModel):"; PyStr.nl;
              "    " +:+ triple_quote +:+ "Auto" +:+ Main.nb_hyphen +:+
                "generated from .templateer/" +:+ stem +:+ ".py" +:+
                triple_quote; PyStr.nl;
              "    __template__ = " +:+ dquote +:+ mn +:+ "." +:+
                attr +:+ dquote; PyStr.nl ]).
  unfold concat_all. cbn [fold_right]. rewrite !string_app_assoc.
  do 26 f_equal.
  destruct (PyStr.sorted (elements vars_)) as [|v names].
  - reflexivity.
  - rewrite join_app; [|discriminate..].
    unfold main_fields. by rewrite join_field_lines.
Qed.

(** Identifiers and names without line break *)

Lemma name_char_not_blank c :
  Jinja.is_name_char c = true →
  Textwrap.is_space_or_tab c = false ∧ Ascii.eqb c PyStr.newline = false.
Proof. by destruct c as [[] [] [] [] [] [] [] []]. Qed.

Lemma name_chars_no_newline s :
  Jinja.all_name_chars s = true → PyStr.contains_char PyStr.newline s = false.
Proof.
  induction s as [|c s IH]; [done|].
  cbn [Jinja.all_name_chars PyStr.contains_char].
  intros [Hc Hs]%andb_true_iff.
  by rewrite (proj2 (name_char_not_blank _ Hc)), IH.
Qed.

Lemma field_line_plain n v :
  is_py_identifier v = true → plain_line (n, v +:+ field_suffix).
Proof.
  intros Hid. split; cbn [snd].
  - rewrite contains_char_app.
    by rewrite (name_chars_no_newline _ (identifier_name_chars _ Hid)).
  - right. destruct v as [|c v]; [done|].
    unfold is_py_identifier in Hid. cbn [Jinja.is_identifier] in Hid.
    apply andb_true_iff in Hid as [Hc _].
    change (String c v +:+ field_suffix) with (String c (v +:+ field_suffix)).
    cbn [starts_nonblank].
    by rewrite (proj1 (name_char_not_blank _ (name_start_name_char _ Hc))).
Qed.

Lemma field_line_text v : String.eqb (v +:+ field_suffix) "" = false.
Proof. by destruct v. Qed.

Lemma upper_char_newline c :
  Ascii.eqb (PyStr.upper_char c) PyStr.newline = Ascii.eqb c PyStr.newline.
Proof. by destruct c as [[] [] [] [] [] [] [] []]. Qed.

Lemma camel_words_no_newline s :
  PyStr.contains_char PyStr.newline s = false →
  PyStr.contains_char PyStr.newline (camel_words s) = false.
Proof.
  induction s as [|c|c d s IH1 IH2] using string_pair_ind; [done|done|].
  intros Hs. rewrite camel_words_cons2.
  cbn [PyStr.contains_char] in Hs.
  apply orb_false_iff in Hs as [Hc Hs]. pose proof Hs as Hds.
  apply orb_false_iff in Hs as [Hd Hs].
  destruct (is_separator c && is_ascii_letter d); cbn [PyStr.contains_char].
  - by rewrite upper_char_newline, Hd, IH1.
  - rewrite Hc. cbn [orb]. apply IH2. cbn [PyStr.contains_char].
    by rewrite Hd, Hs.
Qed.

Lemma camelify_no_newline s :
  PyStr.contains_char PyStr.newline s = false →
  PyStr.contains_char PyStr.newline (camelify s) = false.
Proof.
  intros Hs%camel_words_no_newline. rewrite camelify_words.
  destruct (camel_words s) as [|c u]; [done|].
  cbn [capitalize_first PyStr.contains_char] in *.
  by rewrite upper_char_newline.
Qed.

Lemma split_go_chars c sep cur s :
  PyStr.contains_char c cur = false → PyStr.contains_char c s = false →
  Forall (fun p => PyStr.contains_char c p = false) (PyStr.split_go sep cur s).
Proof.
  revert cur. induction s as [|d s IH]; intros cur Hcur Hs;
    cbn [PyStr.split_go].
  - constructor; [by rewrite contains_char_rev|constructor].
  - cbn [PyStr.contains_char] in Hs. apply orb_false_iff in Hs as [Hd Hs].
    destruct (Ascii.eqb d sep).
    + constructor; [by rewrite contains_char_rev|by apply IH].
    + apply IH; [|done]. cbn [PyStr.contains_char]. by rewrite Hd, Hcur.
Qed.

Lemma module_stem_no_newline module :
  PyStr.contains_char PyStr.newline (mod_name module) = false →
  PyStr.contains_char PyStr.newline (module_stem module) = false.
Proof.
  intros Hmn. unfold module_stem, PyStr.split.
  pose proof (split_go_chars PyStr.newline "." "" (mod_name module) eq_refl Hmn)
    as Hall.
  induction Hall as [|p [|q l] Hp Hall IH]; [done|done|]. apply IH.
Qed.

Section StubLines.

Context (cn stem mn attr : string).
Hypothesis Hcn : PyStr.contains_char PyStr.newline cn = false.
Hypothesis Hstem : PyStr.contains_char PyStr.newline stem = false.
Hypothesis Hmn : PyStr.contains_char PyStr.newline mn = false.
Hypothesis Hattr : PyStr.contains_char PyStr.newline attr = false.

Lemma generator_header_plain :
  Forall plain_line (generator_header cn stem mn attr).
Proof using Hcn Hstem Hmn Hattr.
  unfold generator_header.
  repeat (apply Forall_cons; split;
          [split; cbn [snd];
           [rewrite ?contains_char_app, ?Hcn, ?Hstem, ?Hmn, ?Hattr; reflexivity
           |(by left) || (by right)]|]).
  constructor.
Qed.

Lemma main_header_plain :
  Forall plain_line (main_header cn stem mn attr).
Proof using Hcn Hstem Hmn Hattr.
  unfold main_header.
  repeat (apply Forall_cons; split;
          [split; cbn [snd];
           [rewrite ?contains_char_app, ?Hcn, ?Hstem, ?Hmn, ?Hattr; reflexivity
           |(by left) || (by right)]|]).
  constructor.
Qed.

Lemma generator_lines_plain names :
  Forall (fun v => is_py_identifier v = true) names →
  Forall plain_line (generator_lines cn stem mn attr names).
Proof using Hcn Hstem Hmn Hattr.
  intros Hnames. unfold generator_lines.
  apply Forall_app; split; [apply generator_header_plain|].
  apply Forall_app; split; [|by repeat constructor].
  destruct Hnames as [|v rest Hv Hrest]; [by repeat constructor|].
  cbn [generator_fields]. constructor; [by apply field_line_plain|].
  apply Forall_fmap. eapply Forall_impl; [exact Hrest|].
  intros v' Hv'. by apply field_line_plain.
Qed.

Lemma main_lines_plain names :
  Forall (fun v => is_py_identifier v = true) names →
  Forall plain_line (main_lines cn stem mn attr names).
Proof using Hcn Hstem Hmn Hattr.
  intros Hnames. unfold main_lines.
  apply Forall_app; split; [apply main_header_plain|].
  apply Forall_app; split; [|by repeat constructor].
  destruct Hnames as [|v rest Hv Hrest]; [by repeat constructor|].
  unfold main_fields. apply Forall_fmap.
  eapply Forall_impl; [exact (Forall_cons_2 _ _ _ Hv Hrest)|].
  intros v' Hv'. by apply field_line_plain.
Qed.

End StubLines.

Lemma min_step_text acc n b :
  String.eqb b "" = false →
  min_step acc (n, b) =
    Some (match acc with None => n | Some m => Nat.min m n end).
Proof. unfold min_step. cbn [fst snd]. by intros ->. Qed.

Lemma min_step_blank acc n : min_step acc (n, "") = acc.
Proof. reflexivity. Qed.

Lemma fold_min_cons l ls acc :
  fold_left min_step (l :: ls) acc = fold_left min_step ls (min_step acc l).
Proof. reflexivity. Qed.

Lemma fold_min_nil acc : fold_left min_step [] acc = acc.
Proof. reflexivity. Qed.

Lemma min_step_fields m names :
  fold_left min_step (map (fun v => (4, v +:+ field_suffix)) names) (Some m) =
  Some (match names with [] => m | _ => Nat.min m 4 end).
Proof.
  revert m. induction names as [|v names IH]; intros m; [done|].
  rewrite map_cons, fold_min_cons, min_step_text by apply field_line_text.
  rewrite IH. f_equal. destruct names; lia.
Qed.

Lemma min_indent_generator_lines cn stem mn attr names :
  min_indent (generator_lines cn stem mn attr names) =
  Some (match names with _ :: _ :: _ => 4 | _ => 12 end).
Proof.
  unfold min_indent, generator_lines. rewrite !fold_left_app.
  change (fold_left min_step (generator_header cn stem mn attr) None)
    with (Some 12).
  rewrite fold_min_cons, fold_min_nil, min_step_blank.
  destruct names as [|v names]; [reflexivity|].
  unfold generator_fields.
  rewrite fold_min_cons, min_step_text by apply field_line_text.
  rewrite min_step_fields. by destruct names.
Qed.

Lemma min_indent_main_lines cn stem mn attr names :
  min_indent (main_lines cn stem mn attr names) = Some 0.
Proof.
  unfold min_indent, main_lines. rewrite !fold_left_app.
  change (fold_left min_step (main_header cn stem mn attr) None)
    with (Some 0).
  rewrite fold_min_cons, fold_min_nil, min_step_blank.
  destruct names as [|v rest]; [reflexivity|].
  unfold main_fields. rewrite min_step_fields. reflexivity.
Qed.
Lemma dedented_field m n v :
  dedented_line m (n, v +:+ field_suffix) =
  spaces (n - m) +:+ v +:+ field_suffix.
Proof. unfold dedented_line. cbn [fst snd]. by rewrite field_line_text. Qed.

Lemma map_dedented_fields m n names :
  map (dedented_line m) (map (fun v => (n, v +:+ field_suffix)) names) =
  map (fun v => spaces (n - m) +:+ v +:+ field_suffix) names.
Proof. rewrite map_map. apply map_ext. intros v. apply dedented_field. Qed.

Lemma sorted_identifiers (vars_ : gset string) :
  (∀ v, v ∈ vars_ → is_py_identifier v = true) →
  Forall (fun v => is_py_identifier v = true) (PyStr.sorted (elements vars_)).
Proof.
  intros Hall. apply Forall_forall. intros v Hv. apply Hall.
  apply elem_of_elements. unfold PyStr.sorted in Hv.
  by rewrite merge_sort_Permutation in Hv.
Qed.

Lemma stub_class_name_no_newline module :
  PyStr.contains_char PyStr.newline (mod_name module) = false →
  PyStr.contains_char PyStr.newline (stub_class_name module) = false.
Proof.
  intros Hmn%module_stem_no_newline%camelify_no_newline.
  unfold stub_class_name. by rewrite contains_char_app, Hmn.
Qed.

(** X15. The stub that [generator.py] writes, for every module and every
    set of variables (the module's name and the attribute without line
    break, the variables identifiers).  With no variable or one the stub is
    laid out as meant: imports and class header at column 0, the body
    indented by four columns.  With two variables or more it is not: the
    field lines after the first carry four columns of their own only, so
    [textwrap.dedent] takes off four columns instead of twelve; every line
    of the header keeps eight columns too many and every field after the
    first stands at column 0. *)
Theorem generator_stub_layout module attr vars_ :
  PyStr.contains_char PyStr.newline (mod_name module) = false →
  PyStr.contains_char PyStr.newline attr = false →
  (∀ v, v ∈ vars_ → is_py_identifier v = true) →
  Generator.stub_source module attr vars_ =
  PyStr.join PyStr.nl
    (match PyStr.sorted (elements vars_) with
     | v1 :: v2 :: rest =>
         [ "        from __future__ import annotations";
           "";
           "        from typing import Any";
           "";
           "        from templateer import TemplateModel";
           "";
           "";
           "        class " +:+ stub_class_name module +:+ "(TemplateModel):";
           "            " +:+ triple_quote +:+
             "Auto-generated from .templateer/" +:+ module_stem module +:+
             ".py" +:+ triple_quote;
           "            __template__ = " +:+ dquote +:+ mod_name module +:+
             "." +:+ attr +:+ dquote;
           "";
           "            " +:+ v1 +:+ ": Any | None = None" ] ++
         map (fun v => v +:+ ": Any | None = None") (v2 :: rest) ++ [""]
     | names =>
         [ "from __future__ import annotations";
           "";
           "from typing import Any";
           "";
           "from templateer import TemplateModel";
           "";
           "";
           "class " +:+ stub_class_name module +:+ "(TemplateModel):";
           "    " +:+ triple_quote +:+
             "Auto-generated from .templateer/" +:+ module_stem module +:+
             ".py" +:+ triple_quote;
           "    __template__ = " +:+ dquote +:+ mod_name module +:+
             "." +:+ attr +:+ dquote;
           "" ] ++
         match names with
         | [] => ["    pass"]
         | _ => map field_line names
         end ++ [""]
     end)%list.
Proof.
  intros Hmn Hattr Hvars. unfold Generator.stub_source.
  rewrite generator_fstring_lines.
  rewrite dedent_lines; cycle 1.
  { discriminate. }
  { apply generator_lines_plain;
      auto using stub_class_name_no_newline, module_stem_no_newline,
        sorted_identifiers. }
  rewrite min_indent_generator_lines. f_equal.
  unfold generator_lines. rewrite !map_app.
  destruct (PyStr.sorted (elements vars_)) as [|v1 [|v2 rest]];
    cbn [default from_option id].
  - reflexivity.
  - cbn [generator_fields map]. rewrite dedented_field. reflexivity.
  - cbn [generator_fields map].
    rewrite !dedented_field, map_dedented_fields. reflexivity.
Qed.

Lemma generator_stub_layout_witness :
  Generator.stub_source foo_module "TEMPLATE" ({["name"]} ∪ {["age"]}) =
  PyStr.join PyStr.nl
    [ "        from __future__ import annotations";
      "";
      "        from typing import Any";
      "";
      "        from templateer import TemplateModel";
      "";
      "";
      "        class FooTemplate(TemplateModel):";
      "            " +:+ triple_quote +:+
        "Auto-generated from .templateer/foo.py" +:+ triple_quote;
      "            __template__ = " +:+ dquote +:+ "foo.TEMPLATE" +:+ dquote;
      "";
      "            age: Any | None = None";
      "name: Any | None = None";
      "" ].
Proof.
  rewrite (generator_stub_layout foo_module "TEMPLATE" ({["name"]} ∪ {["age"]}));
    [vm_compute; reflexivity|reflexivity|reflexivity|].
  intros v [->%elem_of_singleton | ->%elem_of_singleton]%elem_of_union;
    reflexivity.
Defined.

(** X16. The stub that [main.py] writes is laid out as meant for every
    module and every set of variables (under the same conditions): its
    f-string starts at column 0, so [textwrap.dedent] changes nothing, and
    every field line keeps its four columns. *)
Theorem main_stub_layout module attr vars_ :
  PyStr.contains_char PyStr.newline (mod_name module) = false →
  PyStr.contains_char PyStr.newline attr = false →
  (∀ v, v ∈ vars_ → is_py_identifier v = true) →
  Main.stub_source module attr vars_ =
  PyStr.join PyStr.nl
    ([ "from __future__ import annotations";
       "";
       "from typing import Any";
       "from templateer import TemplateModel";
       "";
       "";
       "class " +:+ stub_class_name module +:+ "(TemplateModel):";
       "    " +:+ triple_quote +:+ "Auto" +:+ Main.nb_hyphen +:+
         "generated from .templateer/" +:+ module_stem module +:+
         ".py" +:+ triple_quote;
       "    __template__ = " +:+ dquote +:+ mod_name module +:+
         "." +:+ attr +:+ dquote;
       "" ] ++
     match PyStr.sorted (elements vars_) with
     | [] => ["    pass"]
     | names => map field_line names
     end ++ [""])%list.
Proof.
  intros Hmn Hattr Hvars. unfold Main.stub_source.
  rewrite main_fstring_lines.
  rewrite dedent_lines; cycle 1.
  { discriminate. }
  { apply main_lines_plain;
      auto using stub_class_name_no_newline, module_stem_no_newline,
        sorted_identifiers. }
  rewrite min_indent_main_lines. f_equal.
  unfold main_lines. rewrite !map_app.
  destruct (PyStr.sorted (elements vars_)) as [|v names];
    cbn [default from_option id].
  - reflexivity.
  - unfold main_fields. rewrite map_dedented_fields. reflexivity.
Qed.

Lemma main_stub_layout_witness :
  Main.stub_source foo_module "TEMPLATE" ({["name"]} ∪ {["age"]}) =
  PyStr.join PyStr.nl
    [ "from __future__ import annotations";
      "";
      "from typing import Any";
      "from templateer import TemplateModel";
      "";
      "";
      "class FooTemplate(TemplateModel):";
      "    " +:+ triple_quote +:+ "Auto" +:+ Main.nb_hyphen +:+
        "generated from .templateer/foo.py" +:+ triple_quote;
      "    __template__ = " +:+ dquote +:+ "foo.TEMPLATE" +:+ dquote;
      "";
      "    age: Any | None = None";
      "    name: Any | None = None";
      "" ].
Proof.
  rewrite (main_stub_layout foo_module "TEMPLATE" ({["name"]} ∪ {["age"]}));
    [vm_compute; reflexivity|reflexivity|reflexivity|].
  intros v [->%elem_of_singleton | ->%elem_of_singleton]%elem_of_union;
    reflexivity.
Defined.

(** ** The template reference of a stub *)

Lemma rev_app_app cur s : String.rev_app cur s = String.rev cur +:+ s.
Proof.
  revert s. induction cur as [|a cur IH]; intros s; [done|].
  cbn [String.rev_app]. rewrite IH. unfold String.rev. cbn [String.rev_app].
  rewrite (IH (String a "")), string_app_assoc. done.
Qed.

Lemma split_go_nonempty sep cur s : PyStr.split_go sep cur s ≠ [].
Proof.
  revert cur. induction s as [|c s IH]; intros cur; cbn [PyStr.split_go];
    [done|]. destruct (Ascii.eqb c sep); [done|apply IH].
Qed.

(** Joining the pieces of a split gives the text back. *)
Lemma join_split_go sep cur s :
  PyStr.join (String sep "") (PyStr.split_go sep cur s) = String.rev_app cur s.
Proof.
  revert cur. induction s as [|c s IH]; intros cur; cbn [PyStr.split_go].
  - reflexivity.
  - destruct (Ascii.eqb c sep) eqn:Hc.
    + apply Ascii.eqb_eq in Hc as ->.
      destruct (PyStr.split_go sep "" s) as [|p l] eqn:Hs;
        [by apply split_go_nonempty in Hs|].
      rewrite join_cons2, <- Hs, IH. cbn [String.rev_app].
      by rewrite rev_app_app.
    + by rewrite IH.
Qed.

Lemma split_go_app_last sep cur s a :
  PyStr.contains_char sep a = false →
  PyStr.split_go sep cur (s +:+ String sep a) =
    (PyStr.split_go sep cur s ++ [a])%list.
Proof.
  intros Ha. revert cur. induction s as [|c s IH]; intros cur.
  - change ("" +:+ String sep a) with (String sep a).
    cbn [PyStr.split_go]. rewrite Ascii.eqb_refl.
    by rewrite split_go_no_sep.
  - change (String c s +:+ String sep a) with (String c (s +:+ String sep a)).
    cbn [PyStr.split_go]. destruct (Ascii.eqb c sep); by rewrite IH.
Qed.

Lemma rpartition_dot_app mn attr :
  PyStr.contains_char "." attr = false →
  rpartition_dot (mn +:+ "." +:+ attr) = (mn, attr).
Proof.
  intros Hattr. unfold rpartition_dot, PyStr.split.
  change (mn +:+ "." +:+ attr) with (mn +:+ String "." attr).
  rewrite split_go_app_last by done.
  rewrite removelast_last, last_last.
  change "."%string with (String "."%char "").
  by rewrite join_split_go.
Qed.

(** X17. The reference that the stub writer puts into a stub,
    [module.__name__ + "." + template_attr], leads back to that attribute:
    [_template_str] splits the reference at its last dot and so, for an
    attribute name without a dot, imports the module of that very name and
    reads that very attribute. *)
Theorem template_reference_round_trip py self mn attr :
  cls_template (inst_class self) = Some (mn +:+ "." +:+ attr) →
  PyStr.contains_char "." attr = false →
  _template_str py self =
    result_bind (import_module py mn) (fun module =>
      result_bind (getattr module attr) as_template_text).
Proof.
  intros Href Hattr. unfold _template_str.
  by rewrite Href, rpartition_dot_app.
Qed.

Lemma template_reference_round_trip_witness :
  _template_str example_py ada = Ok "Hello {{ name }}!".
Proof.
  rewrite (template_reference_round_trip example_py ada "greeting" "TEMPLATE");
    reflexivity.
Defined.

(** X18. A reference without a dot names no module: the module part is
    empty, the import raises [ValueError], and so do [render()] and
    [generate()], which then leaves the world as it was. *)
Theorem template_reference_without_dot settings py self ref write w :
  cls_template (inst_class self) = Some ref →
  PyStr.contains_char "." ref = false →
  render py self = Exc ValueError ∧
  generate settings py self write w = Raise ValueError w.
Proof.
  intros Href Hdot.
  assert (Hr : render py self = Exc ValueError).
  { unfold render, _jinja_template, _template_str, rpartition_dot, PyStr.split.
    rewrite Href, split_go_no_sep by done. reflexivity. }
  split; [done|]. by rewrite generate_unfold, Hr.
Qed.

Lemma template_reference_without_dot_witness :
  render example_py
    {| inst_class := example_class "HelloTemplate" "TEMPLATE" [];
       inst_fields := ∅ |} = Exc ValueError.
Proof.
  eapply proj1,
    (template_reference_without_dot proj_settings example_py _ "TEMPLATE"
       true fresh_world); reflexivity.
Defined.

(** ** One stub per stem *)

Lemma string_app_inv_r s1 s2 t : s1 +:+ t = s2 +:+ t → s1 = s2.
Proof.
  intros Heq.
  assert (Hlen : String.length s1 = String.length s2).
  { apply (f_equal String.length) in Heq. rewrite !string_app_length in Heq.
    lia. }
  rewrite <- (take_app_length s1 t), <- (take_app_length s2 t).
  by rewrite Heq, Hlen.
Qed.

(** X19. Modules with different stems never share a stub file: for stems
    without a slash the stub path determines the stem. *)
Theorem stub_path_injective settings m1 m2 :
  PyStr.contains_char "/" (module_stem m1) = false →
  PyStr.contains_char "/" (module_stem m2) = false →
  stub_path settings m1 = stub_path settings m2 →
  module_stem m1 = module_stem m2.
Proof.
  intros H1 H2.
  destruct (stub_path_in_model_dir settings m1 H1) as [-> _].
  destruct (stub_path_in_model_dir settings m2 H2) as [-> _].
  intros [_ Heq]%app_inj_tail. by apply string_app_inv_r in Heq.
Qed.

Lemma stub_path_injective_witness :
  module_stem greeting_module = module_stem (PyModule "pkg.greeting" []).
Proof.
  apply (stub_path_injective proj_settings); reflexivity.
Defined.
(** ** What the discovery pass adds *)

Lemma write_model_stub_new settings module attr vars_ w q n :
  files (outcome_world
           (Generator.write_model_stub settings module attr vars_ w)) !! q
    = Some n →
  files w !! q = None →
  q = stub_path settings module ∧
  n = File (Generator.stub_source module attr vars_).
Proof.
  unfold Generator.write_model_stub, io_bind, io_ret, Path.write_text,
    Path.exists_.
  destruct (Os.exists_ w (stub_path settings module)) eqn:Hex; simpl;
    [congruence|].
  rewrite write_file_cases by done.
  destruct (Os.is_dir w (PyPath.parent (stub_path settings module))); simpl;
    [|congruence].
  intros Hq Hnone.
  destruct (decide (stub_path settings module = q)) as [<-|Hne].
  - rewrite lookup_insert_eq in Hq. by injection Hq as <-.
  - rewrite lookup_insert_ne in Hq by done. congruence.
Qed.

Section DiscoveryAdds.

Context (settings : TemplateerSettings) (py : interpreter).

Lemma autogen_one_new verbose tpl_py w q n :
  files (outcome_world (autogen_one settings py verbose tpl_py w)) !! q
    = Some n →
  files w !! q = None →
  stub_of settings py tpl_py q n.
Proof.
  unfold autogen_one, io_bind, io_lift, io_ret.
  destruct (run_path py tpl_py) as [module|] eqn:Hrun; simpl; [|congruence].
  destruct (hasattr module "TEMPLATE"); simpl; [|congruence].
  destruct (getattr module "TEMPLATE") as [[template| |]|] eqn:Hget; simpl;
    try congruence.
  destruct (extract_template_vars template) as [vars_|] eqn:Hvars; simpl;
    [|congruence].
  pose proof (write_model_stub_new settings module "TEMPLATE" vars_ w q n)
    as Hnew.
  destruct (Generator.write_model_stub settings module "TEMPLATE" vars_ w)
    as [p w1|e w1]; simpl in *.
  - assert (Hfiles : ∀ o : outcome (option path),
              o = (if verbose
                   then
                     match PyPath.relative_to p (project_root settings) with
                     | Ok rel =>
                         match echo ("[templateer] model stub " +:+ arrow +:+
                                     " " +:+ PyPath.to_string rel) w1 with
                         | Return _ w2 => Return (Some p) w2
                         | Raise e w2 => Raise e w2
                         end
                     | Exc e => Raise e w1
                     end
                   else Return (Some p) w1) →
              files (outcome_world o) = files w1).
    { intros o ->. destruct verbose; [|done].
      by destruct (PyPath.relative_to p (project_root settings)). }
    intros Hq Hnone.
    destruct (Hnew) as [-> ->]; [|done|by exists module, template, vars_].
    rewrite <- Hq. symmetry. f_equal. apply Hfiles.
    destruct verbose; [|done].
    by destruct (PyPath.relative_to p (project_root settings)).
  - intros Hq Hnone. destruct (Hnew Hq Hnone) as [-> ->].
    by exists module, template, vars_.
Qed.

Lemma autogen_loop_new verbose tpls generated w q n :
  files (outcome_world (autogen_loop settings py verbose tpls generated w)) !! q
    = Some n →
  files w !! q = None →
  ∃ tpl_py, tpl_py ∈ tpls ∧ stub_of settings py tpl_py q n.
Proof.
  revert generated w. induction tpls as [|tpl tpls IH]; intros generated w.
  - simpl. congruence.
  - cbn [autogen_loop]. unfold io_bind. intros Hq Hnone.
    pose proof (autogen_one_new verbose tpl w q) as Hone.
    assert (Hstep : ∀ gen' w1,
              files (outcome_world
                       (autogen_loop settings py verbose tpls gen' w1)) !! q
                = Some n →
              (∀ n1, files w1 !! q = Some n1 → stub_of settings py tpl q n1) →
              ∃ tpl_py, tpl_py ∈ tpl :: tpls ∧ stub_of settings py tpl_py q n).
    { intros gen' w1 Hq1 Hone1.
      destruct (files w1 !! q) as [n1|] eqn:Hw1.
      - exists tpl. split; [by left|].
        destruct (autogen_loop_outcome settings py verbose tpls gen' w1)
          as [Hpre _].
        rewrite (Hpre _ _ Hw1) in Hq1. injection Hq1 as <-. by apply Hone1.
      - destruct (IH gen' w1 Hq1 Hw1) as (tpl_py & Hin & Hstub).
        exists tpl_py. split; [by right|done]. }
    destruct (autogen_one settings py verbose tpl w) as [[p|] w1|e w1];
      simpl in *.
    + eapply Hstep; [exact Hq|]. intros n1 Hn1. by apply Hone.
    + eapply Hstep; [exact Hq|]. intros n1 Hn1. by apply Hone.
    + exists tpl. split; [by left|]. by apply Hone.
Qed.

End DiscoveryAdds.

(** X20. The byte-code caches of the interpreter apart (which a load may
    write beside a template file, and the model leaves out), the only
    entries that the discovery pass adds to the disk are stubs: an entry
    outside the cache directories that is on disk when [autogen_models]
    returns or raises and was not there before is the stub of one of the
    discovered template files, at the stub path of its module and with the
    stub text made from its template. *)
Theorem autogen_models_adds_only_stubs settings py verbose w q n :
  is_cache_path q = false →
  files (outcome_world (autogen_models settings py verbose w)) !! q = Some n →
  files w !! q = None →
  ∃ tpl_py,
    tpl_py ∈ discover_template_modules settings w ∧
    stub_of settings py tpl_py q n.
Proof. intros _. unfold autogen_models. apply autogen_loop_new. Qed.

Lemma autogen_models_adds_only_stubs_witness :
  ∃ tpl_py,
    tpl_py ∈ discover_template_modules proj_settings (World rerun_disk []) ∧
    stub_of proj_settings example_py tpl_py
      ["templateer"; "models"; "greeting_model.py"]
      (File (Generator.stub_source greeting_module "TEMPLATE" {["name"]})).
Proof.
  apply (autogen_models_adds_only_stubs proj_settings example_py false
           (World rerun_disk [])); vm_compute; reflexivity.
Defined.

(** ** The command [generate] *)

Section CliQuiet.

Context (settings : TemplateerSettings) (py : interpreter).

Lemma generate_one_quiet stub n w :
  stdout (outcome_world (Cli.generate_one settings py false stub n w))
    = stdout w.
Proof.
  unfold Cli.generate_one.
  pose proof (render_stub_stdout settings py stub w) as Hout.
  destruct (Cli.render_stub settings py stub w) as [instance w1|e w1];
    simpl in Hout.
  - done.
  - by destruct (is_Exception e).
Qed.

Lemma generate_loop_quiet stubs n w :
  stdout (outcome_world (Cli.generate_loop settings py false stubs n w))
    = stdout w.
Proof.
  revert n w. induction stubs as [|stub stubs IH]; intros n w; [done|].
  cbn [Cli.generate_loop]. unfold io_bind.
  pose proof (generate_one_quiet stub n w) as H1.
  destruct (Cli.generate_one settings py false stub n w) as [k w1|e w1];
    simpl in H1; [|done].
  by rewrite IH.
Qed.

Lemma generate_loop_bounds verbose stubs n w k w' :
  Cli.generate_loop settings py verbose stubs n w = Return k w' →
  (n ≤ k ≤ n + length stubs)%nat.
Proof.
  revert n w. induction stubs as [|stub stubs IH]; intros n w.
  - simpl. unfold io_ret. intros [= <- _]. lia.
  - cbn [Cli.generate_loop]. unfold io_bind.
    pose proof (generate_one_outcome settings py verbose stub n w) as H1.
    destruct (Cli.generate_one settings py verbose stub n w) as [k1 w1|e w1];
      [|done].
    destruct H1 as [Hk _]. intros Hrest%IH. cbn [length]. lia.
Qed.

End CliQuiet.

(** X21. The command [generate], when not verbose and when it returns, has
    printed exactly one line, [Rendered K templates]; [K] is at most the
    number of stub files that the model directory holds after the discovery
    pass, the stubs that failed to render not being counted. *)
Theorem cli_generate_quiet_output settings py w w' :
  Cli.generate settings py false w = Return tt w' →
  ∃ generated w1 k,
    autogen_models settings py false w = Return generated w1 ∧
    (k ≤ length (glob_suffix w1 (model_dir settings) "_model.py"))%nat ∧
    stdout w' =
      (stdout w ++ ["Rendered " +:+ pretty k +:+ " templates"])%list.
Proof.
  unfold Cli.generate, io_bind, io_ret. cbn [negb].
  destruct (autogen_loop_outcome settings py false
              (discover_template_modules settings w) [] w) as [_ Hgen].
  fold (autogen_models settings py false w) in Hgen.
  destruct (autogen_models settings py false w) as [generated w1|e w1];
    [|done].
  simpl in Hgen. specialize (Hgen eq_refl).
  pose proof (generate_loop_quiet settings py
                (glob_suffix w1 (model_dir settings) "_model.py") 0 w1)
    as Hquiet.
  destruct (Cli.generate_loop settings py false _ 0 w1) as [k w2|e w2] eqn:Hloop;
    [|done].
  apply generate_loop_bounds in Hloop.
  simpl in *. unfold echo. intros [= <-].
  exists generated, w1, k. split_and!; [done|lia|].
  simpl. by rewrite Hquiet, Hgen.
Qed.

Lemma cli_generate_quiet_output_witness :
  let w := World rerun_disk [] in
  let w' :=
    World (<[ ["templateer"; "models"; "greeting_model.py"] :=
                File (Generator.stub_source greeting_module "TEMPLATE"
                        {["name"]}) ]> rerun_disk)
          ["Rendered 0 templates"] in
  ∃ generated w1 k,
    autogen_models proj_settings example_py false w = Return generated w1 ∧
    (k ≤ length (glob_suffix w1 (model_dir proj_settings) "_model.py"))%nat ∧
    stdout w' = (stdout w ++ ["Rendered " +:+ pretty k +:+ " templates"])%list.
Proof.
  intros w w'.
  apply (cli_generate_quiet_output proj_settings example_py w w').
  vm_compute; reflexivity.
Defined.

(** ** An absolute override *)

(** X22. An [__output__] that begins with a slash is not taken relative to
    the output directory: the output path is that absolute path itself,
    whatever the settings say, so [generate()] writes outside the output
    directory. *)
Theorem output_override_absolute settings self out :
  cls_output (inst_class self) = Some out →
  PyStr.startswith "/" out = true →
  _output_path settings self = PyPath.of_string out ∧
  PyPath.is_absolute (_output_path settings self) = true.
Proof.
  intros Hout Hslash.
  assert (Habs : PyPath.is_absolute (PyPath.of_string out) = true).
  { unfold PyPath.of_string. rewrite Hslash.
    by destruct (PyStr.startswith "//" out && negb (PyStr.startswith "///" out)). }
  assert (Hne : String.eqb out "" = false) by by destruct out.
  assert (Hpath : _output_path settings self = PyPath.of_string out).
  { unfold _output_path, PyPath.joinpath. by rewrite Hout, Hne, Habs. }
  by rewrite Hpath.
Qed.

Lemma output_override_absolute_witness :
  _output_path proj_settings
    {| inst_class :=
         {| cls_qualname := "templateer.models.ReportTemplate";
            cls_name := "ReportTemplate";
            cls_mro := ["templateer.models.ReportTemplate";
                        TemplateModel_qualname];
            cls_template := Some "hello.TEMPLATE";
            cls_output := Some "/etc/report.py";
            cls_fields := [] |};
       inst_fields := ∅ |} = ["/"; "etc"; "report.py"].
Proof.
  eapply eq_trans;
    [eapply proj1, (output_override_absolute proj_settings _ "/etc/report.py");
     reflexivity|].
  vm_compute; reflexivity.
Defined.

(** ** Running twice *)





Section Rerun.

Context (settings : TemplateerSettings) (py : interpreter).

Lemma autogen_one_rerun tpl_py w r w1 w2 :
  autogen_one settings py false tpl_py w = Return r w1 →
  preserved w1 w2 →
  autogen_one settings py false tpl_py w2 = Return r w2.
Proof.
  unfold autogen_one, io_bind, io_lift, io_ret.
  destruct (run_path py tpl_py) as [module|]; [|done]. simpl.
  destruct (hasattr module "TEMPLATE"); simpl; [|by intros [= <- _]].
  destruct (result_bind (getattr module "TEMPLATE") as_template_text)
    as [template|]; [|done].
  destruct (extract_template_vars template) as [vars_|]; [|done].
  destruct (Generator.write_model_stub settings module "TEMPLATE" vars_ w)
    as [q w'|] eqn:Hw; [|done].
  apply write_model_stub_returns in Hw as [-> Hex].
  intros [= <- <-] Hpre.
  rewrite write_model_stub_existing; [done|].
  by apply (preserved_exists _ _ _ Hpre).
Qed.

Lemma autogen_loop_rerun tpls generated w generated' w1 w2 g :
  autogen_loop settings py false tpls generated w = Return generated' w1 →
  preserved w1 w2 →
  autogen_loop settings py false tpls g w2 =
    Return (g ++ expected_stubs settings py tpls)%list w2.
Proof.
  revert generated w g. induction tpls as [|tpl tpls IH];
    intros generated w g.
  - intros _ _. simpl. unfold io_ret. by rewrite app_nil_r.
  - cbn [autogen_loop]. unfold io_bind.
    destruct (autogen_one settings py false tpl w) as [r wa|] eqn:Hone;
      [|done].
    intros Hrest Hpre.
    assert (Hpre1 : preserved wa w2).
    { eapply preserved_trans; [|exact Hpre].
      destruct r as [q|];
        [pose proof (proj1 (autogen_loop_outcome settings py false tpls
                              (generated ++ [q])%list wa)) as H
        |pose proof (proj1 (autogen_loop_outcome settings py false tpls
                              generated wa)) as H];
        by rewrite Hrest in H. }
    rewrite (autogen_one_rerun _ _ _ _ _ Hone Hpre1).
    pose proof (autogen_one_returns _ _ _ _ _ _ _ Hone) as ->.
    unfold expected_stubs. cbn [omap list_omap].
    destruct (exposes_TEMPLATE py tpl) as [module|]; cbn [fmap option_fmap option_map].
    + rewrite (IH _ _ _ Hrest Hpre). by rewrite <- app_assoc.
    + by rewrite (IH _ _ _ Hrest Hpre).
Qed.

End Rerun.

(** X24. The quiet discovery pass can be run again: when it has returned
    and the listing of the template directory is still the same, a second
    pass returns the same list of stub paths and changes nothing. *)
Theorem autogen_models_idempotent settings py w generated w' :
  autogen_models settings py false w = Return generated w' →
  discover_template_modules settings w' = discover_template_modules settings w →
  autogen_models settings py false w' = Return generated w'.
Proof.
  unfold autogen_models. intros Hrun Hsame. rewrite Hsame.
  rewrite (autogen_loop_rerun settings py _ _ _ _ _ w' [] Hrun
             (preserved_refl w')).
  by rewrite (autogen_loop_returns _ _ _ _ _ _ _ _ Hrun).
Qed.

Lemma autogen_models_idempotent_witness :
  let w' :=
    World (<[ ["templateer"; "models"; "greeting_model.py"] :=
                File (Generator.stub_source greeting_module "TEMPLATE"
                        {["name"]}) ]> rerun_disk) [] in
  autogen_models proj_settings example_py false w' =
    Return [ ["templateer"; "models"; "hello_model.py"];
             ["templateer"; "models"; "greeting_model.py"] ] w'.
Proof.
  intros w'.
  apply (autogen_models_idempotent proj_settings example_py
           (World rerun_disk [])); vm_compute; reflexivity.
Defined.
